(** * Batch-job lifecycle of [llm_extct_meta.py]: a shallow embedding

    The development follows the Python module function by function:
    [prepare_context_for_llm], [prepare_batch_file], [submit_batch_job],
    [check_batch_status] and [process_all_pdfs].
    The runner of the pipeline, [run_pdf_preprocessor.py], which starts the
    module as its fourth stage, is embedded after it.

    Conventions of the embedding.
    - Python [str] is [string]; the program only searches for the ASCII
      needles ["__"], ["page-"], ["/"] and ["."], so the byte view and the
      code-point view of a string agree on every operation used here.
    - A Python [dict] is an association list in insertion order
      ([PyDict.set] updates in place or appends, as CPython does); the
      order decides which request line comes first and which artifact is
      written last.
    - Values loaded by [json.load]/[json.loads] are terms of [json].  Numbers
      are integers: the program stores and copies numbers, it never computes
      with them.
    - A raised exception is the [Raise] branch of [res]; functions that touch
      the disk or the batch service thread a [world] explicitly and keep the
      effects performed before the exception.
    - The disk is a finite map from path strings to file contents: two
      different strings are two different files.  The directories the
      program writes to exist (the driver and [main] create them before any
      write) and the disk itself does not fail, so that a write raises only
      when the encoder does.  The reconciler is embedded a second time, in
      [Fallible], over a disk that can refuse to open, write or remove a
      file.
    - The batch service is the [client] argument, a record of functions; the
      requests sent to it are logged in the world.
    - Logging is left out. *)

From Stdlib Require Import String Ascii ZArith.
From stdpp Require Import gmap strings list fin_maps.

Open Scope string_scope.
Open Scope list_scope.
#[local] Set Warnings "-clear-no-such-hyp".

(** ** Python string primitives *)

Module PyStr.

(** [s.startswith(p)] *)
Fixpoint startswith (p s : string) : bool :=
  match p with
  | EmptyString => true
  | String a p' =>
      match s with
      | EmptyString => false
      | String b s' => Ascii.eqb a b && startswith p' s'
      end
  end.

(** [sub in s] *)
Fixpoint contains (sub s : string) : bool :=
  startswith sub s ||
  match s with
  | EmptyString => false
  | String _ s' => contains sub s'
  end.

(** [s.endswith(suf)] *)
Fixpoint endswith (suf s : string) : bool :=
  String.eqb s suf ||
  match s with
  | EmptyString => false
  | String _ s' => endswith suf s'
  end.

(** [s.split(sep)] for a non-empty [sep] (CPython raises [ValueError] on an
    empty separator; the program splits on ["__"] only).  Occurrences are
    taken left to right without overlap: [skip] counts the characters of a
    matched separator still to be dropped.  The result is never empty: it is
    returned as the first piece and the remaining pieces. *)
Fixpoint split_go (sep s : string) (skip : nat) : string * list string :=
  match s with
  | EmptyString => (EmptyString, [])
  | String c s' =>
      match skip with
      | S k => split_go sep s' k
      | O =>
          if startswith sep s
          then (EmptyString,
                let '(p, ps) := split_go sep s' (String.length sep - 1) in p :: ps)
          else let '(p, ps) := split_go sep s' 0 in (String c p, ps)
      end
  end.

Definition split (sep s : string) : list string :=
  let '(p, ps) := split_go sep s 0 in p :: ps.

(** [s.replace(old, new)] for a non-empty [old]: every non-overlapping
    occurrence, scanning left to right; replaced text is not rescanned. *)
Fixpoint replace_go (old new s : string) (skip : nat) : string :=
  match s with
  | EmptyString => EmptyString
  | String c s' =>
      match skip with
      | S k => replace_go old new s' k
      | O =>
          if startswith old s
          then new +:+ replace_go old new s' (String.length old - 1)
          else String c (replace_go old new s' 0)
      end
  end.

Definition replace (old new s : string) : string := replace_go old new s 0.

(** [sep.join(parts)] *)
Definition join (sep : string) (parts : list string) : string :=
  String.concat sep parts.

End PyStr.

(** ** Exceptions *)

Inductive exn : Type :=
  | AttributeError | TypeError | KeyError | ValueError
  | FileNotFoundError | JSONDecodeError
  | ServiceError.        (* whatever the OpenAI client raises *)

Inductive res (A : Type) : Type :=
  | Ok (a : A)
  | Raise (e : exn).
Arguments Ok {A} a.
Arguments Raise {A} e.

#[global] Instance res_ret : MRet res := fun A a => Ok a.
#[global] Instance res_bind : MBind res := fun A B k m =>
  match m with
  | Ok a => k a
  | Raise e => Raise e
  end.

(** ** The correlation identifier *)

Module Correlation.

(** [prepare_batch_file], line 64: [f"{pdf_name}__page-{page}"]. *)
Definition custom_id (pdf_name page : string) : string :=
  pdf_name +:+ "__page-" +:+ page.

(** [check_batch_status], lines 151-152:
    [pdf, page_part = custom_id.split("__")] raises [ValueError] unless the
    split has exactly two pieces; [page = page_part.replace("page-", "")]. *)
Definition decode (cid : string) : res (string * string) :=
  match PyStr.split "__" cid with
  | [pdf; page_part] => Ok (pdf, PyStr.replace "page-" "" page_part)
  | _ => Raise ValueError
  end.

End Correlation.

(** ** JSON values and Python dictionaries *)

#[warnings="-register-all"]
Inductive json : Type :=
  | JNull
  | JBool (b : bool)
  | JNum (n : Z)
  | JStr (s : string)
  | JArr (items : list json)
  | JObj (fields : list (string * json)).

Module PyDict.
Section Ops.
Context {V : Type}.

(** [d.get(k)] / [k in d] *)
Fixpoint get (k : string) (d : list (string * V)) : option V :=
  match d with
  | [] => None
  | (k', v) :: d' => if String.eqb k' k then Some v else get k d'
  end.

(** [d[k] = v]: an existing key keeps its position, a new key goes last. *)
Fixpoint set (k : string) (v : V) (d : list (string * V)) : list (string * V) :=
  match d with
  | [] => [(k, v)]
  | (k', v') :: d' =>
      if String.eqb k' k then (k', v) :: d' else (k', v') :: set k v d'
  end.

(** [del d[k]] for a key that is present (absent keys leave [d] as it is;
    the program only deletes keys it has just listed). *)
Fixpoint del (k : string) (d : list (string * V)) : list (string * V) :=
  match d with
  | [] => []
  | (k', v') :: d' => if String.eqb k' k then d' else (k', v') :: del k d'
  end.

Definition keys (d : list (string * V)) : list string := d.*1.

Definition mem (k : string) (d : list (string * V)) : bool :=
  match get k d with Some _ => true | None => false end.

End Ops.

(** A list is the image of a Python dict when no key is repeated. *)
Definition wf {V} (d : list (string * V)) : Prop := NoDup (keys d).

End PyDict.

Module Py.

(** [bool(v)] *)
Definition truthy (v : json) : bool :=
  match v with
  | JNull => false
  | JBool b => b
  | JNum n => negb (Z.eqb n 0)
  | JStr s => negb (String.eqb s "")
  | JArr l => match l with [] => false | _ => true end
  | JObj d => match d with [] => false | _ => true end
  end.

(** [len(v)] *)
Definition len (v : json) : res nat :=
  match v with
  | JStr s => Ok (String.length s)
  | JArr l => Ok (length l)
  | JObj d => Ok (length d)
  | _ => Raise TypeError
  end.

(** [v.items()] and [v.keys()], attributes of dicts only *)
Definition items (v : json) : res (list (string * json)) :=
  match v with
  | JObj d => Ok d
  | _ => Raise AttributeError
  end.

(** [v.get(k, default)] *)
Definition get (v : json) (k : string) (default : json) : res json :=
  match v with
  | JObj d => Ok (match PyDict.get k d with Some x => x | None => default end)
  | _ => Raise AttributeError
  end.

(** [v[k]] for a string key *)
Definition getitem (v : json) (k : string) : res json :=
  match v with
  | JObj d => match PyDict.get k d with Some x => Ok x | None => Raise KeyError end
  | _ => Raise TypeError
  end.

(** [for x in v] *)
Definition iter (v : json) : res (list json) :=
  match v with
  | JArr l => Ok l
  | JStr s => Ok ((fun c => JStr (String c "")) <$> list_ascii_of_string s)
  | JObj d => Ok (JStr <$> PyDict.keys d)
  | _ => Raise TypeError
  end.

(** [sep.join(parts)] raises [TypeError] on a part that is not a [str]. *)
Fixpoint strs (parts : list json) : res (list string) :=
  match parts with
  | [] => Ok []
  | JStr s :: rest => ss ← strs rest; Ok (s :: ss)
  | _ :: _ => Raise TypeError
  end.

Definition join (sep : string) (parts : list json) : res string :=
  ss ← strs parts; Ok (PyStr.join sep ss).

(** A receiver of [.split]/[.replace] must be a [str]. *)
Definition as_str (v : json) : res string :=
  match v with
  | JStr s => Ok s
  | _ => Raise AttributeError
  end.

End Py.

(** ** Paths ([os.path], [pathlib], POSIX flavour) *)

Module PyPath.

(** [os.path.join(a, b)] *)
Definition join (a b : string) : string :=
  if PyStr.startswith "/" b then b
  else if String.eqb a "" || PyStr.endswith "/" a then a +:+ b
  else a +:+ "/" +:+ b.

(** [s.rfind(c)] for a single character *)
Fixpoint rfind (c : ascii) (s : string) : option nat :=
  match s with
  | EmptyString => None
  | String a s' =>
      match rfind c s' with
      | Some i => Some (S i)
      | None => if Ascii.eqb a c then Some 0 else None
      end
  end.

(** [Path(p).name]: the last component of the path once empty and ["."]
    components are dropped, [""] if none is left. *)
Definition name (p : string) : string :=
  List.last
    (List.filter (fun c => negb (String.eqb c "" || String.eqb c "."))
                 (PyStr.split "/" p))
    "".

(** [Path(p).stem]: the name without its last suffix; a dot in first or in
    last position does not start a suffix ([0 < i < len(name) - 1] for
    [i = name.rfind(".")]). *)
Definition stem (p : string) : string :=
  let n := name p in
  match rfind "." n with
  | Some i =>
      if Nat.ltb 0 i && Nat.ltb i (String.length n - 1)
      then String.substring 0 i n else n
  | None => n
  end.

End PyPath.

(** ** The disk and the batch service *)

Inductive file : Type :=
  | JsonFile (j : json)            (* one JSON document *)
  | JsonlFile (lines : list json)  (* one JSON document per line *)
  | BrokenFile.                    (* text that [json.load] rejects *)

(** [json.load(f)] *)
Definition json_load (f : file) : res json :=
  match f with
  | JsonFile j => Ok j
  | JsonlFile [j] => Ok j
  | _ => Raise JSONDecodeError
  end.

(** An object handed to [json.dump]: JSON data, or something the encoder
    has no rule for (a set, bytes, an arbitrary instance). *)
Inductive pyobj : Type :=
  | Data (j : json)
  | Opaque.

(** A batch as [client.batches.retrieve] returns it. *)
Record batch : Type := Batch {
  status : string;
  output_file_id : option string;
}.

(** The [client] argument.  A method returns [Raise] when the call raises.
    [files_content] stands for [client.files.content(id).text] already cut
    into lines by [.strip().split('\n')] and passed through [json.loads]:
    it is [Raise] when the download or the parsing of a line raises.  (A
    real download has at least one line: an empty text is one empty line,
    which [json.loads] rejects.) *)
Record client : Type := Client {
  files_create : file -> res string;
  batches_create : string -> res string;
  batches_retrieve : json -> res batch;
  files_content : string -> res (list json);
}.

Inductive api_call : Type :=
  | FilesCreate (content : file)
  | BatchesCreate (input_file_id : string)
  | BatchesRetrieve (batch_id : json)
  | FilesContent (file_id : string).

Record world : Type := World {
  disk : gmap string file;
  calls : list api_call;         (* requests sent to the service, oldest first *)
}.

(** What the module takes from its surroundings. *)
Record runtime : Type := Runtime {
  py_str : json -> string;       (* [str(v)] of a value that is not a [str] *)
  now_isoformat : string;        (* [datetime.now().isoformat()] *)
  system_prompts : string;       (* constant of [schema_and_prompts] *)
  OpenAI : string -> client;     (* [OpenAI(api_key=...)] *)
}.

(** Effectful code: the world is threaded through, and an exception keeps
    the effects that came before it. *)
Definition io (A : Type) : Type := world -> res A * world.

#[global] Instance io_ret : MRet io := fun A a w => (Ok a, w).
#[global] Instance io_bind : MBind io := fun A B k m w =>
  match m w with
  | (Ok a, w') => k a w'
  | (Raise e, w') => (Raise e, w')
  end.

Module IO.

Definition lift {A} (r : res A) : io A := fun w => (r, w).

Definition raise {A} (e : exn) : io A := fun w => (Raise e, w).

(** [try: m except Exception as e: h e] *)
Definition try_except {A} (m : io A) (h : exn -> io A) : io A := fun w =>
  match m w with
  | (Ok a, w') => (Ok a, w')
  | (Raise e, w') => h e w'
  end.

(** [os.path.exists(path)] *)
Definition exists_ (path : string) : io bool := fun w =>
  (Ok (bool_decide (is_Some (disk w !! path))), w).

(** [open(path)] for reading *)
Definition read (path : string) : io file := fun w =>
  match disk w !! path with
  | Some f => (Ok f, w)
  | None => (Raise FileNotFoundError, w)
  end.

(** [open(path, "w")] followed by a complete write *)
Definition write (path : string) (f : file) : io unit := fun w =>
  (Ok tt, World (<[path := f]> (disk w)) (calls w)).

(** [os.remove(path)] *)
Definition remove (path : string) : io unit := fun w =>
  match disk w !! path with
  | Some _ => (Ok tt, World (delete path (disk w)) (calls w))
  | None => (Raise FileNotFoundError, w)
  end.

(** A request to the service: recorded, then answered. *)
Definition call {A} (c : api_call) (answer : res A) : io A := fun w =>
  (answer, World (disk w) (calls w ++ [c])).

(** [with open(path, "w") as f: json.dump(obj, f)].  The file is created or
    truncated before the encoder runs; when the encoder raises, what it
    wrote so far stays in the file. *)
Definition json_dump (obj : pyobj) (path : string) : io unit :=
  match obj with
  | Data j => write path (JsonFile j)
  | Opaque => write path BrokenFile;; raise TypeError
  end.

(** [for x in xs: body x] *)
Fixpoint for_ {A} (xs : list A) (body : A -> io unit) : io unit :=
  match xs with
  | [] => mret tt
  | x :: xs' => body x;; for_ xs' body
  end.

End IO.

(** ** The program *)

(** [for x in xs: acc = step acc x], stopping at the first exception *)
Fixpoint foldM {A S} (step : S -> A -> res S) (xs : list A) (acc : S) : res S :=
  match xs with
  | [] => Ok acc
  | x :: xs' => acc' ← step acc x; foldM step xs' acc'
  end.

(** [[f(x) for x in xs]] *)
Fixpoint traverse {A B} (f : A -> res B) (xs : list A) : res (list B) :=
  match xs with
  | [] => Ok []
  | x :: xs' => y ← f x; ys ← traverse f xs'; Ok (y :: ys)
  end.

(** [v == s] for a string literal [s] *)
Definition is_str (v : json) (s : string) : bool :=
  match v with
  | JStr t => String.eqb t s
  | _ => false
  end.

(** [s in l] *)
Definition str_in (s : string) (l : list string) : bool :=
  existsb (String.eqb s) l.

(** [f"{v}"] *)
Definition fstr (rt : runtime) (v : json) : string :=
  match v with
  | JStr s => s
  | _ => py_str rt v
  end.

(** Lines 42-47: what one element appends to [parts]. *)
Definition context_part (rt : runtime) (item : json) : res json :=
  category ← Py.get item "category" JNull;
  if is_str category "Table" then
    analysis ← Py.get item "table_analysis" (JStr "");
    Ok (JStr ("Table: " +:+ fstr rt analysis))
  else if is_str category "Image" then
    analysis ← Py.get item "vision_analysis" (JStr "");
    Ok (JStr ("Image: " +:+ fstr rt analysis))
  else
    Py.get item "content" (JStr "").

(** Lines 39-48: the body of the loop over pages. *)
Definition context_step (rt : runtime)
    (contexts : list (string * string)) (entry : string * json)
  : res (list (string * string)) :=
  let '(page, items) := entry in
  elements ← Py.iter items;
  parts ← traverse (context_part rt) elements;
  context ← Py.join " " (JStr ("Page " +:+ page +:+ ":") :: parts);
  Ok (PyDict.set page context contexts).

Definition prepare_context_for_llm (rt : runtime) (pdf_data : json)
  : res (list (string * string)) :=
  _ ← Py.len pdf_data;
  pages ← Py.items pdf_data;
  foldM (context_step rt) pages [].

(** Lines 65-75: one request object. *)
Definition request (custom_id model system_prompt context : string) : json :=
  JObj [("custom_id", JStr custom_id);
        ("body", JObj [
           ("model", JStr model);
           ("messages", JArr [
              JObj [("role", JStr "system"); ("content", JStr system_prompt)];
              JObj [("role", JStr "user"); ("content", JStr context)]]);
           ("max_completion_tokens", JNum 6000)])].

(** Lines 63-77: the loop over the pages of one document; the accumulator is
    [batch_lines] and [pdf_meta["pages"]]. *)
Definition page_step (pdf_name system_prompt model : string)
    (acc : list json * list (string * json)) (entry : string * string)
  : list json * list (string * json) :=
  let '(batch_lines, pages_meta) := acc in
  let '(page, context) := entry in
  let custom_id := Correlation.custom_id pdf_name page in
  (batch_lines ++ [request custom_id model system_prompt context],
   PyDict.set page (JObj [("status", JStr "queued")]) pages_meta).

(** Lines 60-78: the loop over documents; the accumulator is [batch_lines]
    and [batch_metadata]. *)
Definition pdf_step (rt : runtime) (system_prompt model : string)
    (acc : list json * list (string * json)) (entry : string * json)
  : res (list json * list (string * json)) :=
  let '(batch_lines, batch_metadata) := acc in
  let '(pdf_name, pages) := entry in
  contexts ← prepare_context_for_llm rt pages;
  let '(batch_lines, pages_meta) :=
    fold_left (page_step pdf_name system_prompt model) contexts (batch_lines, []) in
  Ok (batch_lines,
      PyDict.set pdf_name (JObj [("pages", JObj pages_meta)]) batch_metadata).

(** Lines 58-78 of [prepare_batch_file]: the request lines and the metadata
    skeleton, before anything is written. *)
Definition batch_requests (rt : runtime) (pdf_data : json) (system_prompt model : string)
  : res (list json * list (string * json)) :=
  documents ← Py.items pdf_data;
  foldM (pdf_step rt system_prompt model) documents ([], []).

Definition prepare_batch_file (rt : runtime) (pdf_data : json)
    (system_prompt model : string) : io (string * json) :=
  '(batch_lines, batch_metadata) ← IO.lift (batch_requests rt pdf_data system_prompt model);
  let batch_file_path := "batch_requests.jsonl" in
  IO.write batch_file_path (JsonlFile batch_lines);;
  mret (batch_file_path, JObj batch_metadata).

(** Lines 104-110: the job record handed to [json.dump]. *)
Definition job_record (batch_id input_file_id created_at : string) (metadata : pyobj)
  : pyobj :=
  match metadata with
  | Data m =>
      Data (JObj [("batch_id", JStr batch_id);
                  ("input_file_id", JStr input_file_id);
                  ("created_at", JStr created_at);
                  ("status", JStr "submitted");
                  ("metadata", m)])
  | Opaque => Opaque
  end.

(** Lines 111, 126 and 183: [os.path.join(state_dir, "batch_info.json")] *)
Definition batch_info_path (state_dir : string) : string :=
  PyPath.join state_dir "batch_info.json".

Definition submit_batch_job (rt : runtime) (c : client)
    (batch_file_path state_dir : string) (metadata : pyobj) : io (option string) :=
  IO.try_except
    (f ← IO.read batch_file_path;
     input_file_id ← IO.call (FilesCreate f) (files_create c f);
     batch_id ← IO.call (BatchesCreate input_file_id) (batches_create c input_file_id);
     let batch_info := job_record batch_id input_file_id (now_isoformat rt) metadata in
     IO.json_dump batch_info (batch_info_path state_dir);;
     mret (Some batch_id))
    (fun _ => mret None).

(** Lines 157 and 203: [os.path.join(output_dir, f"{Path(pdf).stem}_metadata.json")] *)
Definition output_file (output_dir pdf : string) : string :=
  PyPath.join output_dir (PyPath.stem pdf +:+ "_metadata.json").

(** Lines 149-155: one downloaded result is filed under its document and page. *)
Definition result_step (pdf_results : list (string * list (string * json))) (result : json)
  : res (list (string * list (string * json))) :=
  custom_id ← Py.getitem result "custom_id";
  custom_id ← Py.as_str custom_id;
  '(pdf, page) ← Correlation.decode custom_id;
  let pdf_results :=
    if PyDict.mem pdf pdf_results then pdf_results else PyDict.set pdf [] pdf_results in
  response ← Py.get result "response" (JObj []);
  let pages := default [] (PyDict.get pdf pdf_results) in
  Ok (PyDict.set pdf (PyDict.set page response pages) pdf_results).

(** Lines 156-160: one artifact per document, in the order of first appearance. *)
Definition write_results (output_dir : string)
    (pdf_results : list (string * list (string * json))) : io unit :=
  IO.for_ pdf_results (fun '(pdf, data) =>
    IO.write (output_file output_dir pdf) (JsonFile (JObj data))).

(** [batch.output_file_id] used as a condition *)
Definition has_output (b : batch) : bool :=
  match output_file_id b with
  | Some id => negb (String.eqb id "")
  | None => false
  end.

Definition check_batch_status (c : client) (state_dir output_dir : string) : io string :=
  let batch_info_path := batch_info_path state_dir in
  found ← IO.exists_ batch_info_path;
  if negb found then mret "not_found" else
  IO.try_except
    (f ← IO.read batch_info_path;
     batch_info ← IO.lift (json_load f);
     batch_id ← IO.lift (Py.get batch_info "batch_id" JNull);
     if negb (Py.truthy batch_id) then mret "error" else
     b ← IO.call (BatchesRetrieve batch_id) (batches_retrieve c batch_id);
     (* batch_info["status"] = status *)
     fields ← IO.lift (Py.items batch_info);
     let batch_info := JObj (PyDict.set "status" (JStr (status b)) fields) in
     IO.write batch_info_path (JsonFile batch_info);;
     if String.eqb (status b) "completed" && has_output b then
       let id := default "" (output_file_id b) in
       batch_results ← IO.call (FilesContent id) (files_content c id);
       pdf_results ← IO.lift (foldM result_step batch_results []);
       write_results output_dir pdf_results;;
       IO.remove batch_info_path;;
       mret "completed_and_processed"
     else mret (status b))
    (fun _ => mret "error").

(** Lines 203-206: a document whose artifact exists is deleted from
    [analyzed_data]. *)
Definition skip_step (output_dir : string) (d : gmap string file)
    (data : list (string * json)) (pdf : string) : list (string * json) :=
  if bool_decide (is_Some (d !! output_file output_dir pdf))
  then PyDict.del pdf data else data.

(** Lines 202-206: the loop over [list(analyzed_data.keys())]. *)
Definition skip_processed (output_dir : string) (analyzed_data : list (string * json))
  : io (list (string * json)) :=
  fun w =>
    (Ok (fold_left (skip_step output_dir (disk w))
                   (PyDict.keys analyzed_data) analyzed_data),
     w).

(** Lines 197-220, the part of [process_all_pdfs] that follows the check of
    an existing job: load the candidates, drop the documents that already
    have an artifact, compile, submit, remove the staging file. *)
Definition submit_new_job (rt : runtime) (c : client)
    (analyzed_data_file output_dir state_dir model : string) : io unit :=
  f ← IO.read analyzed_data_file;
  analyzed_data ← IO.lift (json_load f);
  documents ← IO.lift (Py.items analyzed_data);
  documents ← skip_processed output_dir documents;
  if negb (Py.truthy (JObj documents)) then mret tt else
  staged ← prepare_batch_file rt (JObj documents) (system_prompts rt) model;
  let batch_file := staged.1 in
  let batch_metadata := staged.2 in
  _ ← submit_batch_job rt c batch_file state_dir (Data batch_metadata);
  still_there ← IO.exists_ batch_file;
  if (still_there : bool) then IO.remove batch_file else mret tt.

Definition process_all_pdfs (rt : runtime)
    (analyzed_data_file api_key output_dir model : string) : io unit :=
  let state_dir := PyPath.join output_dir "state" in
  let c := OpenAI rt api_key in
  let batch_info_path := batch_info_path state_dir in
  found ← IO.exists_ batch_info_path;
  if (found : bool) then
    status ← check_batch_status c state_dir output_dir;
    if str_in status ["completed"; "completed_and_processed"] then mret tt
    else if str_in status ["submitted"; "in_progress"] then mret tt
    else
      (_ ← IO.remove batch_info_path;
       submit_new_job rt c analyzed_data_file output_dir state_dir model) : io unit
  else submit_new_job rt c analyzed_data_file output_dir state_dir model.

(** ** Vocabulary of the statements *)

(** *** Inputs of the context builder and of the compiler *)

(** An element the context builder accepts: an object, whose [content] is a
    string when the element is neither a table nor an image. *)
Definition element_ok (item : json) : bool :=
  match item with
  | JObj d =>
      let category := default JNull (PyDict.get "category" d) in
      if is_str category "Table" || is_str category "Image" then true
      else match PyDict.get "content" d with
           | Some (JStr _) | None => true
           | Some _ => false
           end
  | _ => false
  end.

(** The text one element contributes, as the code computes it: a table or an
    image contributes a label followed by its analysis. *)
Definition effective_text (rt : runtime) (item : json) : string :=
  match item with
  | JObj d =>
      let category := default JNull (PyDict.get "category" d) in
      if is_str category "Table" then
        "Table: " +:+ fstr rt (default (JStr "") (PyDict.get "table_analysis" d))
      else if is_str category "Image" then
        "Image: " +:+ fstr rt (default (JStr "") (PyDict.get "vision_analysis" d))
      else match PyDict.get "content" d with
           | Some (JStr s) => s
           | _ => ""
           end
  | _ => ""
  end.

Definition page_context (rt : runtime) (page : string) (items : list json) : string :=
  PyStr.join " " (("Page " +:+ page +:+ ":") :: (effective_text rt <$> items)).

(** The effective text in the words of section 4.1 of the specification: the
    analysis field itself for a table or an image. *)
Definition spec_effective_text (item : json) : string :=
  match item with
  | JObj d =>
      let category := default JNull (PyDict.get "category" d) in
      if is_str category "Table" then
        match PyDict.get "table_analysis" d with Some (JStr s) => s | _ => "" end
      else if is_str category "Image" then
        match PyDict.get "vision_analysis" d with Some (JStr s) => s | _ => "" end
      else match PyDict.get "content" d with
           | Some (JStr s) => s
           | _ => ""
           end
  | _ => ""
  end.

(** Typed inputs and their JSON form. *)
Definition pages_json (pages : list (string * list json)) : json :=
  JObj ((fun '(page, items) => (page, JArr items)) <$> pages).

Definition documents_json (docs : list (string * list (string * list json))) : json :=
  JObj ((fun '(pdf, pages) => (pdf, pages_json pages)) <$> docs).

Definition pages_ok (pages : list (string * list json)) : Prop :=
  NoDup pages.*1 /\
  Forall (fun '(_, items) => Forall (fun item => element_ok item = true) items) pages.

Definition documents_ok (docs : list (string * list (string * list json))) : Prop :=
  NoDup docs.*1 /\ Forall (fun '(_, pages) => pages_ok pages) docs.

(** The (document, page) pairs of an input, in iteration order. *)
Definition page_pairs (docs : list (string * list (string * list json)))
  : list (string * string) :=
  docs ≫= (fun '(pdf, pages) => pair pdf <$> pages.*1).

Definition total_pages (docs : list (string * list (string * list json))) : nat :=
  sum_list ((fun '(_, pages) => length pages) <$> docs).

(** [json.loads(line)["custom_id"]] *)
Definition line_custom_id (line : json) : res json := Py.getitem line "custom_id".

(** The request lines of an input, document by document and page by page. *)
Definition request_lines (rt : runtime) (system_prompt model : string)
    (docs : list (string * list (string * list json))) : list json :=
  docs ≫= (fun '(pdf, pages) =>
    (fun '(page, items) =>
       request (Correlation.custom_id pdf page) model system_prompt
               (page_context rt page items)) <$> pages).

(** *** Reconciliation *)

(** A downloaded line that answers page [page] of document [pdf] with
    [payload]: an object whose [custom_id] decodes to the pair, [payload]
    being its [response] (an empty object when the line has none). *)
Definition result_for (pdf page : string) (payload : json) (line : json) : Prop :=
  exists fields cid,
    line = JObj fields /\
    PyDict.get "custom_id" fields = Some (JStr cid) /\
    Correlation.decode cid = Ok (pdf, page) /\
    payload = default (JObj []) (PyDict.get "response" fields).

(** [data[page] = payload] for each answer in turn. *)
Definition file_answers (answers : list (string * json)) (data : list (string * json))
  : list (string * json) :=
  fold_left (fun data '(page, payload) => PyDict.set page payload data) answers data.

(** The answers of one document, in download order. *)
Definition pages_of (pdf : string) (answers : list (string * string * json))
  : list (string * json) :=
  omap (fun '(doc, page, payload) =>
          if String.eqb doc pdf then Some (page, payload) else None) answers.

(** [pdf_results[doc][page] = payload], the group of [doc] being created
    when this is its first answer. *)
Definition file_result (pdf_results : list (string * list (string * json)))
    (answer : string * string * json) : list (string * list (string * json)) :=
  let '(doc, page, payload) := answer in
  PyDict.set doc (PyDict.set page payload (default [] (PyDict.get doc pdf_results)))
             pdf_results.

(** The disk after the artifacts of [pdf_results] have been written in order. *)
Definition store_results (output_dir : string)
    (pdf_results : list (string * list (string * json)))
    (d : gmap string file) : gmap string file :=
  fold_left (fun d '(pdf, data) => <[output_file output_dir pdf := JsonFile (JObj data)]> d)
            pdf_results d.

(** A service with its own vocabulary of job statuses: the word
    ["completed_and_processed"], which belongs to the reconciler, is not one
    of them. *)
Definition speaks_job_statuses (c : client) : Prop :=
  forall batch_id b, batches_retrieve c batch_id = Ok b -> status b ≠ "completed_and_processed".

(** [n] further calls of [check_batch_status] on the same state directory. *)
Fixpoint recheck (n : nat) (c : client) (state_dir output_dir : string) (w : world)
  : list (res string) * world :=
  match n with
  | O => ([], w)
  | S n' =>
      let '(r, w') := check_batch_status c state_dir output_dir w in
      let '(rs, w'') := recheck n' c state_dir output_dir w' in
      (r :: rs, w'')
  end.

(** The value of [key] in the job record of [state_dir], if there is one. *)
Definition recorded (state_dir key : string) (w : world) : option json :=
  match disk w !! batch_info_path state_dir with
  | Some (JsonFile (JObj fields)) => PyDict.get key fields
  | _ => None
  end.

Definition call_name (c : api_call) : string :=
  match c with
  | FilesCreate _ => "files.create"
  | BatchesCreate _ => "batches.create"
  | BatchesRetrieve _ => "batches.retrieve"
  | FilesContent _ => "files.content"
  end.

(** *** Sample data *)

Definition sample_runtime (c : client) : runtime :=
  Runtime (fun _ => "") "2025-01-01T00:00:00" "Extract metadata." (fun _ => c).

(** A service on which every call succeeds and the job has the given status. *)
Definition service (job_status : string) (output : option string) (results : list json)
  : client :=
  Client (fun _ => Ok "file-1") (fun _ => Ok "batch-2")
         (fun _ => Ok (Batch job_status output))
         (fun _ => Ok results).

Definition sample_fields (recorded_status : string) : list (string * json) :=
  [("batch_id", JStr "batch-1");
   ("input_file_id", JStr "file-0");
   ("created_at", JStr "2024-12-31T00:00:00");
   ("status", JStr recorded_status);
   ("metadata", JObj [])].

Definition sample_record (recorded_status : string) : json :=
  JObj (sample_fields recorded_status).

Definition sample_world (recorded_status : string) (analyzed : json) : world :=
  World (<["out/state/batch_info.json" := JsonFile (sample_record recorded_status)]>
           (<["data.json" := JsonFile analyzed]> ∅))
        [].

Definition text_element (s : string) : json := JObj [("content", JStr s)].

Definition scenario_documents : list (string * list (string * list json)) :=
  [("A.pdf", [("1", [text_element "text1"])]);
   ("B.pdf", [("1", [text_element "text2"]); ("2", [text_element "text3"])])].

(** The input of the scenario as the specification writes it: each page is
    mapped to its text. *)
Definition scenario_as_written : json :=
  JObj [("A.pdf", JObj [("1", JStr "text1")]);
        ("B.pdf", JObj [("1", JStr "text2"); ("2", JStr "text3")])].

(** *** The job record, the requests and the downloaded lines *)

(** The job identifier that [check_batch_status] takes from a record file
    (lines 131-134): the file parses, it holds an object, and the value of
    [batch_id] passes for true. *)
Definition record_batch_id (f : file) : option json :=
  match json_load f with
  | Ok (JObj fields) =>
      match PyDict.get "batch_id" fields with
      | Some bid => if Py.truthy bid then Some bid else None
      | None => None
      end
  | _ => None
  end.

(** A request that asks the service for something, as opposed to one that
    uploads a file or creates a job. *)
Definition is_read (q : api_call) : bool :=
  match q with
  | BatchesRetrieve _ | FilesContent _ => true
  | FilesCreate _ | BatchesCreate _ => false
  end.

(** A downloaded line that the grouping loop (lines 149-155) can file. *)
Definition decodes (line : json) : bool :=
  match result_step [] line with
  | Ok _ => true
  | Raise _ => false
  end.

(** The download of the output file [oid] does not give results that can all
    be filed: the request or the parsing raises, or some line does not
    decode. *)
Definition download_fails (c : client) (oid : string) : Prop :=
  match files_content c oid with
  | Ok lines => Exists (fun line => decodes line = false) lines
  | Raise _ => True
  end.

(** The line with which the service answers the request of a (document,
    page) pair, [answer pdf page] being the response. *)
Definition result_line (answer : string -> string -> json) (pair : string * string) : json :=
  let '(pdf, page) := pair in
  JObj [("custom_id", JStr (Correlation.custom_id pdf page));
        ("response", answer pdf page)].

(** Identifiers that survive the correlation round trip. *)
Definition name_ok (pdf : string) : bool :=
  negb (PyStr.contains "__" pdf) && negb (PyStr.endswith "_" pdf).

Definition page_name_ok (page : string) : bool :=
  negb (PyStr.contains "__" page) && negb (PyStr.contains "page-" page).

Definition names_ok (docs : list (string * list (string * list json))) : bool :=
  forallb (fun '(pdf, pages) =>
             name_ok pdf && forallb (fun '(page, _) => page_name_ok page) pages) docs.

(** *** The compiler's second result and the driver's filter *)

(** Line 77: the entry of a page in the metadata skeleton. *)
Definition queued : json := JObj [("status", JStr "queued")].

(** The metadata skeleton of an input (lines 62, 77 and 78): every document
    with its pages, each page marked as queued. *)
Definition skeleton (docs : list (string * list (string * list json)))
  : list (string * json) :=
  (fun '(pdf, pages) =>
     (pdf, JObj [("pages", JObj ((fun '(page, _) => (page, queued)) <$> pages))])) <$> docs.

(** Some element of some page is not one the context builder accepts. *)
Definition has_malformed_element (docs : list (string * list (string * list json))) : Prop :=
  Exists (fun '(_, pages) =>
    Exists (fun '(_, items) => Exists (fun item => element_ok item = false) items) pages) docs.

(** Line 204: the artifact of [pdf] exists. *)
Definition has_artifact (output_dir : string) (d : gmap string file) (pdf : string) : bool :=
  bool_decide (is_Some (d !! output_file output_dir pdf)).

(** The documents without artifact, in the order of the input. *)
Definition remaining {V} (output_dir : string) (d : gmap string file)
    (docs : list (string * V)) : list (string * V) :=
  List.filter (fun entry => negb (has_artifact output_dir d entry.1)) docs.

(** Line 79: the name of the staging file. *)
Definition staging_file : string := "batch_requests.jsonl".

(** The requests of one submission: nothing, an upload, or an upload
    followed by the creation of a job. *)
Definition one_submission (sent : list api_call) : Prop :=
  sent = [] \/ (exists f, sent = [FilesCreate f]) \/
  (exists f fid, sent = [FilesCreate f; BatchesCreate fid]).

(** What a run of the driver may do to the disk: the files other than the
    staging file, the job record and the artifacts stay as they are, and no
    artifact is removed. *)
Definition keeps_foreign_files (od sd : string) (d d' : gmap string file) : Prop :=
  (forall path,
     path <> staging_file -> path <> batch_info_path sd ->
     (forall pdf, path <> output_file od pdf) ->
     d' !! path = d !! path) /\
  (forall pdf, is_Some (d !! output_file od pdf) -> is_Some (d' !! output_file od pdf)).

(** *** Further sample data *)

(** A job record that [json.load] rejects. *)
Definition broken_record_world : world :=
  World {["out/state/batch_info.json" := BrokenFile]} [].

(** The documents of the scenario are the candidates, there is no job, and
    [A.pdf] already has its artifact. *)
Definition half_done_world : world :=
  World (<["out/A_metadata.json" := JsonFile (JObj [])]>
           (<["data.json" := JsonFile (documents_json scenario_documents)]> ∅))
        [].

(** A downloaded line for [custom_id], with a fixed response. *)
Definition sample_line (custom_id : string) : json :=
  JObj [("custom_id", JStr custom_id); ("response", JObj [("x", JNum 1)])].

(** ** The pipeline runner ([run_pdf_preprocessor.py])

    The runner starts the five stages of the pipeline as child processes, the
    fourth being [llm_extct_meta.py].  What a child process does is not the
    runner's business: [subprocess.run] is a function of the host.  As
    before, creating a directory does not fail, and logging and timing are
    left out.  [main] is embedded from the parsed arguments on. *)

Module Runner.

(** [pathlib] on a POSIX host: the root of a path is ["//"] when the path
    starts with exactly two slashes, ["/"] when it starts with another
    number of them; empty and ["."] components are dropped. *)
Definition root (p : string) : string :=
  if PyStr.startswith "//" p && negb (PyStr.startswith "///" p) then "//"
  else if PyStr.startswith "/" p then "/"
  else "".

Definition parts (p : string) : list string :=
  List.filter (fun c => negb (String.eqb c "" || String.eqb c "."))
              (PyStr.split "/" p).

(** [str(Path(p) / child_1 / ... / child_n)] for children that are plain
    names. *)
Definition path_str (p : string) (children : list string) : string :=
  match (parts p ++ children)%list with
  | [] => if String.eqb (root p) "" then "." else root p
  | l => root p +:+ PyStr.join "/" l
  end.

(** The parsed arguments (lines 59-66). *)
Record args : Type := Args {
  zip : string;
  dataset : string;
  output_dir : string;
  api_key : string;
  anthropic_api_key : string;
  start_step : Z;
}.

(** What the runner changes on its host: the environment, the directories
    it creates and the commands it has run, oldest first. *)
Record host : Type := Host {
  environ : list (string * string);
  made : list string;
  ran : list (list string);
}.

(** [subprocess.run(command, ...)] on a host: the return code of the child,
    or [Raise] when the call raises something else than
    [CalledProcessError] (the program cannot be started, say). *)
Definition machine : Type := host -> list string -> res Z.

(** [os.environ[k] = v] *)
Definition setenv (k v : string) (s : host) : host :=
  Host (PyDict.set k v (environ s)) (made s) (ran s).

(** [d.mkdir(parents=True, exist_ok=True)] *)
Definition mkdir (d : string) (s : host) : host :=
  Host (environ s) (made s ++ [d])%list (ran s).

(** Lines 27-56: with [check=True] a return code other than 0 raises
    [CalledProcessError], which is caught and answered with [False]. *)
Definition run_command (m : machine) (command : list string) (s : host)
  : res bool * host :=
  let s' := Host (environ s) (made s) (ran s ++ [command])%list in
  match m s command with
  | Ok returncode => (Ok (Z.eqb returncode 0), s')
  | Raise e => (Raise e, s')
  end.

(** One block of [main], lines 88-94 and alike:
    [if args.start_step <= number: if not run_command(...): return 1];
    [next] is the rest of the function. *)
Definition step (m : machine) (start_step number : Z) (command : list string)
    (next : host -> res Z * host) (s : host) : res Z * host :=
  if (start_step <=? number)%Z then
    match run_command m command s with
    | (Ok true, s') => next s'
    | (Ok false, s') => (Ok 1%Z, s')
    | (Raise e, s') => (Raise e, s')
    end
  else next s.

(** Lines 68-134. *)
Definition main (m : machine) (a : args) (s : host) : res Z * host :=
  let s := setenv "OPENAI_API_KEY" (api_key a) s in
  let s := setenv "ANTHROPIC_API_KEY" (anthropic_api_key a) s in
  let base_dir := output_dir a in
  let metadata := path_str base_dir [] in
  let ocr := path_str base_dir ["ocr_data"] in
  let analyzed := path_str base_dir ["analyzed_data"] in
  let llm_meta := path_str base_dir ["llm_extr_meta"] in
  let aggregated := path_str base_dir ["aggregated"] in
  let s := fold_left (fun s d => mkdir d s)
                     [metadata; ocr; analyzed; llm_meta; aggregated] s in
  let metadata_json := path_str base_dir ["selected_metadata.json"] in
  let analyzed_all_json :=
    path_str base_dir ["analyzed_data"; "all_documents_analyzed.json"] in
  step m (start_step a) 1
    ["python"; "zip_extract.py"; "--zip"; zip a; "--dataset"; dataset a;
     "--output"; metadata_json]
  (step m (start_step a) 2
    ["python"; "pdf_extract.py"; "--zip"; zip a; "--output"; ocr]
  (step m (start_step a) 3
    ["python"; "llm_img_tbl_job.py"; "--ocr_folder"; ocr; "--output"; analyzed]
  (step m (start_step a) 4
    ["python"; "llm_extct_meta.py"; "--analyzed_data"; analyzed_all_json;
     "--output_dir"; llm_meta; "--batch_size"; "10"]
  (step m (start_step a) 5
    ["python"; "aggregated.py"; "--target"; metadata_json;
     "--metadata_dir"; llm_meta; "--output_dir"; aggregated]
  (fun s => (Ok 0%Z, s)))))) s.

(** *** Vocabulary of the statements on the runner *)

(** The commands of the five steps, in order. *)
Definition commands (a : args) : list (list string) :=
  let base_dir := output_dir a in
  [["python"; "zip_extract.py"; "--zip"; zip a; "--dataset"; dataset a;
    "--output"; path_str base_dir ["selected_metadata.json"]];
   ["python"; "pdf_extract.py"; "--zip"; zip a; "--output"; path_str base_dir ["ocr_data"]];
   ["python"; "llm_img_tbl_job.py"; "--ocr_folder"; path_str base_dir ["ocr_data"];
    "--output"; path_str base_dir ["analyzed_data"]];
   ["python"; "llm_extct_meta.py"; "--analyzed_data";
    path_str base_dir ["analyzed_data"; "all_documents_analyzed.json"];
    "--output_dir"; path_str base_dir ["llm_extr_meta"]; "--batch_size"; "10"];
   ["python"; "aggregated.py"; "--target"; path_str base_dir ["selected_metadata.json"];
    "--metadata_dir"; path_str base_dir ["llm_extr_meta"];
    "--output_dir"; path_str base_dir ["aggregated"]]].

(** The commands from [start_step] on. *)
Definition todo (a : args) : list (list string) :=
  drop (Z.to_nat (start_step a - 1)) (commands a).

Definition directories (a : args) : list string :=
  let base_dir := output_dir a in
  [path_str base_dir []; path_str base_dir ["ocr_data"];
   path_str base_dir ["analyzed_data"]; path_str base_dir ["llm_extr_meta"];
   path_str base_dir ["aggregated"]].

(** The host once the keys are exported and the directories made. *)
Definition setup (a : args) (s : host) : host :=
  fold_left (fun s d => mkdir d s) (directories a)
    (setenv "ANTHROPIC_API_KEY" (anthropic_api_key a)
       (setenv "OPENAI_API_KEY" (api_key a) s)).

(** The host when the first [n] of the commands to be run have been run. *)
Definition after (a : args) (s : host) (n : nat) : host :=
  Host (environ (setup a s)) (made (setup a s)) (ran s ++ take n (todo a))%list.

(** Commands run one after the other until one does not succeed. *)
Fixpoint run_steps (m : machine) (cs : list (list string)) (s : host) : res Z * host :=
  match cs with
  | [] => (Ok 0%Z, s)
  | command :: rest =>
      match run_command m command s with
      | (Ok true, s') => run_steps m rest s'
      | (Ok false, s') => (Ok 1%Z, s')
      | (Raise e, s') => (Raise e, s')
      end
  end.

(** What [main] returns when a command ends with [outcome], not a success. *)
Definition failure (outcome : res Z) : res Z :=
  match outcome with
  | Ok _ => Ok 1%Z
  | Raise e => Raise e
  end.

(** The arguments with their defaults, and two keys. *)
Definition sample_args (start_step : Z) : args :=
  Args "temp_pdfs/pdfs.zip" "data/dataset_v2.json" "results" "sk-1" "sk-2" start_step.

(** A host on which every stage succeeds but the fourth, which exits with 2. *)
Definition fourth_stage_fails : machine :=
  fun _ command => if str_in "llm_extct_meta.py" command then Ok 2%Z else Ok 0%Z.

End Runner.

(** ** The reconciler on a disk that can fail ([check_batch_status], lines 121-167)

    Lines 131-161 open, write and remove files inside the [try] of line 130,
    and the operating system can refuse any of it: a directory that is
    read-only, a full disk, a path that is a directory.  [faults] says which
    operation raises on which path, and [Fallible.check_batch_status] is the
    function once more, over file operations that ask it first.  A refused
    [open(path, "w")] leaves the file as it was; a [json.dump] that fails
    leaves the file opened and truncated, with partial content.  What a
    refused operation raises is an [OSError] of some kind: the handler of
    line 165 catches every [Exception] alike, so a fault names any exception
    of [exn].  [os.path.exists] does not raise.  With [no_faults] the
    operations are those of [IO]. *)

Module Fallible.

(** [open(path, "r")], [open(path, "w")], [json.dump(obj, f)] and
    [os.remove(path)] *)
Inductive fs_op : Type := OpenRead | OpenWrite | Dump | Remove.

Definition faults : Type := fs_op -> string -> option exn.

Definition no_faults : faults := fun _ _ => None.

(** Lines 131-132 *)
Definition read (ft : faults) (path : string) : io file :=
  match ft OpenRead path with
  | Some e => IO.raise e
  | None => IO.read path
  end.

(** Lines 141-142 and 158-159: [with open(path, "w") as f: json.dump(obj, f)] *)
Definition write (ft : faults) (path : string) (f : file) : io unit :=
  match ft OpenWrite path with
  | Some e => IO.raise e
  | None =>
      match ft Dump path with
      | Some e => IO.write path BrokenFile;; IO.raise e
      | None => IO.write path f
      end
  end.

(** Line 161 *)
Definition remove (ft : faults) (path : string) : io unit :=
  match ft Remove path with
  | Some e => IO.raise e
  | None => IO.remove path
  end.

(** Lines 156-160 *)
Definition write_results (ft : faults) (output_dir : string)
    (pdf_results : list (string * list (string * json))) : io unit :=
  IO.for_ pdf_results (fun '(pdf, data) =>
    write ft (output_file output_dir pdf) (JsonFile (JObj data))).

(** Lines 126-167 *)
Definition check_batch_status (ft : faults) (c : client) (state_dir output_dir : string)
  : io string :=
  let batch_info_path := batch_info_path state_dir in
  found ← IO.exists_ batch_info_path;
  if negb found then mret "not_found" else
  IO.try_except
    (f ← read ft batch_info_path;
     batch_info ← IO.lift (json_load f);
     batch_id ← IO.lift (Py.get batch_info "batch_id" JNull);
     if negb (Py.truthy batch_id) then mret "error" else
     b ← IO.call (BatchesRetrieve batch_id) (batches_retrieve c batch_id);
     fields ← IO.lift (Py.items batch_info);
     let batch_info := JObj (PyDict.set "status" (JStr (status b)) fields) in
     write ft batch_info_path (JsonFile batch_info);;
     if String.eqb (status b) "completed" && has_output b then
       let id := default "" (output_file_id b) in
       batch_results ← IO.call (FilesContent id) (files_content c id);
       pdf_results ← IO.lift (foldM result_step batch_results []);
       write_results ft output_dir pdf_results;;
       remove ft batch_info_path;;
       mret "completed_and_processed"
     else mret (status b))
    (fun _ => mret "error").

End Fallible.

(** ** The primitives on sample values

    The values are those CPython 3.11 returns for the same calls. *)

Example split_samples :
  PyStr.split "__" "A.pdf__page-1" = ["A.pdf"; "page-1"] /\
  PyStr.split "__" "a___page-1" = ["a"; "_page-1"] /\
  PyStr.split "__" "A.pdf__page-1__2" = ["A.pdf"; "page-1"; "2"] /\
  PyStr.split "__" "____" = [""; ""; ""] /\
  PyStr.split "__" "" = [""].
Proof. by repeat split. Qed.

Example replace_samples :
  PyStr.replace "page-" "" "page-1" = "1" /\
  PyStr.replace "page-" "" "_page-1" = "_1" /\
  PyStr.replace "page-" "" "page-pagepage--1" = "page-1".
Proof. by repeat split. Qed.

Example stem_samples :
  PyPath.stem <$> ["A.pdf"; "dir/report.tar.gz"; ".bashrc"; "a."; "a/b/"; "..";
                   ""; "a/./b.txt"; "/"; "x/.hidden.txt"]
  = ["A"; "report.tar"; ".bashrc"; "a."; "b"; ".."; ""; "b"; ""; ".hidden"].
Proof. reflexivity. Qed.

Example join_samples :
  PyPath.join "out" "state" = "out/state" /\
  PyPath.join "out/" "state" = "out/state" /\
  PyPath.join "" "x" = "x" /\
  PyPath.join "a" "/b" = "/b".
Proof. by repeat split. Qed.

(** ** Lemmas on the string primitives *)

Section StringFacts.
Import PyStr.

Lemma contains_cons_false sub c s :
  contains sub (String c s) = false ->
  startswith sub (String c s) = false /\ contains sub s = false.
Proof. simpl. intros H. by apply orb_false_iff in H. Qed.

Lemma split_go_absent s :
  contains "__" s = false -> split_go "__" s 0 = (s, []).
Proof.
  induction s as [|c s IH]; [done|].
  intros [Hp Hc]%contains_cons_false.
  change (split_go "__" (String c s) 0)
    with (if startswith "__" (String c s)
          then (EmptyString, let '(p, ps) := split_go "__" s 1 in p :: ps)
          else let '(p, ps) := split_go "__" s 0 in (String c p, ps)).
  by rewrite Hp, (IH Hc).
Qed.

Lemma split_go_sep rest :
  split_go "__" ("__" +:+ rest) 0
  = (EmptyString, let '(p, ps) := split_go "__" rest 0 in p :: ps).
Proof. reflexivity. Qed.

Lemma endswith_cons_false suf c s :
  endswith suf (String c s) = false ->
  String.eqb (String c s) suf = false /\ endswith suf s = false.
Proof. simpl. intros H. by apply orb_false_iff in H. Qed.

(** The first separator found in [doc ++ "__" ++ rest] is the one written
    between the two parts, provided [doc] neither contains ["__"] nor ends
    with ["_"]. *)
Lemma split_go_app doc rest :
  contains "__" doc = false ->
  endswith "_" doc = false ->
  split_go "__" (doc +:+ "__" +:+ rest) 0
  = (doc, let '(p, ps) := split_go "__" rest 0 in p :: ps).
Proof.
  induction doc as [|c doc IH]; intros Hc He.
  - apply split_go_sep.
  - apply contains_cons_false in Hc as [Hp Hc].
    apply endswith_cons_false in He as [Hq He].
    assert (startswith "__" (String c (doc +:+ "__" +:+ rest)) = false) as Hp'.
    { destruct doc as [|d doc].
      - simpl. destruct (Ascii.eqb_spec "_" c) as [<-|]; done.
      - exact Hp. }
    change (String c doc +:+ "__" +:+ rest) with (String c (doc +:+ "__" +:+ rest)).
    change (split_go "__" (String c (doc +:+ "__" +:+ rest)) 0)
      with (if startswith "__" (String c (doc +:+ "__" +:+ rest))
            then (EmptyString,
                  let '(p, ps) := split_go "__" (doc +:+ "__" +:+ rest) 1 in p :: ps)
            else let '(p, ps) := split_go "__" (doc +:+ "__" +:+ rest) 0 in
                 (String c p, ps)).
    by rewrite Hp', (IH Hc He).
Qed.

Lemma replace_go_absent s :
  contains "page-" s = false -> replace_go "page-" "" s 0 = s.
Proof.
  induction s as [|c s IH]; [done|].
  intros [Hp Hc]%contains_cons_false.
  change (replace_go "page-" "" (String c s) 0)
    with (if startswith "page-" (String c s)
          then "" +:+ replace_go "page-" "" s 4
          else String c (replace_go "page-" "" s 0)).
  by rewrite Hp, (IH Hc).
Qed.

Lemma replace_page_prefix page :
  contains "page-" page = false ->
  replace "page-" "" ("page-" +:+ page) = page.
Proof. intros H. unfold replace. simpl. by apply replace_go_absent. Qed.

Lemma contains_sep_page_part page :
  contains "__" ("page-" +:+ page) = contains "__" page.
Proof. reflexivity. Qed.

(** *** Suffixes *)

Lemma endswith_nil suf : endswith suf "" = String.eqb "" suf.
Proof. simpl. apply orb_false_r. Qed.

Lemma endswith_cons suf c s :
  endswith suf (String c s) = String.eqb (String c s) suf || endswith suf s.
Proof. reflexivity. Qed.

Lemma endswith_refl s : endswith s s = true.
Proof.
  destruct s; [done|]. by rewrite endswith_cons, String.eqb_refl.
Qed.

Lemma endswith_app suf a b : endswith suf b = true -> endswith suf (a +:+ b) = true.
Proof.
  intros H. induction a as [|c a IH]; [done|].
  change (String c a +:+ b) with (String c (a +:+ b)).
  rewrite endswith_cons, IH. apply orb_true_r.
Qed.

Lemma endswith_length suf s : endswith suf s = true -> String.length suf <= String.length s.
Proof.
  induction s as [|c s IH].
  - rewrite endswith_nil. by intros <-%String.eqb_eq.
  - rewrite endswith_cons.
    intros [<-%String.eqb_eq | H%IH]%orb_true_iff; simpl; lia.
Qed.

(** Two suffixes of one string are nested. *)
Lemma endswith_nested s1 s2 x :
  endswith s1 x = true -> endswith s2 x = true ->
  String.length s1 <= String.length s2 -> endswith s1 s2 = true.
Proof.
  induction x as [|c x IH]; intros H1 H2 Hlen.
  - rewrite endswith_nil in H1, H2.
    apply String.eqb_eq in H1 as <-. apply String.eqb_eq in H2 as <-. done.
  - rewrite endswith_cons in H2.
    apply orb_true_iff in H2 as [<-%String.eqb_eq | H2]; [done|].
    rewrite endswith_cons in H1. apply orb_true_iff in H1 as [<-%String.eqb_eq | H1].
    + apply endswith_length in H2. simpl in Hlen. lia.
    + by apply IH.
Qed.

Lemma endswith_join suf a b :
  endswith suf b = true -> endswith suf (PyPath.join a b) = true.
Proof.
  intros H. unfold PyPath.join.
  destruct (startswith "/" b); [done|].
  destruct (_ || _); by repeat apply endswith_app.
Qed.

(** *** Correlation identifiers of distinct pairs *)

(** ["__page-"] cannot overlap a copy of itself. *)
Lemma separator_no_overlap d p1 p2 :
  "__page-" +:+ p1 = d +:+ "__page-" +:+ p2 ->
  contains "__page-" d = false ->
  d = "".
Proof.
  intros H Hc.
  destruct d as [|c1 d]; [done|]. exfalso.
  do 6 (destruct d as [|? d]; [by simplify_eq/=|]).
  injection H as <- <- <- <- <- <- <- _.
  by simpl in Hc.
Qed.

Lemma custom_id_inj d1 p1 d2 p2 :
  contains "__page-" d1 = false ->
  contains "__page-" d2 = false ->
  Correlation.custom_id d1 p1 = Correlation.custom_id d2 p2 ->
  d1 = d2 /\ p1 = p2.
Proof.
  unfold Correlation.custom_id.
  revert d2. induction d1 as [|c d1 IH]; intros [|c' d2] H1 H2 H.
  - by simplify_eq/=.
  - by apply separator_no_overlap in H.
  - by apply eq_sym, separator_no_overlap in H.
  - apply contains_cons_false in H1 as [_ H1].
    apply contains_cons_false in H2 as [_ H2].
    injection H as -> H. by destruct (IH _ H1 H2 H) as [-> ->].
Qed.

End StringFacts.

(** ** Lemmas on dictionaries *)

Section DictFacts.
Context {V : Type}.
Implicit Types (d : list (string * V)) (k : string) (v : V).

Lemma get_set_eq k v d : PyDict.get k (PyDict.set k v d) = Some v.
Proof.
  induction d as [|[k' v'] d IH]; simpl.
  - by rewrite String.eqb_refl.
  - destruct (String.eqb_spec k' k) as [->|Hne]; simpl.
    + by rewrite String.eqb_refl.
    + by destruct (String.eqb_spec k' k).
Qed.

Lemma get_set_ne k k' v d : k ≠ k' -> PyDict.get k' (PyDict.set k v d) = PyDict.get k' d.
Proof.
  intros Hne. induction d as [|[k0 v0] d IH]; simpl.
  - by destruct (String.eqb_spec k k').
  - destruct (String.eqb_spec k0 k) as [->|]; simpl.
    + by destruct (String.eqb_spec k k').
    + by rewrite IH.
Qed.

Lemma get_None k d : PyDict.get k d = None <-> k ∉ PyDict.keys d.
Proof.
  unfold PyDict.keys. induction d as [|[k0 v0] d IH]; simpl.
  - split; [set_solver|done].
  - destruct (String.eqb_spec k0 k) as [->|]; [set_solver|].
    rewrite IH. set_solver.
Qed.

Lemma get_Some_elem k v d : PyDict.get k d = Some v -> (k, v) ∈ d.
Proof.
  induction d as [|[k0 v0] d IH]; simpl; [done|].
  destruct (String.eqb_spec k0 k) as [->|]; [intros [= ->]|]; set_solver.
Qed.

(** A new key goes last. *)
Lemma set_fresh k v d : k ∉ PyDict.keys d -> PyDict.set k v d = d ++ [(k, v)].
Proof.
  unfold PyDict.keys. induction d as [|[k0 v0] d IH]; simpl; [done|].
  intros Hk. destruct (String.eqb_spec k0 k) as [->|]; [set_solver|].
  rewrite IH; [done|set_solver].
Qed.

(** An existing key keeps its place: the keys do not move. *)
Lemma keys_set_present k v d : k ∈ PyDict.keys d -> PyDict.keys (PyDict.set k v d) = PyDict.keys d.
Proof.
  unfold PyDict.keys. induction d as [|[k0 v0] d IH]; simpl; [set_solver|].
  intros Hk. destruct (String.eqb_spec k0 k) as [->|]; simpl; [done|].
  f_equal. apply IH. set_solver.
Qed.

Lemma elem_of_keys_set k k' v d :
  k' ∈ PyDict.keys (PyDict.set k v d) <-> k' = k \/ k' ∈ PyDict.keys d.
Proof.
  destruct (decide (k ∈ PyDict.keys d)) as [Hin|Hout].
  - rewrite keys_set_present by done. naive_solver.
  - rewrite set_fresh by done. unfold PyDict.keys. rewrite fmap_app. set_solver.
Qed.

Lemma wf_set k v d : PyDict.wf d -> PyDict.wf (PyDict.set k v d).
Proof.
  unfold PyDict.wf. intros Hwf.
  destruct (decide (k ∈ PyDict.keys d)) as [Hin|Hout].
  - by rewrite keys_set_present.
  - rewrite set_fresh by done. unfold PyDict.keys in *. rewrite fmap_app. simpl.
    apply NoDup_app. split_and!; [done|set_solver|apply NoDup_singleton].
Qed.

Lemma get_del_absent k k' d : PyDict.get k' d = None -> PyDict.get k' (PyDict.del k d) = None.
Proof.
  induction d as [|[k0 v0] d IH]; simpl; [done|].
  destruct (String.eqb_spec k0 k') as [->|Hne]; [done|]. intros H.
  destruct (String.eqb_spec k0 k) as [->|]; simpl; [done|].
  destruct (String.eqb_spec k0 k'); [done|]. by apply IH.
Qed.

Lemma get_del_eq k d : PyDict.wf d -> PyDict.get k (PyDict.del k d) = None.
Proof.
  unfold PyDict.wf, PyDict.keys.
  induction d as [|[k0 v0] d IH]; simpl; [done|].
  intros [Hk0 Hd]%NoDup_cons.
  destruct (String.eqb_spec k0 k) as [->|Hne]; simpl.
  - by apply get_None.
  - destruct (String.eqb_spec k0 k); [done|]. by apply IH.
Qed.

Lemma get_del_ne k k' d : k ≠ k' -> PyDict.get k' (PyDict.del k d) = PyDict.get k' d.
Proof.
  intros Hne. induction d as [|[k0 v0] d IH]; simpl; [done|].
  destruct (String.eqb_spec k0 k) as [->|]; simpl.
  - by destruct (String.eqb_spec k k').
  - by rewrite IH.
Qed.

Lemma wf_del k d : PyDict.wf d -> PyDict.wf (PyDict.del k d).
Proof.
  unfold PyDict.wf, PyDict.keys.
  induction d as [|[k0 v0] d IH]; simpl; [done|].
  intros [Hk0 Hd]%NoDup_cons.
  destruct (String.eqb_spec k0 k) as [->|Hne]; simpl; [done|].
  apply NoDup_cons. split; [|by apply IH].
  intros Hin. apply Hk0.
  apply get_None in Hk0.
  destruct (PyDict.get k0 (PyDict.del k d)) eqn:E.
  - by rewrite get_del_ne in E by done; rewrite E in Hk0.
  - by apply get_None in E.
Qed.

End DictFacts.

(** ** Lemmas on the effectful functions *)

Arguments batch_info_path : simpl never.
Arguments output_file : simpl never.

Ltac io_unfold :=
  unfold mbind, mret, io_bind, io_ret, IO.exists_, IO.try_except, IO.read,
    IO.lift, IO.call, IO.write, IO.remove, IO.raise.

Section IOFacts.
Implicit Types (w : world) (c : client).

Lemma output_file_not_batch_info od pdf sd : output_file od pdf ≠ batch_info_path sd.
Proof.
  intros Heq.
  assert (PyStr.endswith "_metadata.json" (output_file od pdf) = true) as H1.
  { apply endswith_join, endswith_app, endswith_refl. }
  assert (PyStr.endswith "batch_info.json" (batch_info_path sd) = true) as H2.
  { apply endswith_join, endswith_refl. }
  rewrite Heq in H1.
  pose proof (endswith_nested _ _ _ H1 H2) as H. simpl in H.
  discriminate H. lia.
Qed.

Lemma write_results_spec od groups w :
  write_results od groups w
  = (Ok tt, World (store_results od groups (disk w)) (calls w)).
Proof.
  unfold write_results, store_results.
  revert w. induction groups as [|[pdf data] groups IH]; intros w.
  - by destruct w.
  - simpl. io_unfold. by rewrite IH.
Qed.

Lemma store_results_other od groups d q :
  (forall pdf data, (pdf, data) ∈ groups -> output_file od pdf ≠ q) ->
  store_results od groups d !! q = d !! q.
Proof.
  unfold store_results. revert d.
  induction groups as [|[pdf data] groups IH]; intros d Hq; [done|].
  simpl. rewrite IH by (intros p0 d0 Hin; apply (Hq p0 d0); set_solver).
  apply lookup_insert_ne, (Hq pdf data). set_solver.
Qed.

Lemma store_results_batch_info od groups d sd :
  store_results od groups d !! batch_info_path sd = d !! batch_info_path sd.
Proof.
  apply store_results_other. intros ???. apply output_file_not_batch_info.
Qed.

(** The write that comes last at a path is the one that stays. *)
Lemma store_results_last od before pdf data after d :
  (forall pdf' data', (pdf', data') ∈ after -> output_file od pdf' ≠ output_file od pdf) ->
  store_results od (before ++ (pdf, data) :: after) d !! output_file od pdf
  = Some (JsonFile (JObj data)).
Proof.
  intros Hafter. unfold store_results. rewrite fold_left_app. simpl.
  fold (store_results od after
          (<[output_file od pdf := JsonFile (JObj data)]>
             (fold_left (fun d '(pdf, data) =>
                <[output_file od pdf := JsonFile (JObj data)]> d) before d))).
  rewrite store_results_other by done. apply lookup_insert_eq.
Qed.

Lemma check_not_found c sd od w :
  disk w !! batch_info_path sd = None ->
  check_batch_status c sd od w = (Ok "not_found", w).
Proof.
  intros H. unfold check_batch_status. io_unfold. by rewrite H.
Qed.

Lemma check_pending c sd od w fields bid b :
  disk w !! batch_info_path sd = Some (JsonFile (JObj fields)) ->
  PyDict.get "batch_id" fields = Some bid ->
  Py.truthy bid = true ->
  batches_retrieve c bid = Ok b ->
  String.eqb (status b) "completed" && has_output b = false ->
  check_batch_status c sd od w
  = (Ok (status b),
     World (<[batch_info_path sd :=
               JsonFile (JObj (PyDict.set "status" (JStr (status b)) fields))]> (disk w))
           (calls w ++ [BatchesRetrieve bid])).
Proof.
  intros H1 H2 H3 H4 H5. unfold check_batch_status. io_unfold.
  repeat first [progress rewrite ?H1, ?H2, ?H3, ?H4, ?H5 | progress simpl].
  done.
Qed.

Lemma check_completed c sd od w fields bid b oid batch_results pdf_results :
  disk w !! batch_info_path sd = Some (JsonFile (JObj fields)) ->
  PyDict.get "batch_id" fields = Some bid ->
  Py.truthy bid = true ->
  batches_retrieve c bid = Ok b ->
  status b = "completed" ->
  output_file_id b = Some oid ->
  oid ≠ "" ->
  files_content c oid = Ok batch_results ->
  foldM result_step batch_results [] = Ok pdf_results ->
  check_batch_status c sd od w
  = (Ok "completed_and_processed",
     World (delete (batch_info_path sd)
              (store_results od pdf_results
                 (<[batch_info_path sd :=
                     JsonFile (JObj (PyDict.set "status" (JStr "completed") fields))]>
                    (disk w))))
           (calls w ++ [BatchesRetrieve bid; FilesContent oid])).
Proof.
  intros H1 H2 H3 H4 H5 H6 H7 H8 H9. unfold check_batch_status. io_unfold.
  assert (has_output b = true) as Hout.
  { unfold has_output. rewrite H6. by destruct (String.eqb_spec oid ""). }
  repeat first [progress rewrite ?H1, ?H2, ?H3, ?H4, ?H5, ?H6, ?Hout, ?H8, ?H9,
                  ?write_results_spec, ?store_results_batch_info, ?lookup_insert_eq
               | progress simpl].
  by rewrite <- app_assoc.
Qed.

End IOFacts.

Section Reconciler.
Implicit Types (w : world) (c : client).

(** The two ways in which a call returns ["completed_and_processed"]: after
    a reconciliation, which ends with the removal of the record (line 163), or
    because the service reported a job status spelled that way and the
    status was returned as it is (line 164). *)
Lemma check_completed_inv c sd od w w' :
  check_batch_status c sd od w = (Ok "completed_and_processed", w') ->
  disk w' !! batch_info_path sd = None \/
  exists bid b, batches_retrieve c bid = Ok b /\ status b = "completed_and_processed".
Proof.
  unfold check_batch_status. io_unfold.
  destruct (disk w !! batch_info_path sd) as [f|] eqn:Hf; simpl; [|by intros [=]].
  rewrite Hf.
  destruct (json_load f) as [batch_info|]; simpl; [|by intros [=]].
  destruct (Py.get batch_info "batch_id" JNull) as [bid|]; simpl; [|by intros [=]].
  destruct (Py.truthy bid); simpl; [|by intros [=]].
  destruct (batches_retrieve c bid) as [b|] eqn:Hb; simpl; [|by intros [=]].
  destruct (Py.items batch_info) as [fields|]; simpl; [|by intros [=]].
  destruct (_ && _); simpl.
  - destruct (files_content c _) as [batch_results|]; simpl; [|by intros [=]].
    destruct (foldM result_step batch_results []) as [pdf_results|]; simpl;
      [|by intros [=]].
    rewrite write_results_spec. simpl.
    rewrite store_results_batch_info, lookup_insert_eq. simpl.
    intros [= <-]. left. simpl. apply lookup_delete_eq.
  - intros [= Hs _]. right. by exists bid, b.
Qed.

Lemma recheck_not_found n c sd od w :
  disk w !! batch_info_path sd = None ->
  recheck n c sd od w = (replicate n (Ok "not_found"), w).
Proof.
  intros H. induction n as [|n IH]; simpl; [done|].
  by rewrite check_not_found, IH.
Qed.

End Reconciler.

(** ** Context builder and request compiler *)

Section Compiler.
Variable rt : runtime.

Lemma context_part_ok item :
  element_ok item = true -> context_part rt item = Ok (JStr (effective_text rt item)).
Proof.
  destruct item as [| | | | |d]; try done. simpl.
  unfold context_part, mbind, res_bind. simpl.
  destruct (is_str _ "Table"); [done|].
  destruct (is_str _ "Image"); [done|]. simpl.
  by destruct (PyDict.get "content" d) as [[]|].
Qed.

Lemma traverse_context_part items :
  Forall (fun item => element_ok item = true) items ->
  traverse (context_part rt) items = Ok (JStr <$> (effective_text rt <$> items)).
Proof.
  induction 1 as [|item items Hitem _ IH]; [done|].
  simpl. rewrite context_part_ok by done. unfold mbind, res_bind in *. by rewrite IH.
Qed.

Lemma strs_JStr ss : Py.strs (JStr <$> ss) = Ok ss.
Proof.
  induction ss as [|s ss IH]; [done|]. csimpl. by rewrite IH.
Qed.

Lemma context_step_ok contexts page items :
  Forall (fun item => element_ok item = true) items ->
  context_step rt contexts (page, JArr items)
  = Ok (PyDict.set page (page_context rt page items) contexts).
Proof.
  intros H. unfold context_step, mbind, res_bind. simpl.
  rewrite traverse_context_part by done.
  unfold Py.join, mbind, res_bind.
  change (JStr ("Page " +:+ page +:+ ":") :: (JStr <$> (effective_text rt <$> items)))
    with (JStr <$> (("Page " +:+ page +:+ ":") :: (effective_text rt <$> items))).
  by rewrite strs_JStr.
Qed.

Lemma contexts_loop_ok pages contexts :
  pages_ok pages ->
  (forall page, page ∈ pages.*1 -> page ∉ PyDict.keys contexts) ->
  foldM (context_step rt) ((fun '(page, items) => (page, JArr items)) <$> pages) contexts
  = Ok (contexts ++ ((fun '(page, items) => (page, page_context rt page items)) <$> pages)).
Proof.
  intros [Hnd Hok]. revert contexts.
  induction pages as [|[page items] pages IH]; intros contexts Hfresh.
  - simpl. by rewrite app_nil_r.
  - apply NoDup_cons in Hnd as [Hpage Hnd]. apply Forall_cons in Hok as [Hitems Hok].
    cbn [fmap list_fmap foldM]. rewrite context_step_ok by done.
    unfold mbind, res_bind. rewrite set_fresh by (apply Hfresh; set_solver).
    rewrite IH; [by rewrite <- app_assoc|done|done|].
    intros p Hp. unfold PyDict.keys. rewrite fmap_app. simpl.
    intros [Hin|Hin]%elem_of_app.
    + apply (Hfresh p); [set_solver|done].
    + apply list_elem_of_singleton in Hin as ->. done.
Qed.

Lemma prepare_context_ok pages :
  pages_ok pages ->
  prepare_context_for_llm rt (pages_json pages)
  = Ok ((fun '(page, items) => (page, page_context rt page items)) <$> pages).
Proof.
  intros H. unfold prepare_context_for_llm, pages_json, mbind, res_bind. simpl.
  rewrite contexts_loop_ok; [done|done|]. intros ??. set_solver.
Qed.

Lemma page_loop_lines pdf sp model contexts batch_lines pages_meta :
  (fold_left (page_step pdf sp model) contexts (batch_lines, pages_meta)).1
  = batch_lines ++
    ((fun '(page, context) => request (Correlation.custom_id pdf page) model sp context)
       <$> contexts).
Proof.
  revert batch_lines pages_meta.
  induction contexts as [|[page context] contexts IH]; intros batch_lines pages_meta.
  - simpl. by rewrite app_nil_r.
  - simpl. rewrite IH. by rewrite <- app_assoc.
Qed.

Lemma pdf_step_ok sp model batch_lines batch_metadata pdf pages :
  pages_ok pages ->
  exists batch_metadata',
    pdf_step rt sp model (batch_lines, batch_metadata) (pdf, pages_json pages)
    = Ok (batch_lines ++ request_lines rt sp model [(pdf, pages)], batch_metadata').
Proof.
  intros H. unfold pdf_step. rewrite prepare_context_ok by done.
  unfold mbind at 1, res_bind.
  pose proof (page_loop_lines pdf sp model
                ((fun '(page, items) => (page, page_context rt page items)) <$> pages)
                batch_lines []) as Hlines.
  destruct (fold_left _ _ _) as [lines pages_meta]. simpl in Hlines. subst lines.
  eexists. f_equal. f_equal. f_equal.
  unfold request_lines. simpl. rewrite app_nil_r, <- list_fmap_compose.
  apply list_fmap_ext. by intros ? [??].
Qed.

Lemma document_loop_ok sp model docs batch_lines batch_metadata :
  Forall (fun '(_, pages) => pages_ok pages) docs ->
  exists batch_metadata',
    foldM (pdf_step rt sp model)
          ((fun '(pdf, pages) => (pdf, pages_json pages)) <$> docs)
          (batch_lines, batch_metadata)
    = Ok (batch_lines ++ request_lines rt sp model docs, batch_metadata').
Proof.
  intros Hok. revert batch_lines batch_metadata.
  induction Hok as [|[pdf pages] docs Hpages _ IH]; intros batch_lines batch_metadata.
  - exists batch_metadata. simpl. by rewrite app_nil_r.
  - cbn [fmap list_fmap foldM].
    destruct (pdf_step_ok sp model batch_lines batch_metadata pdf pages Hpages)
      as [meta1 ->].
    unfold mbind at 1, res_bind.
    destruct (IH (batch_lines ++ request_lines rt sp model [(pdf, pages)]) meta1)
      as [meta2 ->].
    exists meta2. f_equal. f_equal. rewrite <- app_assoc. f_equal.
    unfold request_lines. simpl. by rewrite app_nil_r.
Qed.

Lemma batch_requests_ok sp model docs :
  documents_ok docs ->
  exists batch_metadata,
    batch_requests rt (documents_json docs) sp model
    = Ok (request_lines rt sp model docs, batch_metadata).
Proof.
  intros [_ Hok]. unfold batch_requests, documents_json, mbind, res_bind. simpl.
  destruct (document_loop_ok sp model docs [] [] Hok) as [meta ->]. by exists meta.
Qed.

Lemma request_lines_custom_ids sp model docs :
  line_custom_id <$> request_lines rt sp model docs
  = (fun '(pdf, page) => Ok (JStr (Correlation.custom_id pdf page))) <$> page_pairs docs.
Proof.
  unfold request_lines, page_pairs.
  induction docs as [|[pdf pages] docs IH]; [done|].
  csimpl. rewrite !fmap_app, IH. f_equal.
  rewrite <- !list_fmap_compose. apply list_fmap_ext. by intros ? [??].
Qed.

Lemma request_lines_length sp model docs :
  length (request_lines rt sp model docs) = total_pages docs.
Proof.
  unfold request_lines, total_pages.
  induction docs as [|[pdf pages] docs IH]; [done|].
  csimpl. by rewrite length_app, length_fmap, IH.
Qed.

End Compiler.

Lemma page_pairs_document docs pdf page :
  (pdf, page) ∈ page_pairs docs -> pdf ∈ docs.*1.
Proof.
  unfold page_pairs. intros ([pdf' pages] & Hin & Hdoc)%list_elem_of_bind.
  apply list_elem_of_fmap in Hin as (p & [= -> ->] & _).
  apply list_elem_of_fmap. by exists (pdf', pages).
Qed.

Lemma page_pairs_NoDup docs : documents_ok docs -> NoDup (page_pairs docs).
Proof.
  intros [Hnd Hok]. unfold page_pairs.
  induction docs as [|[pdf pages] docs IH]; [constructor|].
  apply NoDup_cons in Hnd as [Hpdf Hnd]. apply Forall_cons in Hok as [[Hpages _] Hok].
  csimpl. apply NoDup_app. split_and!.
  - apply NoDup_fmap; [|done]. by intros ?? [=].
  - intros [d p] (p' & [= -> ->] & _)%list_elem_of_fmap Hin.
    by apply page_pairs_document in Hin.
  - by apply IH.
Qed.

(** ** Reconciliation *)

Section Grouping.

Lemma set_set {V} k (v v' : V) d : PyDict.set k v (PyDict.set k v' d) = PyDict.set k v d.
Proof.
  induction d as [|[k0 v0] d IH]; simpl.
  - by rewrite String.eqb_refl.
  - destruct (String.eqb_spec k0 k) as [->|Hne]; simpl.
    + by rewrite String.eqb_refl.
    + destruct (String.eqb_spec k0 k); [done|]. by rewrite IH.
Qed.

Lemma result_step_for pdf page payload line pdf_results :
  result_for pdf page payload line ->
  result_step pdf_results line
  = Ok (PyDict.set pdf
          (PyDict.set page payload (default [] (PyDict.get pdf pdf_results)))
          pdf_results).
Proof.
  intros (fields & cid & -> & Hcid & Hdec & ->).
  unfold result_step, mbind, res_bind. simpl. rewrite Hcid. simpl. rewrite Hdec.
  unfold PyDict.mem.
  destruct (PyDict.get pdf pdf_results) as [pages|] eqn:Hget; simpl.
  - by rewrite Hget.
  - by rewrite get_set_eq, set_set.
Qed.

(** The grouping loop, on typed answers. *)
Lemma group_answers lines answers pdf_results :
  Forall2 (fun line '(doc, page, payload) => result_for doc page payload line)
          lines answers ->
  foldM result_step lines pdf_results = Ok (fold_left file_result answers pdf_results).
Proof.
  intros H. revert pdf_results.
  induction H as [|line [[doc page] payload] lines answers Hline _ IH];
    intros pdf_results; [done|].
  simpl. rewrite (result_step_for doc page payload) by done. apply IH.
Qed.

Lemma pages_of_absent pdf answers : pdf ∉ answers.*1.*1 -> pages_of pdf answers = [].
Proof.
  unfold pages_of. induction answers as [|[[doc page] payload] answers IH]; [done|].
  csimpl. intros Hout. destruct (String.eqb_spec doc pdf) as [->|]; [set_solver|].
  apply IH. set_solver.
Qed.

Lemma groups_get_absent pdf answers pdf_results :
  pdf ∉ answers.*1.*1 ->
  PyDict.get pdf (fold_left file_result answers pdf_results) = PyDict.get pdf pdf_results.
Proof.
  revert pdf_results.
  induction answers as [|[[doc page] payload] answers IH]; intros pdf_results Hout; [done|].
  simpl. rewrite IH by set_solver. apply get_set_ne. set_solver.
Qed.

(** The group of a document holds its answers, filed in download order. *)
Lemma groups_get pdf answers pdf_results :
  pdf ∈ answers.*1.*1 ->
  PyDict.get pdf (fold_left file_result answers pdf_results)
  = Some (file_answers (pages_of pdf answers) (default [] (PyDict.get pdf pdf_results))).
Proof.
  revert pdf_results.
  induction answers as [|[[doc page] payload] answers IH]; intros pdf_results Hin;
    [set_solver|].
  cbn [fold_left file_result]. unfold pages_of. csimpl. fold (pages_of pdf answers).
  destruct (String.eqb_spec doc pdf) as [->|Hne].
  - destruct (decide (pdf ∈ answers.*1.*1)) as [Hrest|Hrest].
    + rewrite IH by done. by rewrite get_set_eq.
    + rewrite groups_get_absent, get_set_eq by done.
      by rewrite (pages_of_absent pdf answers).
  - rewrite IH by set_solver. by rewrite get_set_ne.
Qed.

Lemma groups_keys pdf answers pdf_results :
  pdf ∈ PyDict.keys (fold_left file_result answers pdf_results)
  <-> pdf ∈ PyDict.keys pdf_results \/ pdf ∈ answers.*1.*1.
Proof.
  revert pdf_results.
  induction answers as [|[[doc page] payload] answers IH]; intros pdf_results.
  - set_solver.
  - cbn [fold_left file_result]. rewrite IH, elem_of_keys_set. set_solver.
Qed.

Lemma groups_wf answers pdf_results :
  PyDict.wf pdf_results -> PyDict.wf (fold_left file_result answers pdf_results).
Proof.
  revert pdf_results.
  induction answers as [|[[doc page] payload] answers IH]; intros pdf_results Hwf; [done|].
  cbn [fold_left file_result]. by apply IH, wf_set.
Qed.

(** When no other group is written to the path of [pdf], the artifact of
    [pdf] holds its group. *)
Lemma store_results_group od pdf data pdf_results d :
  PyDict.wf pdf_results ->
  PyDict.get pdf pdf_results = Some data ->
  (forall doc, doc ∈ PyDict.keys pdf_results -> doc ≠ pdf ->
     output_file od doc ≠ output_file od pdf) ->
  store_results od pdf_results d !! output_file od pdf = Some (JsonFile (JObj data)).
Proof.
  intros Hwf Hget Hothers.
  apply get_Some_elem, list_elem_of_split in Hget as (before & after & ->).
  apply store_results_last. intros doc data' Hin.
  assert (doc ∈ PyDict.keys after) as Hkey.
  { apply list_elem_of_fmap. by exists (doc, data'). }
  unfold PyDict.wf, PyDict.keys in *. rewrite fmap_app, fmap_cons in *.
  apply NoDup_app in Hwf as (_ & _ & [Hpdf _]%NoDup_cons).
  apply Hothers; [set_solver|]. intros ->. done.
Qed.

Lemma file_answers_keys answers data page :
  page ∈ PyDict.keys (file_answers answers data)
  <-> page ∈ PyDict.keys data \/ page ∈ answers.*1.
Proof.
  unfold file_answers. revert data.
  induction answers as [|[p r] answers IH]; intros data; simpl.
  - set_solver.
  - rewrite IH, elem_of_keys_set. set_solver.
Qed.

Lemma file_answers_wf answers data :
  PyDict.wf data -> PyDict.wf (file_answers answers data).
Proof.
  unfold file_answers. revert data.
  induction answers as [|[p r] answers IH]; intros data Hwf; [done|].
  simpl. by apply IH, wf_set.
Qed.

Lemma file_answers_get_other answers data page :
  page ∉ answers.*1 ->
  PyDict.get page (file_answers answers data) = PyDict.get page data.
Proof.
  unfold file_answers. revert data.
  induction answers as [|[p r] answers IH]; intros data Hout; [done|].
  simpl. rewrite IH by set_solver. apply get_set_ne. set_solver.
Qed.

(** The last answer for a page is the one that stays. *)
Lemma file_answers_get_last before page payload after data :
  page ∉ after.*1 ->
  PyDict.get page (file_answers (before ++ (page, payload) :: after) data) = Some payload.
Proof.
  intros Hout. unfold file_answers. rewrite fold_left_app. simpl.
  fold (file_answers before data).
  fold (file_answers after (PyDict.set page payload (file_answers before data))).
  rewrite file_answers_get_other by done. apply get_set_eq.
Qed.

End Grouping.

(** Reconciliation of one document in a job that may answer others: when no
    other document of the job is written to the artifact path of [pdf], the
    artifact of [pdf] holds exactly the pages answered for [pdf]. *)
Lemma reconcile_among_others c sd od w fields bid b oid lines pdf answers :
  disk w !! batch_info_path sd = Some (JsonFile (JObj fields)) ->
  PyDict.get "batch_id" fields = Some bid ->
  Py.truthy bid = true ->
  batches_retrieve c bid = Ok b ->
  status b = "completed" ->
  output_file_id b = Some oid ->
  oid ≠ "" ->
  files_content c oid = Ok lines ->
  Forall2 (fun line '(doc, page, payload) => result_for doc page payload line)
          lines answers ->
  pdf ∈ answers.*1.*1 ->
  (forall doc, doc ∈ answers.*1.*1 -> doc ≠ pdf ->
     output_file od doc ≠ output_file od pdf) ->
  exists w' data,
    check_batch_status c sd od w = (Ok "completed_and_processed", w') /\
    disk w' !! output_file od pdf = Some (JsonFile (JObj data)) /\
    NoDup (PyDict.keys data) /\
    (forall page, page ∈ PyDict.keys data <-> page ∈ (pages_of pdf answers).*1) /\
    (forall before page payload after,
       pages_of pdf answers = before ++ (page, payload) :: after ->
       page ∉ after.*1 ->
       PyDict.get page data = Some payload) /\
    disk w' !! batch_info_path sd = None /\
    (forall path,
       (forall doc, doc ∈ answers.*1.*1 -> path ≠ output_file od doc) ->
       path ≠ batch_info_path sd ->
       disk w' !! path = disk w !! path).
Proof.
  intros Hrec Hbid Htruthy Hb Hstatus Hout Hoid Hlines Hanswers Hmine Hothers.
  eexists _, (file_answers (pages_of pdf answers) []).
  split; [|split_and!].
  - eapply check_completed; try done. by apply group_answers.
  - simpl. rewrite lookup_delete_ne by apply not_eq_sym, output_file_not_batch_info.
    apply store_results_group.
    + apply groups_wf. constructor.
    + by rewrite groups_get.
    + intros doc [Hin|Hin]%groups_keys; [set_solver|]. by apply Hothers.
  - apply file_answers_wf. constructor.
  - intros page. rewrite file_answers_keys. set_solver.
  - intros before page payload after -> Hlast. by apply file_answers_get_last.
  - simpl. apply lookup_delete_eq.
  - intros path H1 H2. simpl. rewrite lookup_delete_ne by done.
    rewrite store_results_other; [by rewrite lookup_insert_ne|].
    intros doc data Hin. apply not_eq_sym, H1.
    assert (doc ∈ PyDict.keys (fold_left file_result answers [])) as Hkey.
    { apply list_elem_of_fmap. by exists (doc, data). }
    apply groups_keys in Hkey as [Hkey|Hkey]; [set_solver|done].
Qed.

(** ** The driver's filter *)

Section Filter.
Variables (od : string) (d : gmap string file).

Lemma filter_keeps_absent ks data pdf :
  PyDict.get pdf data = None -> PyDict.get pdf (fold_left (skip_step od d) ks data) = None.
Proof.
  revert data. induction ks as [|k ks IH]; intros data H; [done|].
  simpl. apply IH. unfold skip_step. case_bool_decide; [|done]. by apply get_del_absent.
Qed.

Lemma filter_drops ks data pdf :
  PyDict.wf data -> pdf ∈ ks -> is_Some (d !! output_file od pdf) ->
  PyDict.get pdf (fold_left (skip_step od d) ks data) = None.
Proof.
  revert data. induction ks as [|k ks IH]; intros data Hwf Hin Hex; [set_solver|].
  simpl. destruct (decide (k = pdf)) as [->|Hne].
  - apply filter_keeps_absent. unfold skip_step. rewrite bool_decide_eq_true_2 by done.
    by apply get_del_eq.
  - apply IH; [|set_solver|done]. unfold skip_step. case_bool_decide; [|done]. by apply wf_del.
Qed.

Lemma filter_keeps ks data pdf :
  d !! output_file od pdf = None ->
  PyDict.get pdf (fold_left (skip_step od d) ks data) = PyDict.get pdf data.
Proof.
  intros Hnone. revert data. induction ks as [|k ks IH]; intros data; [done|].
  simpl. rewrite IH. unfold skip_step. case_bool_decide as Hk; [|done].
  apply get_del_ne. intros ->. rewrite Hnone in Hk. by destruct Hk.
Qed.

End Filter.

Lemma skip_processed_spec od docs w :
  PyDict.wf docs ->
  exists docs',
    skip_processed od docs w = (Ok docs', w) /\
    forall pdf,
      PyDict.get pdf docs'
      = if bool_decide (is_Some (disk w !! output_file od pdf)) then None
        else PyDict.get pdf docs.
Proof.
  intros Hwf. eexists. split; [reflexivity|]. intros pdf.
  case_bool_decide as Hex.
  - destruct (decide (pdf ∈ PyDict.keys docs)) as [Hin|Hout].
    + by apply filter_drops.
    + apply filter_keeps_absent. by apply get_None.
  - apply filter_keeps. by apply eq_None_not_Some.
Qed.

(** ** The submitter *)

Section Submitter.
Implicit Types (w : world) (c : client).

Lemma submit_no_batch_file rt c path sd metadata w :
  disk w !! path = None ->
  submit_batch_job rt c path sd metadata w = (Ok None, w).
Proof. intros H. unfold submit_batch_job. io_unfold. by rewrite H. Qed.

Lemma submit_upload_raises rt c path sd metadata w f e :
  disk w !! path = Some f ->
  files_create c f = Raise e ->
  submit_batch_job rt c path sd metadata w
  = (Ok None, World (disk w) (calls w ++ [FilesCreate f])).
Proof. intros H1 H2. unfold submit_batch_job. io_unfold. by rewrite H1, H2. Qed.

Lemma submit_create_raises rt c path sd metadata w f fid e :
  disk w !! path = Some f ->
  files_create c f = Ok fid ->
  batches_create c fid = Raise e ->
  submit_batch_job rt c path sd metadata w
  = (Ok None, World (disk w) (calls w ++ [FilesCreate f; BatchesCreate fid])).
Proof.
  intros H1 H2 H3. unfold submit_batch_job. io_unfold. rewrite H1, H2. simpl.
  rewrite H3. by rewrite <- app_assoc.
Qed.

Lemma submit_dump_raises rt c path sd w f fid bid :
  disk w !! path = Some f ->
  files_create c f = Ok fid ->
  batches_create c fid = Ok bid ->
  submit_batch_job rt c path sd Opaque w
  = (Ok None,
     World (<[batch_info_path sd := BrokenFile]> (disk w))
           (calls w ++ [FilesCreate f; BatchesCreate fid])).
Proof.
  intros H1 H2 H3. unfold submit_batch_job. io_unfold. rewrite H1, H2. simpl.
  rewrite H3. simpl. by rewrite <- app_assoc.
Qed.

Lemma submit_succeeds rt c path sd m w f fid bid :
  disk w !! path = Some f ->
  files_create c f = Ok fid ->
  batches_create c fid = Ok bid ->
  submit_batch_job rt c path sd (Data m) w
  = (Ok (Some bid),
     World (<[batch_info_path sd :=
               JsonFile (JObj [("batch_id", JStr bid);
                               ("input_file_id", JStr fid);
                               ("created_at", JStr (now_isoformat rt));
                               ("status", JStr "submitted");
                               ("metadata", m)])]> (disk w))
           (calls w ++ [FilesCreate f; BatchesCreate fid])).
Proof.
  intros H1 H2 H3. unfold submit_batch_job. io_unfold. rewrite H1, H2. simpl.
  rewrite H3. simpl. by rewrite <- app_assoc.
Qed.

End Submitter.

(** ** The driver *)

Section Driver.
Variables (rt : runtime) (analyzed_data_file api_key output_dir model : string).
Abbreviation state_dir := (PyPath.join output_dir "state").
Abbreviation c := (OpenAI rt api_key).

(** The driver stops, with the record refreshed and nothing sent but the
    status request, when the service answers ["submitted"] or
    ["in_progress"]. *)
Lemma driver_waits w fields bid b :
  disk w !! batch_info_path state_dir = Some (JsonFile (JObj fields)) ->
  PyDict.get "batch_id" fields = Some bid ->
  Py.truthy bid = true ->
  batches_retrieve c bid = Ok b ->
  str_in (status b) ["submitted"; "in_progress"] = true ->
  process_all_pdfs rt analyzed_data_file api_key output_dir model w
  = (Ok tt,
     World (<[batch_info_path state_dir :=
               JsonFile (JObj (PyDict.set "status" (JStr (status b)) fields))]> (disk w))
           (calls w ++ [BatchesRetrieve bid])).
Proof.
  intros Hrec Hbid Htruthy Hb Hwait.
  assert (String.eqb (status b) "completed" && has_output b = false) as Hpending.
  { apply andb_false_iff. left. simpl in Hwait.
    destruct (String.eqb_spec (status b) "submitted") as [->|]; [done|].
    destruct (String.eqb_spec (status b) "in_progress") as [->|]; done. }
  assert (str_in (status b) ["completed"; "completed_and_processed"] = false) as Hdone.
  { simpl in *.
    destruct (String.eqb_spec (status b) "submitted") as [->|]; [done|].
    destruct (String.eqb_spec (status b) "in_progress") as [->|]; done. }
  unfold process_all_pdfs. unfold mbind at 1, io_bind at 1. unfold IO.exists_ at 1.
  rewrite Hrec, bool_decide_eq_true_2 by done.
  unfold mbind at 1, io_bind at 1.
  rewrite (check_pending _ _ _ _ fields bid b) by done.
  by rewrite Hdone, Hwait.
Qed.

(** Any other status but the completed ones sends the driver down the path
    of a failed job: the record is removed and a new job is prepared. *)
Lemma driver_abandons w fields bid b :
  disk w !! batch_info_path state_dir = Some (JsonFile (JObj fields)) ->
  PyDict.get "batch_id" fields = Some bid ->
  Py.truthy bid = true ->
  batches_retrieve c bid = Ok b ->
  str_in (status b) ["completed"; "completed_and_processed"; "submitted"; "in_progress"]
  = false ->
  process_all_pdfs rt analyzed_data_file api_key output_dir model w
  = submit_new_job rt c analyzed_data_file output_dir state_dir model
      (World (delete (batch_info_path state_dir) (disk w))
             (calls w ++ [BatchesRetrieve bid])).
Proof.
  intros Hrec Hbid Htruthy Hb Hother. simpl in Hother.
  apply orb_false_iff in Hother as [H1 Hother].
  apply orb_false_iff in Hother as [H2 Hother].
  apply orb_false_iff in Hother as [H3 Hother].
  apply orb_false_iff in Hother as [H4 _].
  unfold process_all_pdfs. unfold mbind at 1, io_bind at 1. unfold IO.exists_ at 1.
  rewrite Hrec, bool_decide_eq_true_2 by done.
  unfold mbind at 1, io_bind at 1.
  rewrite (check_pending _ _ _ _ fields bid b) by (by rewrite ?H1).
  unfold str_in. simpl. rewrite H1, H2, H3, H4. simpl.
  unfold mbind at 1, io_bind at 1. unfold IO.remove at 1. simpl.
  rewrite lookup_insert_eq. by rewrite delete_insert_eq.
Qed.

End Driver.

(** ** The compiler, end to end *)

Lemma prepare_batch_file_ok rt system_prompt model docs w :
  documents_ok docs ->
  exists batch_metadata,
    prepare_batch_file rt (documents_json docs) system_prompt model w
    = (Ok ("batch_requests.jsonl", JObj batch_metadata),
       World (<["batch_requests.jsonl" := JsonlFile (request_lines rt system_prompt model docs)]>
                (disk w))
             (calls w)).
Proof.
  intros Hok. destruct (batch_requests_ok rt system_prompt model docs Hok) as [meta Hreq].
  exists meta. unfold prepare_batch_file. io_unfold. by rewrite Hreq.
Qed.

Lemma scenario_documents_ok : documents_ok scenario_documents.
Proof.
  split; [by apply (bool_decide_unpack _)|].
  repeat (constructor; [split; [by apply (bool_decide_unpack _)|by repeat constructor]|]).
  constructor.
Qed.

(** * The claims *)

(** ** C1: at most one outstanding job *)

(** C1 fails on the code.  The job [batch-1] was submitted and the service
    reports it as ["validating"]: the driver takes the status for a failure,
    removes the record, uploads a new request file and creates the job
    [batch-2], whose record replaces the first. *)
Theorem driver_resubmits_while_validating :
  let c := service "validating" None [] in
  let w := sample_world "submitted" (documents_json scenario_documents) in
  let '(r, w') :=
    process_all_pdfs (sample_runtime c) "data.json" "key" "out" "gpt-4o-mini" w in
  r = Ok tt /\
  recorded "out/state" "batch_id" w = Some (JStr "batch-1") /\
  recorded "out/state" "status" w = Some (JStr "submitted") /\
  recorded "out/state" "batch_id" w' = Some (JStr "batch-2") /\
  call_name <$> calls w' = ["batches.retrieve"; "files.create"; "batches.create"].
Proof. vm_compute. done. Qed.

(** The same happens for ["queued"] and ["finalizing"]. *)
Example driver_resubmits_while_queued_or_finalizing :
  Forall (fun job_status =>
    let c := service job_status None [] in
    let w := sample_world job_status (documents_json scenario_documents) in
    let '(r, w') :=
      process_all_pdfs (sample_runtime c) "data.json" "key" "out" "gpt-4o-mini" w in
    r = Ok tt /\
    recorded "out/state" "batch_id" w' = Some (JStr "batch-2") /\
    call_name <$> calls w' = ["batches.retrieve"; "files.create"; "batches.create"])
  ["queued"; "finalizing"].
Proof.
  repeat (apply Forall_cons; split; [vm_compute; repeat split; reflexivity|]).
  apply Forall_nil_2.
Qed.

(** So it does when the status request itself fails: [check_batch_status]
    answers ["error"], which the driver treats like a failed job. *)
Example driver_resubmits_after_a_failed_status_check :
  let c := Client (fun _ => Ok "file-1") (fun _ => Ok "batch-2")
                  (fun _ => Raise ServiceError) (fun _ => Raise ServiceError) in
  let w := sample_world "in_progress" (documents_json scenario_documents) in
  let '(r, w') :=
    process_all_pdfs (sample_runtime c) "data.json" "key" "out" "gpt-4o-mini" w in
  r = Ok tt /\
  recorded "out/state" "batch_id" w' = Some (JStr "batch-2") /\
  call_name <$> calls w' = ["batches.retrieve"; "files.create"; "batches.create"].
Proof. vm_compute. done. Qed.

(** The two statuses the driver does wait for. *)
Example driver_waits_while_in_progress :
  Forall (fun job_status =>
    let c := service job_status None [] in
    let w := sample_world "submitted" (documents_json scenario_documents) in
    let '(r, w') :=
      process_all_pdfs (sample_runtime c) "data.json" "key" "out" "gpt-4o-mini" w in
    r = Ok tt /\
    recorded "out/state" "batch_id" w' = Some (JStr "batch-1") /\
    recorded "out/state" "status" w' = Some (JStr job_status) /\
    call_name <$> calls w' = ["batches.retrieve"])
  ["in_progress"; "submitted"].
Proof.
  repeat (apply Forall_cons; split; [vm_compute; repeat split; reflexivity|]).
  apply Forall_nil_2.
Qed.

(** ** C2: correlation round trip *)

(** C2, as stated, does not hold: the document ["a_"] contains no ["__"] and
    the page ["1"] contains no ["page-"], yet the identifier ["a___page-1"]
    is split one character early and decodes to [("a", "_1")]. *)
Lemma roundtrip_fails_after_trailing_underscore :
  ~ (forall document page : string,
       PyStr.contains "__" document = false ->
       PyStr.contains "page-" page = false ->
       Correlation.decode (Correlation.custom_id document page) = Ok (document, page)).
Proof.
  intros H. specialize (H "a_" "1" eq_refl eq_refl). vm_compute in H. discriminate H.
Qed.

(** A page that contains the separator is not decoded at all. *)
Example roundtrip_raises_on_separator_in_page :
  Correlation.decode (Correlation.custom_id "A.pdf" "1__2") = Raise ValueError.
Proof. reflexivity. Qed.

(** C2 (amended): when the document neither contains ["__"] nor ends with
    ["_"], and the page contains neither ["__"] nor ["page-"], decoding the
    correlation identifier of the pair gives the pair back. *)
Theorem correlation_roundtrip (document page : string) :
  PyStr.contains "__" document = false ->
  PyStr.endswith "_" document = false ->
  PyStr.contains "__" page = false ->
  PyStr.contains "page-" page = false ->
  Correlation.decode (Correlation.custom_id document page) = Ok (document, page).
Proof.
  intros Hd He Hp Hq. unfold Correlation.decode, Correlation.custom_id, PyStr.split.
  change (document +:+ "__page-" +:+ page) with (document +:+ "__" +:+ "page-" +:+ page).
  rewrite split_go_app by done.
  rewrite split_go_absent by (by rewrite contains_sep_page_part).
  by rewrite replace_page_prefix.
Qed.

Lemma correlation_roundtrip_witness :
  PyStr.contains "__" "A.pdf" = false /\
  PyStr.endswith "_" "A.pdf" = false /\
  PyStr.contains "__" "1" = false /\
  PyStr.contains "page-" "1" = false /\
  Correlation.decode (Correlation.custom_id "A.pdf" "1") = Ok ("A.pdf", "1").
Proof.
  split_and!; [reflexivity..|].
  apply (correlation_roundtrip "A.pdf" "1"); reflexivity.
Defined.

(** ** C3: reconciliation completeness *)

(** C3, as stated, does not hold: [report.pdf] and [report.docx] are two
    documents with one artifact path.  A job that answers page 1 of the
    first and page 7 of the second is reconciled into one file, written
    twice, and the artifact of [report.pdf] holds page 7 and not page 1. *)
Lemma same_stem_document_loses_its_pages :
  ~ (forall c sd od w fields bid b oid lines answers pdf,
       disk w !! batch_info_path sd = Some (JsonFile (JObj fields)) ->
       PyDict.get "batch_id" fields = Some bid ->
       Py.truthy bid = true ->
       batches_retrieve c bid = Ok b ->
       status b = "completed" ->
       output_file_id b = Some oid ->
       oid ≠ "" ->
       files_content c oid = Ok lines ->
       Forall2 (fun line '(doc, page, payload) => result_for doc page payload line)
               lines answers ->
       pdf ∈ answers.*1.*1 ->
       exists w' data,
         check_batch_status c sd od w = (Ok "completed_and_processed", w') /\
         disk w' !! output_file od pdf = Some (JsonFile (JObj data)) /\
         (forall page, page ∈ PyDict.keys data <-> page ∈ (pages_of pdf answers).*1)).
Proof.
  intros H.
  pose (line1 := [("custom_id", JStr "report.pdf__page-1");
                  ("response", JStr "from the pdf")]).
  pose (line2 := [("custom_id", JStr "report.docx__page-7");
                  ("response", JStr "from the docx")]).
  destruct (H (service "completed" (Some "file-9") [JObj line1; JObj line2])
              "out/state" "out" (sample_world "submitted" (JObj []))
              (sample_fields "submitted") (JStr "batch-1")
              (Batch "completed" (Some "file-9")) "file-9"
              [JObj line1; JObj line2]
              [("report.pdf", "1", JStr "from the pdf");
               ("report.docx", "7", JStr "from the docx")]
              "report.pdf")
    as (w' & data & Hcall & Hfile & Hkeys);
    try reflexivity; try discriminate.
  - constructor; [by exists line1, "report.pdf__page-1"|].
    constructor; [by exists line2, "report.docx__page-7"|constructor].
  - by left.
  - vm_compute in Hcall. injection Hcall as <-.
    vm_compute in Hfile. injection Hfile as <-.
    assert ("1" ∈ PyDict.keys [("7", JStr "from the docx")]) as Hin.
    { apply Hkeys. vm_compute. by left. }
    vm_compute in Hin. apply elem_of_cons in Hin as [Hin|Hin]; [discriminate Hin|].
    by apply elem_of_nil in Hin.
Qed.

(** C3 (amended): when the job is completed with an output file, every
    downloaded line answers a page of some document, and no other document
    answered in the job has the artifact path of [pdf], the call writes the
    artifact of [pdf]; its keys are exactly the pages answered for [pdf],
    each once, and each page carries the payload of its line (of the last
    one, should a page be answered twice); the job record is removed and no
    file is touched but the artifacts of the answered documents.  In
    particular the single line
    [{"custom_id": "A.pdf__page-1", "response": {"x": 1}}] is reconciled
    into [A_metadata.json] with content [{"1": {"x": 1}}]. *)
Theorem reconciliation_completeness c sd od w fields bid b oid lines answers pdf :
  disk w !! batch_info_path sd = Some (JsonFile (JObj fields)) ->
  PyDict.get "batch_id" fields = Some bid ->
  Py.truthy bid = true ->
  batches_retrieve c bid = Ok b ->
  status b = "completed" ->
  output_file_id b = Some oid ->
  oid ≠ "" ->
  files_content c oid = Ok lines ->
  Forall2 (fun line '(doc, page, payload) => result_for doc page payload line)
          lines answers ->
  pdf ∈ answers.*1.*1 ->
  (forall doc, doc ∈ answers.*1.*1 -> doc ≠ pdf ->
     output_file od doc ≠ output_file od pdf) ->
  exists w' data,
    check_batch_status c sd od w = (Ok "completed_and_processed", w') /\
    disk w' !! output_file od pdf = Some (JsonFile (JObj data)) /\
    NoDup (PyDict.keys data) /\
    (forall page, page ∈ PyDict.keys data <-> page ∈ (pages_of pdf answers).*1) /\
    (forall before page payload after,
       pages_of pdf answers = before ++ (page, payload) :: after ->
       page ∉ after.*1 ->
       PyDict.get page data = Some payload) /\
    disk w' !! batch_info_path sd = None /\
    (forall path,
       (forall doc, doc ∈ answers.*1.*1 -> path ≠ output_file od doc) ->
       path ≠ batch_info_path sd ->
       disk w' !! path = disk w !! path) /\
    (lines = [JObj [("custom_id", JStr "A.pdf__page-1");
                    ("response", JObj [("x", JNum 1)])]] ->
     disk w' !! PyPath.join od "A_metadata.json"
     = Some (JsonFile (JObj [("1", JObj [("x", JNum 1)])]))).
Proof.
  intros Hrec Hbid Htruthy Hb Hstatus Hout Hoid Hlines Hanswers Hmine Hothers.
  assert (disk (World (delete (batch_info_path sd)
              (store_results od (fold_left file_result answers [])
                 (<[batch_info_path sd :=
                     JsonFile (JObj (PyDict.set "status" (JStr "completed") fields))]>
                    (disk w))))
           (calls w ++ [BatchesRetrieve bid; FilesContent oid]))
            !! output_file od pdf
          = Some (JsonFile (JObj (file_answers (pages_of pdf answers) [])))) as Hfile.
  { simpl. rewrite lookup_delete_ne by apply not_eq_sym, output_file_not_batch_info.
    apply store_results_group.
    + apply groups_wf. constructor.
    + by rewrite groups_get.
    + intros doc [Hin|Hin]%groups_keys; [set_solver|]. by apply Hothers. }
  eexists _, (file_answers (pages_of pdf answers) []).
  split; [|split_and!].
  - eapply check_completed; try done. by apply group_answers.
  - exact Hfile.
  - apply file_answers_wf. constructor.
  - intros page. rewrite file_answers_keys. set_solver.
  - intros before page payload after -> Hlast. by apply file_answers_get_last.
  - simpl. apply lookup_delete_eq.
  - intros path H1 H2. simpl. rewrite lookup_delete_ne by done.
    rewrite store_results_other; [by rewrite lookup_insert_ne|].
    intros doc data Hin. apply not_eq_sym, H1.
    assert (doc ∈ PyDict.keys (fold_left file_result answers [])) as Hkey.
    { apply list_elem_of_fmap. by exists (doc, data). }
    apply groups_keys in Hkey as [Hkey|Hkey]; [set_solver|done].
  - intros ->.
    inversion Hanswers as [|line [[doc page] payload] lines' answers' Hline Hrest]; subst.
    inversion Hrest; subst.
    destruct Hline as (flds & cid & [= <-] & [= <-] & [= <- <-] & ->).
    csimpl in Hmine. apply list_elem_of_singleton in Hmine as ->.
    exact Hfile.
Qed.

(** Two documents answered in one job, the lines of [A.pdf] apart: each
    document gets its own pages; and the scenario of the specification. *)
Lemma reconciliation_completeness_witness :
  let line cid x := JObj [("custom_id", JStr cid); ("response", JObj [("x", JNum x)])] in
  let lines := [line "A.pdf__page-1" 1%Z; line "B.pdf__page-1" 2%Z; line "A.pdf__page-2" 3%Z] in
  let answers := [("A.pdf", "1", JObj [("x", JNum 1)]);
                  ("B.pdf", "1", JObj [("x", JNum 2)]);
                  ("A.pdf", "2", JObj [("x", JNum 3)])] in
  let w := sample_world "submitted" (JObj []) in
  let reconciled c path pages :=
    exists w' data,
      check_batch_status c "out/state" "out" w = (Ok "completed_and_processed", w') /\
      disk w' !! path = Some (JsonFile (JObj data)) /\
      NoDup (PyDict.keys data) /\
      (forall page, page ∈ PyDict.keys data <-> page ∈ pages.*1) /\
      (forall before page payload after,
         pages = before ++ (page, payload) :: after ->
         page ∉ after.*1 ->
         PyDict.get page data = Some payload) /\
      disk w' !! "out/state/batch_info.json" = None in
  reconciled (service "completed" (Some "file-9") lines) "out/A_metadata.json"
             [("1", JObj [("x", JNum 1)]); ("2", JObj [("x", JNum 3)])] /\
  reconciled (service "completed" (Some "file-9") lines) "out/B_metadata.json"
             [("1", JObj [("x", JNum 2)])] /\
  exists w',
    check_batch_status (service "completed" (Some "file-9") [line "A.pdf__page-1" 1%Z])
                       "out/state" "out" w = (Ok "completed_and_processed", w') /\
    disk w' !! "out/A_metadata.json" = Some (JsonFile (JObj [("1", JObj [("x", JNum 1)])])).
Proof.
  intros line lines answers w reconciled.
  assert (Forall2 (fun line '(doc, page, payload) => result_for doc page payload line)
                  lines answers) as Hanswers.
  { repeat constructor.
    - by exists [("custom_id", JStr "A.pdf__page-1"); ("response", JObj [("x", JNum 1)])],
                "A.pdf__page-1".
    - by exists [("custom_id", JStr "B.pdf__page-1"); ("response", JObj [("x", JNum 2)])],
                "B.pdf__page-1".
    - by exists [("custom_id", JStr "A.pdf__page-2"); ("response", JObj [("x", JNum 3)])],
                "A.pdf__page-2". }
  assert (forall pdf, pdf ∈ ["A.pdf"; "B.pdf"] ->
            forall doc, doc ∈ answers.*1.*1 -> doc ≠ pdf ->
              output_file "out" doc ≠ output_file "out" pdf) as Hothers.
  { intros pdf Hpdf doc Hdoc Hne.
    repeat (apply elem_of_cons in Hpdf as [->|Hpdf]);
      [..|by apply elem_of_nil in Hpdf];
      csimpl in Hdoc;
      repeat (apply elem_of_cons in Hdoc as [->|Hdoc]);
      try (by apply elem_of_nil in Hdoc); try done. }
  split; [|split].
  - destruct (reconciliation_completeness
                (service "completed" (Some "file-9") lines) "out/state" "out" w
                (sample_fields "submitted") (JStr "batch-1")
                (Batch "completed" (Some "file-9")) "file-9" lines answers "A.pdf")
      as (w' & data & H1 & H2 & H3 & H4 & H5 & H6 & _);
      try reflexivity; try discriminate; try exact Hanswers.
    + by left.
    + apply Hothers. by left.
    + exists w', data. split_and!; assumption.
  - destruct (reconciliation_completeness
                (service "completed" (Some "file-9") lines) "out/state" "out" w
                (sample_fields "submitted") (JStr "batch-1")
                (Batch "completed" (Some "file-9")) "file-9" lines answers "B.pdf")
      as (w' & data & H1 & H2 & H3 & H4 & H5 & H6 & _);
      try reflexivity; try discriminate; try exact Hanswers.
    + right. by left.
    + apply Hothers. right. by left.
    + exists w', data. split_and!; assumption.
  - destruct (reconciliation_completeness
                (service "completed" (Some "file-9") [line "A.pdf__page-1" 1%Z])
                "out/state" "out" w
                (sample_fields "submitted") (JStr "batch-1")
                (Batch "completed" (Some "file-9")) "file-9"
                [line "A.pdf__page-1" 1%Z] [("A.pdf", "1", JObj [("x", JNum 1)])] "A.pdf")
      as (w' & data & H1 & _ & _ & _ & _ & _ & _ & H8);
      try reflexivity; try discriminate.
    + repeat constructor.
      by exists [("custom_id", JStr "A.pdf__page-1"); ("response", JObj [("x", JNum 1)])],
                "A.pdf__page-1".
    + by left.
    + intros doc Hdoc Hne. csimpl in Hdoc. apply list_elem_of_singleton in Hdoc. done.
    + exists w'. split; [exact H1|]. exact (H8 eq_refl).
Defined.

(** The scenario of the specification: the line
    [{"custom_id": "A.pdf__page-1", "response": {"x": 1}}] is reconciled into
    [A_metadata.json] with content [{"1": {"x": 1}}]. *)
Example reconciliation_scenario :
  let line := JObj [("custom_id", JStr "A.pdf__page-1");
                    ("response", JObj [("x", JNum 1)])] in
  let c := service "completed" (Some "file-9") [line] in
  let '(r, w') := check_batch_status c "out/state" "out"
                    (sample_world "submitted" (JObj [])) in
  r = Ok "completed_and_processed" /\
  disk w' !! "out/A_metadata.json" = Some (JsonFile (JObj [("1", JObj [("x", JNum 1)])])) /\
  disk w' !! "out/state/batch_info.json" = None.
Proof. vm_compute. done. Qed.

(** ** C4: cleanup on success *)

(** The status reported by the service is returned as it is (line 164).
    In the embedding a client is any record of functions, and one that
    reported a job status spelled ["completed_and_processed"] would make the
    call return that word with the record kept.  The batch service has no
    such status: this is what [speaks_job_statuses] says of a client. *)
Lemma reported_status_can_pass_for_the_indicator :
  let c := service "completed_and_processed" None [] in
  let '(r, w') := check_batch_status c "out/state" "out"
                    (sample_world "submitted" (JObj [])) in
  r = Ok "completed_and_processed" /\
  recorded "out/state" "batch_id" w' = Some (JStr "batch-1") /\
  (check_batch_status c "out/state" "out" w').1 = Ok "completed_and_processed".
Proof. vm_compute. done. Qed.

(** C4: a call that returns ["completed_and_processed"] leaves no job
    record behind, and any number of further calls on that state directory
    return ["not_found"] and leave the world as it is.  The client is one of
    the batch service, which reports job statuses of its own vocabulary
    ([speaks_job_statuses]): ["completed_and_processed"] is the reconciler's
    word, section 4.4 of the specification calls it a distinct indicator. *)
Theorem cleanup_on_success c sd od w w' :
  speaks_job_statuses c ->
  check_batch_status c sd od w = (Ok "completed_and_processed", w') ->
  disk w' !! batch_info_path sd = None /\
  forall n c' od',
    recheck n c' sd od' w' = (replicate n (Ok "not_found"), w').
Proof.
  intros Hvoc Hcall.
  assert (disk w' !! batch_info_path sd = None) as Hgone.
  { destruct (check_completed_inv _ _ _ _ _ Hcall) as [Hgone|(bid & b & Hb & Hs)];
      [done|]. by destruct (Hvoc bid b Hb). }
  split; [done|]. intros n c' od'. by apply recheck_not_found.
Qed.

Lemma cleanup_on_success_witness :
  let c := service "completed" (Some "file-9")
             [JObj [("custom_id", JStr "A.pdf__page-1");
                    ("response", JObj [("x", JNum 1)])]] in
  let w := sample_world "submitted" (JObj []) in
  let w' := (check_batch_status c "out/state" "out" w).2 in
  speaks_job_statuses c /\
  check_batch_status c "out/state" "out" w = (Ok "completed_and_processed", w') /\
  disk w' !! batch_info_path "out/state" = None /\
  forall n c' od',
    recheck n c' "out/state" od' w' = (replicate n (Ok "not_found"), w').
Proof.
  intros c w w'.
  assert (speaks_job_statuses c) as Hvoc.
  { intros bid b [= <-]. discriminate. }
  assert (check_batch_status c "out/state" "out" w = (Ok "completed_and_processed", w'))
    as Hcall by (vm_compute; reflexivity).
  split; [exact Hvoc|]. split; [exact Hcall|].
  exact (cleanup_on_success c "out/state" "out" w w' Hvoc Hcall).
Defined.

(** ** C5: the submitter *)

(** C5, as stated, does not hold: when the record cannot be serialised the
    function returns [None], but the record file has already been opened for
    writing and stays behind with partial content. *)
Lemma failed_submission_leaves_partial_record :
  let c := service "validating" None [] in
  let rt := sample_runtime c in
  let w := World {["batch_requests.jsonl" := JsonlFile []]} [] in
  let '(r, w') := submit_batch_job rt c "batch_requests.jsonl" "out/state" Opaque w in
  r = Ok None /\
  disk w !! "out/state/batch_info.json" = None /\
  disk w' !! "out/state/batch_info.json" = Some BrokenFile.
Proof. vm_compute. done. Qed.

(** C5 (amended): [submit_batch_job] never raises.  When the staging file is
    missing, or the upload or the job creation raises, it returns [None] and
    leaves the disk as it was.  When the record cannot be serialised it
    returns [None] and leaves a record file with partial content.  When every
    step succeeds it writes one file, the job record with the two
    identifiers, the creation time, status ["submitted"] and the supplied
    metadata, and returns the job identifier. *)
Theorem submitter_outcomes rt c path sd metadata w :
  (disk w !! path = None ->
   submit_batch_job rt c path sd metadata w = (Ok None, w)) /\
  (forall f e,
     disk w !! path = Some f -> files_create c f = Raise e ->
     exists w', submit_batch_job rt c path sd metadata w = (Ok None, w') /\
                disk w' = disk w) /\
  (forall f fid e,
     disk w !! path = Some f -> files_create c f = Ok fid ->
     batches_create c fid = Raise e ->
     exists w', submit_batch_job rt c path sd metadata w = (Ok None, w') /\
                disk w' = disk w) /\
  (forall f fid bid,
     disk w !! path = Some f -> files_create c f = Ok fid ->
     batches_create c fid = Ok bid ->
     metadata = Opaque ->
     exists w', submit_batch_job rt c path sd metadata w = (Ok None, w') /\
                disk w' = <[batch_info_path sd := BrokenFile]> (disk w)) /\
  (forall f fid bid m,
     disk w !! path = Some f -> files_create c f = Ok fid ->
     batches_create c fid = Ok bid ->
     metadata = Data m ->
     exists w', submit_batch_job rt c path sd metadata w = (Ok (Some bid), w') /\
                disk w'
                = <[batch_info_path sd :=
                     JsonFile (JObj [("batch_id", JStr bid);
                                     ("input_file_id", JStr fid);
                                     ("created_at", JStr (now_isoformat rt));
                                     ("status", JStr "submitted");
                                     ("metadata", m)])]> (disk w)).
Proof.
  split_and!.
  - apply submit_no_batch_file.
  - intros f e H1 H2. eexists. split; [by eapply submit_upload_raises|done].
  - intros f fid e H1 H2 H3. eexists. split; [by eapply submit_create_raises|done].
  - intros f fid bid H1 H2 H3 ->. eexists. split; [by eapply submit_dump_raises|done].
  - intros f fid bid m H1 H2 H3 ->. eexists. split; [by eapply submit_succeeds|done].
Qed.

Lemma submitter_outcomes_witness :
  let c := service "validating" None [] in
  let rt := sample_runtime c in
  let w := World {["batch_requests.jsonl" := JsonlFile []]} [] in
  (exists w',
     submit_batch_job rt c "batch_requests.jsonl" "out/state" (Data (JObj [])) w
     = (Ok (Some "batch-2"), w') /\
     disk w'
     = <[batch_info_path "out/state" :=
          JsonFile (JObj [("batch_id", JStr "batch-2");
                          ("input_file_id", JStr "file-1");
                          ("created_at", JStr (now_isoformat rt));
                          ("status", JStr "submitted");
                          ("metadata", JObj [])])]> (disk w)) /\
  (exists w',
     submit_batch_job rt c "batch_requests.jsonl" "out/state" Opaque w = (Ok None, w') /\
     disk w' = <[batch_info_path "out/state" := BrokenFile]> (disk w)) /\
  submit_batch_job rt c "missing.jsonl" "out/state" (Data (JObj [])) w = (Ok None, w).
Proof.
  intros c rt w. split_and!.
  - destruct (submitter_outcomes rt c "batch_requests.jsonl" "out/state"
                (Data (JObj [])) w) as (_ & _ & _ & _ & Hok).
    exact (Hok (JsonlFile []) "file-1" "batch-2" (JObj [])
             eq_refl eq_refl eq_refl eq_refl).
  - destruct (submitter_outcomes rt c "batch_requests.jsonl" "out/state" Opaque w)
      as (_ & _ & _ & Hdump & _).
    exact (Hdump (JsonlFile []) "file-1" "batch-2" eq_refl eq_refl eq_refl eq_refl).
  - destruct (submitter_outcomes rt c "missing.jsonl" "out/state" (Data (JObj [])) w)
      as (Hmissing & _).
    exact (Hmissing eq_refl).
Defined.

(** ** C6: a job that is not finished *)

(** C6: with a job record that is an object with a usable [batch_id], and a
    service answer other than "completed with an output file", the record is
    rewritten with its [status] replaced by the answer's status and every
    other field as it was, nothing else on the disk changes, and the answer's
    status is returned. *)
Theorem unfinished_job_is_kept c sd od w fields bid b :
  disk w !! batch_info_path sd = Some (JsonFile (JObj fields)) ->
  PyDict.get "batch_id" fields = Some bid ->
  Py.truthy bid = true ->
  batches_retrieve c bid = Ok b ->
  ~ (status b = "completed" /\ has_output b = true) ->
  exists fields',
    check_batch_status c sd od w
    = (Ok (status b),
       World (<[batch_info_path sd := JsonFile (JObj fields')]> (disk w))
             (calls w ++ [BatchesRetrieve bid])) /\
    PyDict.get "status" fields' = Some (JStr (status b)) /\
    (forall k, k ≠ "status" -> PyDict.get k fields' = PyDict.get k fields) /\
    (is_Some (PyDict.get "status" fields) -> PyDict.keys fields' = PyDict.keys fields).
Proof.
  intros Hrec Hbid Htruthy Hb Hnot.
  exists (PyDict.set "status" (JStr (status b)) fields). split_and!.
  - apply check_pending; try done.
    apply andb_false_iff.
    destruct (String.eqb_spec (status b) "completed"); [|by left].
    right. destruct (has_output b); [|done]. by destruct Hnot.
  - apply get_set_eq.
  - intros k Hk. by apply get_set_ne.
  - intros [v Hv]. apply keys_set_present.
    destruct (decide ("status" ∈ PyDict.keys fields)) as [|Hout]; [done|].
    apply get_None in Hout. by rewrite Hout in Hv.
Qed.

Lemma unfinished_job_is_kept_witness :
  let c := service "in_progress" None [] in
  let w := sample_world "submitted" (JObj []) in
  let fields := sample_fields "submitted" in
  exists fields',
    check_batch_status c "out/state" "out" w
    = (Ok "in_progress",
       World (<[batch_info_path "out/state" := JsonFile (JObj fields')]> (disk w))
             (calls w ++ [BatchesRetrieve (JStr "batch-1")])) /\
    PyDict.get "status" fields' = Some (JStr "in_progress") /\
    (forall k, k ≠ "status" -> PyDict.get k fields' = PyDict.get k fields) /\
    (is_Some (PyDict.get "status" fields) -> PyDict.keys fields' = PyDict.keys fields).
Proof.
  intros c w fields.
  refine (unfinished_job_is_kept c "out/state" "out" w fields (JStr "batch-1")
            (Batch "in_progress" None) _ _ _ _ _); try reflexivity.
  simpl. intros [H _]. discriminate H.
Defined.

(** A job reported as completed, but without an output file. *)
Example completed_without_output_is_kept :
  let c := service "completed" None [] in
  let '(r, w') := check_batch_status c "out/state" "out"
                    (sample_world "submitted" (JObj [])) in
  r = Ok "completed" /\
  recorded "out/state" "status" w' = Some (JStr "completed") /\
  recorded "out/state" "batch_id" w' = Some (JStr "batch-1") /\
  call_name <$> calls w' = ["batches.retrieve"] /\
  size (disk w') = 2.
Proof. vm_compute. done. Qed.

(** ** C7: one line per page, and when the identifiers are distinct *)

(** C7, as stated, does not hold: the pairs [("a", "1__page-2")] and
    [("a__page-1", "2")] are distinct and both get the correlation identifier
    [a__page-1__page-2]. *)
Lemma distinct_pairs_share_an_identifier :
  ~ (forall rt docs system_prompt model lines batch_metadata,
       documents_ok docs ->
       batch_requests rt (documents_json docs) system_prompt model
       = Ok (lines, batch_metadata) ->
       NoDup (line_custom_id <$> lines)).
Proof.
  intros H.
  set (docs := [("a", [("1__page-2", @nil json)]); ("a__page-1", [("2", [])])]).
  assert (documents_ok docs) as Hok.
  { split; [by apply (bool_decide_unpack _)|].
    repeat (constructor; [split; [by apply (bool_decide_unpack _)|by repeat constructor]|]).
    constructor. }
  specialize (H (sample_runtime (service "validating" None [])) docs "" "" _ _ Hok eq_refl).
  vm_compute in H. apply NoDup_cons in H as [Hin _]. apply Hin. by left.
Qed.

(** C7 (amended): for documents whose pages are lists of well-formed
    elements, [prepare_batch_file] writes one request line per (document,
    page) pair, in iteration order, so that the number of lines is the total
    number of pages; the correlation identifiers are pairwise distinct
    provided no document identifier contains ["__page-"]; an empty input
    gives no line. *)
Theorem compiler_counts_pages rt system_prompt model docs w :
  documents_ok docs ->
  exists lines batch_metadata,
    prepare_batch_file rt (documents_json docs) system_prompt model w
    = (Ok ("batch_requests.jsonl", batch_metadata),
       World (<["batch_requests.jsonl" := JsonlFile lines]> (disk w)) (calls w)) /\
    line_custom_id <$> lines
    = (fun '(pdf, page) => Ok (JStr (Correlation.custom_id pdf page))) <$> page_pairs docs /\
    length lines = total_pages docs /\
    (Forall (fun '(pdf, _) => PyStr.contains "__page-" pdf = false) docs ->
     NoDup (line_custom_id <$> lines)) /\
    (docs = [] -> lines = []).
Proof.
  intros Hok.
  destruct (prepare_batch_file_ok rt system_prompt model docs w Hok) as [meta Hrun].
  exists (request_lines rt system_prompt model docs), (JObj meta).
  split_and!; [done|apply request_lines_custom_ids|apply request_lines_length| |by intros ->].
  intros Hsep. rewrite request_lines_custom_ids.
  apply NoDup_fmap_2_strong; [|by apply page_pairs_NoDup].
  intros [pdf1 page1] [pdf2 page2] H1%page_pairs_document H2%page_pairs_document [= Heq].
  rewrite Forall_forall in Hsep.
  apply list_elem_of_fmap in H1 as ([? pages1] & [= <-] & H1).
  apply list_elem_of_fmap in H2 as ([? pages2] & [= <-] & H2).
  destruct (custom_id_inj pdf1 page1 pdf2 page2) as [-> ->];
    [exact (Hsep _ H1)|exact (Hsep _ H2)|done|done].
Qed.

Lemma compiler_counts_pages_witness :
  let rt := sample_runtime (service "validating" None []) in
  let docs := scenario_documents in
  documents_ok docs /\
  exists lines batch_metadata,
    prepare_batch_file rt (documents_json docs) "Extract metadata." "gpt-4o-mini"
                       (World ∅ [])
    = (Ok ("batch_requests.jsonl", batch_metadata),
       World (<["batch_requests.jsonl" := JsonlFile lines]> ∅) []) /\
    line_custom_id <$> lines
    = (fun '(pdf, page) => Ok (JStr (Correlation.custom_id pdf page))) <$> page_pairs docs /\
    length lines = total_pages docs /\
    (Forall (fun '(pdf, _) => PyStr.contains "__page-" pdf = false) docs ->
     NoDup (line_custom_id <$> lines)) /\
    (docs = [] -> lines = []).
Proof.
  intros rt docs. split; [exact scenario_documents_ok|].
  exact (compiler_counts_pages rt "Extract metadata." "gpt-4o-mini" docs (World ∅ [])
           scenario_documents_ok).
Defined.

(** ** C8: the compile scenario *)

(** C8, as stated, does not hold: [prepare_batch_file] passes every page to
    [prepare_context_for_llm], which iterates over the page value and calls
    [.get] on each item; the items of the string ["text1"] are its
    characters, and the call raises [AttributeError] before any line is
    produced. *)
Lemma compile_scenario_as_written_raises :
  let c := service "validating" None [] in
  prepare_batch_file (sample_runtime c) scenario_as_written
                     "Extract metadata." "gpt-4o-mini" (World ∅ [])
  = (Raise AttributeError, World ∅ []).
Proof. reflexivity. Qed.

(** C8 (amended): with each page mapped to a list of elements (here one text
    element per page), [prepare_batch_file] writes exactly three request
    lines, with correlation identifiers [A.pdf__page-1], [B.pdf__page-1] and
    [B.pdf__page-2] in this order. *)
Theorem compile_scenario rt system_prompt model w :
  exists lines batch_metadata,
    prepare_batch_file rt (documents_json scenario_documents) system_prompt model w
    = (Ok ("batch_requests.jsonl", batch_metadata),
       World (<["batch_requests.jsonl" := JsonlFile lines]> (disk w)) (calls w)) /\
    line_custom_id <$> lines
    = [Ok (JStr "A.pdf__page-1"); Ok (JStr "B.pdf__page-1"); Ok (JStr "B.pdf__page-2")] /\
    length lines = 3.
Proof.
  destruct (prepare_batch_file_ok rt system_prompt model scenario_documents w
              scenario_documents_ok) as [meta Hrun].
  by exists (request_lines rt system_prompt model scenario_documents), (JObj meta).
Qed.

(** ** C9: the context builder *)

(** C9, as stated, does not hold: the context is not a function of the page
    and of the effective texts that the specification names, however the
    label is chosen and however the texts are put together.  A table without
    analysis and a text element with empty content both have the empty
    string as effective text, and their contexts differ: the first
    contributes ["Table: "]. *)
Lemma context_is_not_the_bare_analysis :
  let rt := sample_runtime (service "validating" None []) in
  ~ (exists assemble : string -> list string -> string,
       forall page items,
         Forall (fun item => element_ok item = true) items ->
         prepare_context_for_llm rt (pages_json [(page, items)])
         = Ok [(page, assemble page (spec_effective_text <$> items))]).
Proof.
  intros rt (assemble & H).
  pose proof (H "1" [JObj [("category", JStr "Table")]] ltac:(by repeat constructor)) as H1.
  pose proof (H "1" [text_element ""] ltac:(by repeat constructor)) as H2.
  change (Ok [("1", "Page 1: Table: ")] = Ok [("1", assemble "1" [""])]) in H1.
  change (Ok [("1", "Page 1: ")] = Ok [("1", assemble "1" [""])]) in H2.
  rewrite <- H2 in H1. discriminate H1.
Qed.

(** What the code does on the example of its own test. *)
Example context_of_a_table :
  prepare_context_for_llm (sample_runtime (service "validating" None []))
    (pages_json [("2", [JObj [("category", JStr "Table");
                              ("table_analysis", JStr "Table analysis result")]])])
  = Ok [("2", "Page 2: Table: Table analysis result")].
Proof. reflexivity. Qed.

(** An element that is not an object, or a text whose [content] is not a
    string, makes the call raise. *)
Example context_raises_on_malformed_elements :
  let rt := sample_runtime (service "validating" None []) in
  prepare_context_for_llm rt (pages_json [("1", [JStr "text"])]) = Raise AttributeError /\
  prepare_context_for_llm rt (pages_json [("1", [JObj [("content", JNull)]])])
  = Raise TypeError.
Proof. split; reflexivity. Qed.

(** C9 (amended): for pages mapped to lists of elements, each an object
    whose [content] is a string when it is used, [prepare_context_for_llm]
    returns without error, page by page in the order of the input, the label
    ["Page <page>:"] and the texts of the elements in their order, joined
    by single spaces; the text of a table is ["Table: "] followed by its
    [table_analysis], that of an image is ["Image: "] followed by its
    [vision_analysis], that of any other element is its [content]; an absent
    field counts as the empty string. *)
Theorem context_builder rt pages :
  pages_ok pages ->
  prepare_context_for_llm rt (pages_json pages)
  = Ok ((fun '(page, items) =>
           (page,
            PyStr.join " " (("Page " +:+ page +:+ ":") :: (effective_text rt <$> items))))
          <$> pages).
Proof.
  intros Hok. unfold prepare_context_for_llm, pages_json. simpl.
  rewrite contexts_loop_ok; [done|done|].
  intros page _. unfold PyDict.keys. simpl. apply not_elem_of_nil.
Qed.

Lemma context_builder_witness :
  let rt := sample_runtime (service "validating" None []) in
  let pages :=
    [("1", [JObj [("category", JStr "Text"); ("content", JStr "Test content")]]);
     ("2", [JObj [("category", JStr "Table");
                  ("table_analysis", JStr "Table analysis result")];
            JObj [("category", JStr "Image")]])] in
  pages_ok pages /\
  prepare_context_for_llm rt (pages_json pages)
  = Ok [("1", "Page 1: Test content");
        ("2", "Page 2: Table: Table analysis result Image: ")].
Proof.
  intros rt pages.
  assert (pages_ok pages) as Hok.
  { split; [by apply (bool_decide_unpack _)|by repeat constructor]. }
  split; [exact Hok|].
  exact (context_builder rt pages Hok).
Defined.

(** ** C10: artifacts are keyed by the stem *)

(** C10: two distinct documents with one stem share one artifact path; when
    both have results in a completed job, the artifact holds the data of the
    one written later only; and the driver drops a document from the
    candidates as soon as the artifact of the other exists. *)
Theorem stem_keyed_artifacts od pdf1 pdf2 :
  pdf1 ≠ pdf2 ->
  PyPath.stem pdf1 = PyPath.stem pdf2 ->
  output_file od pdf1 = output_file od pdf2 /\
  (forall c sd w fields bid b oid lines before data1 between data2 after,
     disk w !! batch_info_path sd = Some (JsonFile (JObj fields)) ->
     PyDict.get "batch_id" fields = Some bid ->
     Py.truthy bid = true ->
     batches_retrieve c bid = Ok b ->
     status b = "completed" ->
     output_file_id b = Some oid ->
     oid ≠ "" ->
     files_content c oid = Ok lines ->
     foldM result_step lines []
     = Ok (before ++ (pdf1, data1) :: between ++ (pdf2, data2) :: after) ->
     (forall pdf' data', (pdf', data') ∈ after ->
        output_file od pdf' ≠ output_file od pdf2) ->
     exists w',
       check_batch_status c sd od w = (Ok "completed_and_processed", w') /\
       disk w' !! output_file od pdf1 = Some (JsonFile (JObj data2))) /\
  (forall docs w,
     PyDict.wf docs ->
     is_Some (disk w !! output_file od pdf2) ->
     exists docs',
       skip_processed od docs w = (Ok docs', w) /\ PyDict.get pdf1 docs' = None).
Proof.
  intros Hne Hstem.
  assert (output_file od pdf1 = output_file od pdf2) as Hpath
    by (unfold output_file; by rewrite Hstem).
  split_and!; [done| |].
  - intros c sd w fields bid b oid lines before data1 between data2 after
      Hrec Hbid Htruthy Hb Hstatus Hout Hoid Hlines Hgroups Hafter.
    eexists. split; [by eapply check_completed|].
    simpl. rewrite lookup_delete_ne by apply not_eq_sym, output_file_not_batch_info.
    rewrite Hpath.
    replace (before ++ (pdf1, data1) :: between ++ (pdf2, data2) :: after)
      with ((before ++ (pdf1, data1) :: between) ++ (pdf2, data2) :: after)
      by (by rewrite <- app_assoc).
    by apply store_results_last.
  - intros docs w Hwf Hex.
    destruct (skip_processed_spec od docs w Hwf) as (docs' & Hrun & Hget).
    exists docs'. split; [done|].
    rewrite Hget, Hpath. by rewrite bool_decide_eq_true_2.
Qed.

Lemma stem_keyed_artifacts_witness :
  let lines :=
    [JObj [("custom_id", JStr "report.pdf__page-1"); ("response", JStr "from the pdf")];
     JObj [("custom_id", JStr "report.docx__page-7"); ("response", JStr "from the docx")]] in
  let c := service "completed" (Some "file-9") lines in
  let w := sample_world "submitted" (JObj []) in
  "report.pdf" ≠ "report.docx" /\
  PyPath.stem "report.pdf" = PyPath.stem "report.docx" /\
  output_file "out" "report.pdf" = output_file "out" "report.docx" /\
  (exists w',
     check_batch_status c "out/state" "out" w = (Ok "completed_and_processed", w') /\
     disk w' !! output_file "out" "report.pdf"
     = Some (JsonFile (JObj [("7", JStr "from the docx")]))) /\
  (forall docs w0,
     PyDict.wf docs ->
     is_Some (disk w0 !! output_file "out" "report.docx") ->
     exists docs',
       skip_processed "out" docs w0 = (Ok docs', w0) /\
       PyDict.get "report.pdf" docs' = None).
Proof.
  intros lines c w.
  assert ("report.pdf" ≠ "report.docx") as Hne by discriminate.
  assert (PyPath.stem "report.pdf" = PyPath.stem "report.docx") as Hstem by reflexivity.
  destruct (stem_keyed_artifacts "out" "report.pdf" "report.docx" Hne Hstem)
    as (Hpath & Hwrite & Hskip).
  split; [exact Hne|]. split; [exact Hstem|]. split; [exact Hpath|].
  split; [|exact Hskip].
  refine (Hwrite c "out/state" w (sample_fields "submitted") (JStr "batch-1")
            (Batch "completed" (Some "file-9")) "file-9" lines
            [] [("1", JStr "from the pdf")] [] [("7", JStr "from the docx")] []
            _ _ _ _ _ _ _ _ _ _); try reflexivity; try discriminate.
  intros pdf' data' Hin. by apply elem_of_nil in Hin.
Defined.

(** Both documents answered in one job: only the later one is on disk. *)
Example same_stem_results_collide :
  let lines :=
    [JObj [("custom_id", JStr "report.pdf__page-1"); ("response", JStr "from the pdf")];
     JObj [("custom_id", JStr "report.docx__page-7"); ("response", JStr "from the docx")]] in
  let c := service "completed" (Some "file-9") lines in
  let '(r, w') := check_batch_status c "out/state" "out"
                    (sample_world "submitted" (JObj [])) in
  r = Ok "completed_and_processed" /\
  disk w' !! "out/report_metadata.json"
  = Some (JsonFile (JObj [("7", JStr "from the docx")])) /\
  is_Some (disk w' !! "data.json") /\
  size (disk w') = 2.
Proof.
  vm_compute. split; [reflexivity|]. split; [reflexivity|].
  split; [by eexists|reflexivity].
Qed.

(** * Further properties of the code *)

(** ** The reconciler: what a call can and cannot do *)

Section ReconcilerFrame.
Implicit Types (w : world) (c : client).

(** Every path through [check_batch_status] ends in a returned string, and
    sends status requests and downloads only. *)
Lemma check_total c sd od w :
  exists s w' sent,
    check_batch_status c sd od w = (Ok s, w') /\
    calls w' = calls w ++ sent /\
    Forall (fun q => is_read q = true) sent.
Proof.
  unfold check_batch_status. io_unfold.
  destruct (disk w !! batch_info_path sd) as [f|] eqn:Hf; simpl.
  2:{ exists "not_found", w, []. by rewrite app_nil_r. }
  rewrite Hf.
  destruct (json_load f) as [batch_info|]; simpl.
  2:{ exists "error", w, []. by rewrite app_nil_r. }
  destruct (Py.get batch_info "batch_id" JNull) as [bid|]; simpl.
  2:{ exists "error", w, []. by rewrite app_nil_r. }
  destruct (Py.truthy bid); simpl.
  2:{ exists "error", w, []. by rewrite app_nil_r. }
  destruct (batches_retrieve c bid) as [b|]; simpl.
  2:{ eexists "error", _, [BatchesRetrieve bid].
      split_and!; [done|done|by repeat constructor]. }
  destruct (Py.items batch_info) as [fields|]; simpl.
  2:{ eexists "error", _, [BatchesRetrieve bid].
      split_and!; [done|done|by repeat constructor]. }
  destruct (_ && _); simpl.
  2:{ eexists _, _, [BatchesRetrieve bid].
      split_and!; [done|done|by repeat constructor]. }
  destruct (files_content c _) as [batch_results|]; simpl.
  2:{ eexists "error", _, [BatchesRetrieve bid; FilesContent _].
      split_and!; [done|by rewrite <- app_assoc|by repeat constructor]. }
  destruct (foldM result_step batch_results []) as [pdf_results|]; simpl.
  2:{ eexists "error", _, [BatchesRetrieve bid; FilesContent _].
      split_and!; [done|by rewrite <- app_assoc|by repeat constructor]. }
  rewrite write_results_spec. simpl.
  rewrite store_results_batch_info, lookup_insert_eq. simpl.
  eexists _, _, [BatchesRetrieve bid; FilesContent _].
  split_and!; [done|by rewrite <- app_assoc|by repeat constructor].
Qed.

(** X1: [check_batch_status] never raises: whatever the record, the service
    and the downloaded lines, it returns a status string.  The requests it
    sends are status requests and downloads only: it never uploads a file
    and never creates a job. *)
Theorem reconciler_never_raises c sd od w :
  exists s w' sent,
    check_batch_status c sd od w = (Ok s, w') /\
    calls w' = calls w ++ sent /\
    Forall (fun q => is_read q = true) sent.
Proof. apply check_total. Qed.

(** Unless the call returns ["completed_and_processed"], the job record is
    the only file it may have written, and the record is still there. *)
Lemma check_frame c sd od w s w' :
  check_batch_status c sd od w = (Ok s, w') ->
  s <> "completed_and_processed" ->
  (forall path, path <> batch_info_path sd -> disk w' !! path = disk w !! path) /\
  (is_Some (disk w' !! batch_info_path sd) <-> is_Some (disk w !! batch_info_path sd)).
Proof.
  unfold check_batch_status. io_unfold.
  destruct (disk w !! batch_info_path sd) as [f|] eqn:Hf; simpl.
  2:{ intros [= <- <-] _. by rewrite Hf. }
  rewrite Hf.
  assert (forall content q,
    (forall path, path <> batch_info_path sd ->
       disk (World (<[batch_info_path sd := content]> (disk w)) q) !! path
       = disk w !! path) /\
    (is_Some (disk (World (<[batch_info_path sd := content]> (disk w)) q)
                !! batch_info_path sd) <-> is_Some (Some f))) as Hupd.
  { intros content q. simpl. split.
    - intros path Hpath. by rewrite lookup_insert_ne.
    - rewrite lookup_insert_eq. split; by eexists. }
  assert (forall q,
    (forall path, path <> batch_info_path sd ->
       disk (World (disk w) q) !! path = disk w !! path) /\
    (is_Some (disk (World (disk w) q) !! batch_info_path sd) <-> is_Some (Some f)))
    as Hsame.
  { intros q. simpl. by rewrite Hf. }
  destruct (json_load f) as [batch_info|]; simpl.
  2:{ intros [= <- <-] _. by rewrite Hf. }
  destruct (Py.get batch_info "batch_id" JNull) as [bid|]; simpl.
  2:{ intros [= <- <-] _. by rewrite Hf. }
  destruct (Py.truthy bid); simpl.
  2:{ intros [= <- <-] _. by rewrite Hf. }
  destruct (batches_retrieve c bid) as [b|]; simpl.
  2:{ intros [= <- <-] _. apply Hsame. }
  destruct (Py.items batch_info) as [fields|]; simpl.
  2:{ intros [= <- <-] _. apply Hsame. }
  destruct (_ && _); simpl.
  2:{ intros [= <- <-] _. apply Hupd. }
  destruct (files_content c _) as [batch_results|]; simpl.
  2:{ intros [= <- <-] _. apply Hupd. }
  destruct (foldM result_step batch_results []) as [pdf_results|]; simpl.
  2:{ intros [= <- <-] _. apply Hupd. }
  rewrite write_results_spec. simpl.
  rewrite store_results_batch_info, lookup_insert_eq. simpl.
  by intros [= <- <-] ?.
Qed.

Lemma check_unusable c sd od w f :
  disk w !! batch_info_path sd = Some f ->
  record_batch_id f = None ->
  check_batch_status c sd od w = (Ok "error", w).
Proof.
  intros Hf Hid. unfold check_batch_status. io_unfold. rewrite Hf. simpl. rewrite Hf.
  unfold record_batch_id in Hid.
  destruct (json_load f) as [batch_info|]; simpl; [|done].
  destruct batch_info as [| | | | |fields]; simpl; try done.
  destruct (PyDict.get "batch_id" fields) as [bid|]; simpl; [|done].
  by destruct (Py.truthy bid).
Qed.

Lemma check_retrieve_raises c sd od w f bid e :
  disk w !! batch_info_path sd = Some f ->
  record_batch_id f = Some bid ->
  batches_retrieve c bid = Raise e ->
  check_batch_status c sd od w
  = (Ok "error", World (disk w) (calls w ++ [BatchesRetrieve bid])).
Proof.
  intros Hf Hid Hb. unfold check_batch_status. io_unfold. rewrite Hf. simpl. rewrite Hf.
  unfold record_batch_id in Hid.
  destruct (json_load f) as [batch_info|]; simpl; [|done].
  destruct batch_info as [| | | | |fields]; simpl; try done.
  destruct (PyDict.get "batch_id" fields) as [bid'|]; simpl; [|done].
  destruct (Py.truthy bid') eqn:Ht; [|done].
  injection Hid as ->. simpl. by rewrite Hb.
Qed.

(** X3: errors that come before the record is refreshed leave the disk as
    it was.  When the record file exists but gives no usable job identifier
    (it does not parse, it is not an object, or its [batch_id] is missing,
    null or empty), the call returns ["error"] without sending anything;
    when the identifier is usable and the status request raises, the call
    returns ["error"] after that one request.  In both cases no file is
    written, the record included. *)
Theorem early_errors_leave_the_disk_untouched c sd od w f :
  disk w !! batch_info_path sd = Some f ->
  match record_batch_id f with
  | Some bid => exists e, batches_retrieve c bid = Raise e
  | None => True
  end ->
  check_batch_status c sd od w
  = (Ok "error",
     World (disk w)
           (calls w ++ match record_batch_id f with
                       | Some bid => [BatchesRetrieve bid]
                       | None => []
                       end)).
Proof.
  intros Hf Hcase. destruct (record_batch_id f) as [bid|] eqn:Hid.
  - destruct Hcase as [e He]. by eapply check_retrieve_raises.
  - rewrite app_nil_r. rewrite (check_unusable c sd od w f) by done. by destruct w.
Qed.

Lemma early_errors_leave_the_disk_untouched_witness :
  let unreachable := Client (fun _ => Raise ServiceError) (fun _ => Raise ServiceError)
                            (fun _ => Raise ServiceError) (fun _ => Raise ServiceError) in
  let w := sample_world "submitted" (JObj []) in
  check_batch_status unreachable "out/state" "out" broken_record_world
  = (Ok "error", World (disk broken_record_world) (calls broken_record_world ++ [])) /\
  check_batch_status unreachable "out/state" "out" w
  = (Ok "error", World (disk w) (calls w ++ [BatchesRetrieve (JStr "batch-1")])).
Proof.
  intros unreachable w. split.
  - exact (early_errors_leave_the_disk_untouched unreachable "out/state" "out"
             broken_record_world BrokenFile eq_refl I).
  - exact (early_errors_leave_the_disk_untouched unreachable "out/state" "out"
             w (JsonFile (sample_record "submitted")) eq_refl
             (ex_intro _ ServiceError eq_refl)).
Defined.

End ReconcilerFrame.

(** ** The reconciler on a disk that can fail *)

(** Without faults the two embeddings of the reconciler are one. *)
Lemma fallible_write_results_no_faults od groups w :
  Fallible.write_results Fallible.no_faults od groups w = write_results od groups w.
Proof. reflexivity. Qed.

Lemma fallible_no_faults c sd od w :
  Fallible.check_batch_status Fallible.no_faults c sd od w = check_batch_status c sd od w.
Proof. reflexivity. Qed.

Section FallibleFacts.
Variable ft : Fallible.faults.

Lemma fallible_read_ok path :
  ft Fallible.OpenRead path = None -> Fallible.read ft path = IO.read path.
Proof. unfold Fallible.read. by intros ->. Qed.

Lemma fallible_write_ok path f :
  ft Fallible.OpenWrite path = None -> ft Fallible.Dump path = None ->
  Fallible.write ft path f = IO.write path f.
Proof. unfold Fallible.write. by intros -> ->. Qed.

Lemma fallible_write_refused path f e :
  ft Fallible.OpenWrite path = Some e -> Fallible.write ft path f = IO.raise e.
Proof. unfold Fallible.write. by intros ->. Qed.

Lemma fallible_write_broken path f e :
  ft Fallible.OpenWrite path = None -> ft Fallible.Dump path = Some e ->
  Fallible.write ft path f = (IO.write path BrokenFile;; IO.raise e).
Proof. unfold Fallible.write. by intros -> ->. Qed.

Lemma fallible_remove_ok path :
  ft Fallible.Remove path = None -> Fallible.remove ft path = IO.remove path.
Proof. unfold Fallible.remove. by intros ->. Qed.

Lemma fallible_write_results_ok od groups w :
  (forall pdf data, (pdf, data) ∈ groups ->
     ft Fallible.OpenWrite (output_file od pdf) = None /\
     ft Fallible.Dump (output_file od pdf) = None) ->
  Fallible.write_results ft od groups w
  = (Ok tt, World (store_results od groups (disk w)) (calls w)).
Proof.
  unfold Fallible.write_results, store_results.
  revert w. induction groups as [|[pdf data] groups IH]; intros w Hok.
  - by destruct w.
  - destruct (Hok pdf data ltac:(by left)) as [Ho Hd].
    cbn [IO.for_]. rewrite (fallible_write_ok _ _ Ho Hd).
    io_unfold. rewrite IH; [done|]. intros p d Hin. apply (Hok p d). by right.
Qed.

Lemma fallible_write_results_refused od before pdf data after e w :
  (forall pdf' data', (pdf', data') ∈ before ->
     ft Fallible.OpenWrite (output_file od pdf') = None /\
     ft Fallible.Dump (output_file od pdf') = None) ->
  ft Fallible.OpenWrite (output_file od pdf) = Some e ->
  Fallible.write_results ft od (before ++ (pdf, data) :: after) w
  = (Raise e, World (store_results od before (disk w)) (calls w)).
Proof.
  unfold Fallible.write_results, store_results.
  revert w. induction before as [|[p d] before IH]; intros w Hok Hbad.
  - cbn [app IO.for_]. rewrite (fallible_write_refused _ _ _ Hbad). io_unfold. by destruct w.
  - destruct (Hok p d ltac:(by left)) as [Ho Hd].
    cbn [app IO.for_]. rewrite (fallible_write_ok _ _ Ho Hd).
    io_unfold. rewrite (IH _ (fun p' d' Hin => Hok p' d' ltac:(by right)) Hbad). done.
Qed.

Lemma fallible_write_results_broken od before pdf data after e w :
  (forall pdf' data', (pdf', data') ∈ before ->
     ft Fallible.OpenWrite (output_file od pdf') = None /\
     ft Fallible.Dump (output_file od pdf') = None) ->
  ft Fallible.OpenWrite (output_file od pdf) = None ->
  ft Fallible.Dump (output_file od pdf) = Some e ->
  Fallible.write_results ft od (before ++ (pdf, data) :: after) w
  = (Raise e,
     World (<[output_file od pdf := BrokenFile]> (store_results od before (disk w)))
           (calls w)).
Proof.
  unfold Fallible.write_results, store_results.
  revert w. induction before as [|[p d] before IH]; intros w Hok Hopen Hbad.
  - cbn [app IO.for_]. rewrite (fallible_write_broken _ _ _ Hopen Hbad). by io_unfold.
  - destruct (Hok p d ltac:(by left)) as [Ho Hd].
    cbn [app IO.for_]. rewrite (fallible_write_ok _ _ Ho Hd).
    io_unfold. rewrite (IH _ (fun p' d' Hin => Hok p' d' ltac:(by right)) Hopen Hbad). done.
Qed.

End FallibleFacts.

Section FallibleReconciler.
Variable ft : Fallible.faults.
Implicit Types (w : world) (c : client).

(** With the writes of the artifacts and the removal of the record going
    through, a call that does not reconcile leaves every file but the record
    alone. *)
Lemma fallible_check_frame c sd od w s w' :
  (forall pdf, ft Fallible.OpenWrite (output_file od pdf) = None /\
               ft Fallible.Dump (output_file od pdf) = None) ->
  ft Fallible.Remove (batch_info_path sd) = None ->
  Fallible.check_batch_status ft c sd od w = (Ok s, w') ->
  s <> "completed_and_processed" ->
  (forall path, path <> batch_info_path sd -> disk w' !! path = disk w !! path) /\
  (is_Some (disk w' !! batch_info_path sd) <-> is_Some (disk w !! batch_info_path sd)).
Proof.
  intros Hart Hrm.
  unfold Fallible.check_batch_status.
  rewrite (fallible_remove_ok ft _ Hrm).
  unfold Fallible.read, Fallible.write at 1.
  io_unfold.
  destruct (disk w !! batch_info_path sd) as [f|] eqn:Hf; simpl.
  2:{ intros [= <- <-] _. by rewrite Hf. }
  assert (forall content q,
    (forall path, path <> batch_info_path sd ->
       disk (World (<[batch_info_path sd := content]> (disk w)) q) !! path
       = disk w !! path) /\
    (is_Some (disk (World (<[batch_info_path sd := content]> (disk w)) q)
                !! batch_info_path sd) <-> is_Some (Some f))) as Hupd.
  { intros content q. simpl. split.
    - intros path Hpath. by rewrite lookup_insert_ne.
    - rewrite lookup_insert_eq. split; by eexists. }
  assert (forall q,
    (forall path, path <> batch_info_path sd ->
       disk (World (disk w) q) !! path = disk w !! path) /\
    (is_Some (disk (World (disk w) q) !! batch_info_path sd) <-> is_Some (Some f)))
    as Hsame.
  { intros q. simpl. by rewrite Hf. }
  destruct (ft Fallible.OpenRead (batch_info_path sd)); simpl.
  { intros [= <- <-] _. by rewrite Hf. }
  rewrite Hf.
  destruct (json_load f) as [batch_info|]; simpl.
  2:{ intros [= <- <-] _. by rewrite Hf. }
  destruct (Py.get batch_info "batch_id" JNull) as [bid|]; simpl.
  2:{ intros [= <- <-] _. by rewrite Hf. }
  destruct (Py.truthy bid); simpl.
  2:{ intros [= <- <-] _. by rewrite Hf. }
  destruct (batches_retrieve c bid) as [b|]; simpl.
  2:{ intros [= <- <-] _. apply Hsame. }
  destruct (Py.items batch_info) as [fields|]; simpl.
  2:{ intros [= <- <-] _. apply Hsame. }
  destruct (ft Fallible.OpenWrite (batch_info_path sd)); simpl.
  { intros [= <- <-] _. apply Hsame. }
  destruct (ft Fallible.Dump (batch_info_path sd)); simpl.
  { intros [= <- <-] _. apply Hupd. }
  destruct (_ && _); simpl.
  2:{ intros [= <- <-] _. apply Hupd. }
  destruct (files_content c _) as [batch_results|]; simpl.
  2:{ intros [= <- <-] _. apply Hupd. }
  destruct (foldM result_step batch_results []) as [pdf_results|]; simpl.
  2:{ intros [= <- <-] _. apply Hupd. }
  rewrite (fallible_write_results_ok ft); [|intros; apply Hart]. simpl.
  rewrite store_results_batch_info, lookup_insert_eq. simpl.
  by intros [= <- <-] ?.
Qed.

(** A completed job whose lines decode, on a disk that refuses to open the
    artifact of one document: the artifacts of the documents before it are
    written, the call returns ["error"], and the record stays, with the
    status ["completed"]. *)
Lemma fallible_check_refused c sd od w fields bid b oid lines before pdf data after e :
  disk w !! batch_info_path sd = Some (JsonFile (JObj fields)) ->
  PyDict.get "batch_id" fields = Some bid ->
  Py.truthy bid = true ->
  batches_retrieve c bid = Ok b ->
  status b = "completed" ->
  output_file_id b = Some oid ->
  oid <> "" ->
  files_content c oid = Ok lines ->
  foldM result_step lines [] = Ok (before ++ (pdf, data) :: after) ->
  ft Fallible.OpenRead (batch_info_path sd) = None ->
  ft Fallible.OpenWrite (batch_info_path sd) = None ->
  ft Fallible.Dump (batch_info_path sd) = None ->
  (forall pdf' data', (pdf', data') ∈ before ->
     ft Fallible.OpenWrite (output_file od pdf') = None /\
     ft Fallible.Dump (output_file od pdf') = None) ->
  ft Fallible.OpenWrite (output_file od pdf) = Some e ->
  Fallible.check_batch_status ft c sd od w
  = (Ok "error",
     World (store_results od before
              (<[batch_info_path sd :=
                  JsonFile (JObj (PyDict.set "status" (JStr "completed") fields))]>
                 (disk w)))
           (calls w ++ [BatchesRetrieve bid; FilesContent oid])).
Proof.
  intros H1 H2 H3 H4 H5 H6 H7 H8 H9 Hr Ho Hd Hbefore Hbad.
  unfold Fallible.check_batch_status. cbv zeta.
  unfold Fallible.read, Fallible.write at 1. rewrite Hr, Ho, Hd.
  io_unfold.
  assert (has_output b = true) as Hout.
  { unfold has_output. rewrite H6. by destruct (String.eqb_spec oid ""). }
  repeat first [progress rewrite ?H1, ?H2, ?H3, ?H4, ?H5, ?H6, ?Hout, ?H8, ?H9
               | progress simpl].
  rewrite (fallible_write_results_refused ft _ _ _ _ _ e _ Hbefore Hbad). simpl.
  by rewrite <- app_assoc.
Qed.

End FallibleReconciler.

(** X2: artifacts are written all at once or not at all, as long as the disk
    takes them.  On a disk that may refuse any operation on the job record,
    but neither the writing of an artifact nor the removal of the record:
    when [check_batch_status] returns anything but
    ["completed_and_processed"], no file other than the job record has been
    created, changed or removed, and the job record exists after the call
    exactly when it existed before. *)
Theorem artifacts_all_or_nothing ft c sd od w s w' :
  (forall pdf, ft Fallible.OpenWrite (output_file od pdf) = None /\
               ft Fallible.Dump (output_file od pdf) = None) ->
  ft Fallible.Remove (batch_info_path sd) = None ->
  Fallible.check_batch_status ft c sd od w = (Ok s, w') ->
  s <> "completed_and_processed" ->
  (forall path, path <> batch_info_path sd -> disk w' !! path = disk w !! path) /\
  (is_Some (disk w' !! batch_info_path sd) <-> is_Some (disk w !! batch_info_path sd)).
Proof. apply fallible_check_frame. Qed.

(** The rewritten record cannot be written out and stays behind truncated;
    the call returns ["error"] and the downloaded line, which decodes, is
    not written. *)
Lemma artifacts_all_or_nothing_witness :
  let ft : Fallible.faults := fun op path =>
    match op with
    | Fallible.Dump =>
        if String.eqb path "out/state/batch_info.json" then Some FileNotFoundError
        else None
    | _ => None
    end in
  let c := service "completed" (Some "file-9") [sample_line "A.pdf__page-1"] in
  let w := sample_world "submitted" (JObj []) in
  let w' := (Fallible.check_batch_status ft c "out/state" "out" w).2 in
  Fallible.check_batch_status ft c "out/state" "out" w = (Ok "error", w') /\
  disk w' !! "out/state/batch_info.json" = Some BrokenFile /\
  (forall path, path <> batch_info_path "out/state" -> disk w' !! path = disk w !! path) /\
  (is_Some (disk w' !! batch_info_path "out/state")
   <-> is_Some (disk w !! batch_info_path "out/state")).
Proof.
  intros ft c w w'.
  assert (Fallible.check_batch_status ft c "out/state" "out" w = (Ok "error", w')) as Hcall
    by (vm_compute; reflexivity).
  split; [exact Hcall|]. split; [vm_compute; reflexivity|].
  refine (artifacts_all_or_nothing ft c "out/state" "out" w "error" w' _ _ Hcall _).
  - intros pdf. split; [reflexivity|].
    change (ft Fallible.Dump (output_file "out" pdf))
      with (if String.eqb (output_file "out" pdf) (batch_info_path "out/state")
            then Some FileNotFoundError else None).
    destruct (String.eqb_spec (output_file "out" pdf) (batch_info_path "out/state"))
      as [Heq|_]; [|reflexivity].
    by destruct (output_file_not_batch_info "out" pdf "out/state").
  - reflexivity.
  - discriminate.
Defined.

(** X25: a disk that refuses an artifact leaves the reconciliation half
    done.  The job is completed and its lines decode into the groups
    [before ++ (pdf, data) :: after]; the record can be read and rewritten,
    the artifacts of [before] can be written, and opening the artifact of
    [pdf] raises.  Then [check_batch_status] returns ["error"]: the
    artifacts of [before] are on the disk, nothing is written for [pdf] and
    for [after], and the record is still there, with the status
    ["completed"]. *)
Theorem refused_artifact_leaves_earlier_ones
    ft c sd od w fields bid b oid lines before pdf data after e :
  disk w !! batch_info_path sd = Some (JsonFile (JObj fields)) ->
  PyDict.get "batch_id" fields = Some bid ->
  Py.truthy bid = true ->
  batches_retrieve c bid = Ok b ->
  status b = "completed" ->
  output_file_id b = Some oid ->
  oid <> "" ->
  files_content c oid = Ok lines ->
  foldM result_step lines [] = Ok (before ++ (pdf, data) :: after) ->
  ft Fallible.OpenRead (batch_info_path sd) = None ->
  ft Fallible.OpenWrite (batch_info_path sd) = None ->
  ft Fallible.Dump (batch_info_path sd) = None ->
  (forall pdf' data', (pdf', data') ∈ before ->
     ft Fallible.OpenWrite (output_file od pdf') = None /\
     ft Fallible.Dump (output_file od pdf') = None) ->
  ft Fallible.OpenWrite (output_file od pdf) = Some e ->
  Fallible.check_batch_status ft c sd od w
  = (Ok "error",
     World (store_results od before
              (<[batch_info_path sd :=
                  JsonFile (JObj (PyDict.set "status" (JStr "completed") fields))]>
                 (disk w)))
           (calls w ++ [BatchesRetrieve bid; FilesContent oid])).
Proof. apply fallible_check_refused. Qed.

(** [A.pdf] and [B.pdf] are answered, and the artifact of [B.pdf] cannot be
    opened: the call returns ["error"] with the artifact of [A.pdf]
    written. *)
Lemma refused_artifact_leaves_earlier_ones_witness :
  let ft : Fallible.faults := fun op path =>
    match op with
    | Fallible.OpenWrite =>
        if String.eqb path "out/B_metadata.json" then Some FileNotFoundError else None
    | _ => None
    end in
  let lines := [sample_line "A.pdf__page-1"; sample_line "B.pdf__page-1"] in
  let c := service "completed" (Some "file-9") lines in
  let w := sample_world "submitted" (JObj []) in
  let w' :=
    World (store_results "out" [("A.pdf", [("1", JObj [("x", JNum 1)])])]
             (<[batch_info_path "out/state" :=
                 JsonFile (JObj (PyDict.set "status" (JStr "completed")
                                            (sample_fields "submitted")))]> (disk w)))
          (calls w ++ [BatchesRetrieve (JStr "batch-1"); FilesContent "file-9"]) in
  Fallible.check_batch_status ft c "out/state" "out" w = (Ok "error", w') /\
  disk w' !! "out/A_metadata.json" = Some (JsonFile (JObj [("1", JObj [("x", JNum 1)])])) /\
  disk w' !! "out/B_metadata.json" = None /\
  recorded "out/state" "status" w' = Some (JStr "completed").
Proof.
  intros ft lines c w w'.
  split; [|by vm_compute].
  refine (refused_artifact_leaves_earlier_ones ft c "out/state" "out" w
            (sample_fields "submitted") (JStr "batch-1")
            (Batch "completed" (Some "file-9")) "file-9" lines
            [("A.pdf", [("1", JObj [("x", JNum 1)])])]
            "B.pdf" [("1", JObj [("x", JNum 1)])] [] FileNotFoundError
            _ _ _ _ _ _ _ _ _ _ _ _ _ _); try reflexivity; try discriminate.
  intros pdf' data' [= -> ->]%list_elem_of_singleton. by split.
Defined.

(** X26: an artifact that cannot be written out stays behind truncated.  The
    job is completed and its lines decode into the groups
    [before ++ (pdf, data) :: after]; the artifacts of [before] are written,
    the artifact of [pdf] is opened, and [json.dump] raises on it.  Then
    [check_batch_status] returns ["error"], the record is kept, and the
    artifact of [pdf] is on the disk with content that is not JSON: the
    file exists, which is all the driver's filter (line 204) asks of it. *)
Theorem failed_dump_leaves_truncated_artifact
    ft c sd od w fields bid b oid lines before pdf data after e :
  disk w !! batch_info_path sd = Some (JsonFile (JObj fields)) ->
  PyDict.get "batch_id" fields = Some bid ->
  Py.truthy bid = true ->
  batches_retrieve c bid = Ok b ->
  status b = "completed" ->
  output_file_id b = Some oid ->
  oid <> "" ->
  files_content c oid = Ok lines ->
  foldM result_step lines [] = Ok (before ++ (pdf, data) :: after) ->
  ft Fallible.OpenRead (batch_info_path sd) = None ->
  ft Fallible.OpenWrite (batch_info_path sd) = None ->
  ft Fallible.Dump (batch_info_path sd) = None ->
  (forall pdf' data', (pdf', data') ∈ before ->
     ft Fallible.OpenWrite (output_file od pdf') = None /\
     ft Fallible.Dump (output_file od pdf') = None) ->
  ft Fallible.OpenWrite (output_file od pdf) = None ->
  ft Fallible.Dump (output_file od pdf) = Some e ->
  exists w',
    Fallible.check_batch_status ft c sd od w = (Ok "error", w') /\
    disk w' !! output_file od pdf = Some BrokenFile /\
    recorded sd "status" w' = Some (JStr "completed") /\
    disk w'
    = <[output_file od pdf := BrokenFile]>
        (store_results od before
           (<[batch_info_path sd :=
               JsonFile (JObj (PyDict.set "status" (JStr "completed") fields))]>
              (disk w))).
Proof.
  intros H1 H2 H3 H4 H5 H6 H7 H8 H9 Hr Ho Hd Hbefore Hopen Hbad.
  eexists. split; [|split_and!].
  - unfold Fallible.check_batch_status. cbv zeta.
    unfold Fallible.read, Fallible.write at 1. rewrite Hr, Ho, Hd.
    io_unfold.
    assert (has_output b = true) as Hout.
    { unfold has_output. rewrite H6. by destruct (String.eqb_spec oid ""). }
    repeat first [progress rewrite ?H1, ?H2, ?H3, ?H4, ?H5, ?H6, ?Hout, ?H8, ?H9
                 | progress simpl].
    rewrite (fallible_write_results_broken ft _ _ _ _ _ e _ Hbefore Hopen Hbad). simpl.
    rewrite <- app_assoc. reflexivity.
  - simpl. apply lookup_insert_eq.
  - unfold recorded. simpl.
    rewrite lookup_insert_ne by apply output_file_not_batch_info.
    rewrite store_results_batch_info, lookup_insert_eq.
    apply get_set_eq.
  - reflexivity.
Qed.

(** [json.dump] fails on the artifact of [B.pdf]: the artifact of [A.pdf] is
    written, that of [B.pdf] exists and is not JSON. *)
Lemma failed_dump_leaves_truncated_artifact_witness :
  let ft : Fallible.faults := fun op path =>
    match op with
    | Fallible.Dump =>
        if String.eqb path "out/B_metadata.json" then Some FileNotFoundError else None
    | _ => None
    end in
  let lines := [sample_line "A.pdf__page-1"; sample_line "B.pdf__page-1"] in
  let c := service "completed" (Some "file-9") lines in
  let w := sample_world "submitted" (JObj []) in
  exists w',
    Fallible.check_batch_status ft c "out/state" "out" w = (Ok "error", w') /\
    disk w' !! "out/B_metadata.json" = Some BrokenFile /\
    recorded "out/state" "status" w' = Some (JStr "completed") /\
    disk w'
    = <["out/B_metadata.json" := BrokenFile]>
        (store_results "out" [("A.pdf", [("1", JObj [("x", JNum 1)])])]
           (<["out/state/batch_info.json" :=
               JsonFile (JObj (PyDict.set "status" (JStr "completed")
                                          (sample_fields "submitted")))]>
              (disk w))).
Proof.
  intros ft lines c w.
  refine (failed_dump_leaves_truncated_artifact ft c "out/state" "out" w
            (sample_fields "submitted") (JStr "batch-1")
            (Batch "completed" (Some "file-9")) "file-9" lines
            [("A.pdf", [("1", JObj [("x", JNum 1)])])]
            "B.pdf" [("1", JObj [("x", JNum 1)])] [] FileNotFoundError
            _ _ _ _ _ _ _ _ _ _ _ _ _ _ _); try reflexivity; try discriminate.
  intros pdf' data' [= -> ->]%list_elem_of_singleton. by split.
Defined.

(** X27: a record that cannot be removed.  The job is completed, its lines
    decode and every artifact is written, but [os.remove] raises on the
    record: [check_batch_status] returns ["error"] with all the artifacts
    on the disk and the record still there. *)
Theorem unremovable_record_is_an_error
    ft c sd od w fields bid b oid lines groups e :
  disk w !! batch_info_path sd = Some (JsonFile (JObj fields)) ->
  PyDict.get "batch_id" fields = Some bid ->
  Py.truthy bid = true ->
  batches_retrieve c bid = Ok b ->
  status b = "completed" ->
  output_file_id b = Some oid ->
  oid <> "" ->
  files_content c oid = Ok lines ->
  foldM result_step lines [] = Ok groups ->
  ft Fallible.OpenRead (batch_info_path sd) = None ->
  ft Fallible.OpenWrite (batch_info_path sd) = None ->
  ft Fallible.Dump (batch_info_path sd) = None ->
  (forall pdf data, (pdf, data) ∈ groups ->
     ft Fallible.OpenWrite (output_file od pdf) = None /\
     ft Fallible.Dump (output_file od pdf) = None) ->
  ft Fallible.Remove (batch_info_path sd) = Some e ->
  Fallible.check_batch_status ft c sd od w
  = (Ok "error",
     World (store_results od groups
              (<[batch_info_path sd :=
                  JsonFile (JObj (PyDict.set "status" (JStr "completed") fields))]>
                 (disk w)))
           (calls w ++ [BatchesRetrieve bid; FilesContent oid])).
Proof.
  intros H1 H2 H3 H4 H5 H6 H7 H8 H9 Hr Ho Hd Hgroups Hbad.
  unfold Fallible.check_batch_status. cbv zeta.
  unfold Fallible.read, Fallible.write at 1, Fallible.remove. rewrite Hr, Ho, Hd, Hbad.
  io_unfold.
  assert (has_output b = true) as Hout.
  { unfold has_output. rewrite H6. by destruct (String.eqb_spec oid ""). }
  repeat first [progress rewrite ?H1, ?H2, ?H3, ?H4, ?H5, ?H6, ?Hout, ?H8, ?H9
               | progress simpl].
  rewrite (fallible_write_results_ok ft _ _ _ Hgroups). simpl.
  by rewrite <- app_assoc.
Qed.

(** Both documents are written, and the record cannot be removed. *)
Lemma unremovable_record_is_an_error_witness :
  let ft : Fallible.faults := fun op _ =>
    match op with
    | Fallible.Remove => Some FileNotFoundError
    | _ => None
    end in
  let lines := [sample_line "A.pdf__page-1"; sample_line "B.pdf__page-1"] in
  let groups := [("A.pdf", [("1", JObj [("x", JNum 1)])]);
                 ("B.pdf", [("1", JObj [("x", JNum 1)])])] in
  let c := service "completed" (Some "file-9") lines in
  let w := sample_world "submitted" (JObj []) in
  let w' :=
    World (store_results "out" groups
             (<[batch_info_path "out/state" :=
                 JsonFile (JObj (PyDict.set "status" (JStr "completed")
                                            (sample_fields "submitted")))]> (disk w)))
          (calls w ++ [BatchesRetrieve (JStr "batch-1"); FilesContent "file-9"]) in
  Fallible.check_batch_status ft c "out/state" "out" w = (Ok "error", w') /\
  disk w' !! "out/A_metadata.json" = Some (JsonFile (JObj [("1", JObj [("x", JNum 1)])])) /\
  disk w' !! "out/B_metadata.json" = Some (JsonFile (JObj [("1", JObj [("x", JNum 1)])])) /\
  recorded "out/state" "status" w' = Some (JStr "completed").
Proof.
  intros ft lines groups c w w'.
  split; [|by vm_compute].
  refine (unremovable_record_is_an_error ft c "out/state" "out" w
            (sample_fields "submitted") (JStr "batch-1")
            (Batch "completed" (Some "file-9")) "file-9" lines groups FileNotFoundError
            _ _ _ _ _ _ _ _ _ _ _ _ _ _); try reflexivity; try discriminate.
  intros pdf data _. by split.
Defined.

(** ** The reconciler: a download that cannot be filed *)

Lemma foldM_raises {A S} (step : S -> A -> res S) xs acc :
  Exists (fun x => forall acc, exists e, step acc x = Raise e) xs ->
  exists e, foldM step xs acc = Raise e.
Proof.
  intros H. revert acc. induction H as [x xs Hbad|x xs _ IH]; intros acc; simpl.
  - destruct (Hbad acc) as [e ->]. by exists e.
  - destruct (step acc x) as [acc'|e]; [apply IH|by exists e].
Qed.

(** Whether a line can be filed does not depend on the lines before it. *)
Lemma result_step_raises acc line :
  decodes line = false -> exists e, result_step acc line = Raise e.
Proof.
  unfold decodes, result_step, mbind, res_bind.
  destruct (Py.getitem line "custom_id") as [cid|e]; [|by eexists].
  destruct (Py.as_str cid) as [s|e]; [|by eexists].
  destruct (Correlation.decode s) as [[pdf page]|e]; [|by eexists].
  destruct (Py.get line "response" (JObj [])); [done|by eexists].
Qed.

Lemma grouping_raises lines acc :
  Exists (fun line => decodes line = false) lines ->
  exists e, foldM result_step lines acc = Raise e.
Proof.
  intros H. apply foldM_raises. eapply Exists_impl; [exact H|].
  intros line Hbad acc'. by apply result_step_raises.
Qed.

Lemma check_download_fails c sd od w fields bid b oid :
  disk w !! batch_info_path sd = Some (JsonFile (JObj fields)) ->
  PyDict.get "batch_id" fields = Some bid ->
  Py.truthy bid = true ->
  batches_retrieve c bid = Ok b ->
  status b = "completed" ->
  output_file_id b = Some oid ->
  oid <> "" ->
  download_fails c oid ->
  check_batch_status c sd od w
  = (Ok "error",
     World (<[batch_info_path sd :=
               JsonFile (JObj (PyDict.set "status" (JStr "completed") fields))]> (disk w))
           (calls w ++ [BatchesRetrieve bid; FilesContent oid])).
Proof.
  intros H1 H2 H3 H4 H5 H6 H7 H8. unfold check_batch_status. io_unfold.
  assert (has_output b = true) as Hout.
  { unfold has_output. rewrite H6. by destruct (String.eqb_spec oid ""). }
  unfold download_fails in H8.
  repeat first [progress rewrite ?H1, ?H2, ?H3, ?H4, ?H5, ?H6, ?Hout | progress simpl].
  destruct (files_content c oid) as [lines|e]; simpl.
  - destruct (grouping_raises lines [] H8) as [e ->]. simpl. by rewrite <- app_assoc.
  - by rewrite <- app_assoc.
Qed.

(** X4: one line that cannot be filed fails the whole job.  When the job is
    completed with an output file but the download raises, or some
    downloaded line is not an object with a string [custom_id] that splits
    into exactly two pieces at ["__"], the call returns ["error"]: the
    record is kept with its status set to ["completed"], the two requests
    have been sent, and no artifact is written, not even for the lines that
    do decode. *)
Theorem undecodable_line_fails_the_job c sd od w fields bid b oid :
  disk w !! batch_info_path sd = Some (JsonFile (JObj fields)) ->
  PyDict.get "batch_id" fields = Some bid ->
  Py.truthy bid = true ->
  batches_retrieve c bid = Ok b ->
  status b = "completed" ->
  output_file_id b = Some oid ->
  oid <> "" ->
  download_fails c oid ->
  check_batch_status c sd od w
  = (Ok "error",
     World (<[batch_info_path sd :=
               JsonFile (JObj (PyDict.set "status" (JStr "completed") fields))]> (disk w))
           (calls w ++ [BatchesRetrieve bid; FilesContent oid])).
Proof. apply check_download_fails. Qed.

Lemma undecodable_line_fails_the_job_witness :
  let c := service "completed" (Some "file-9")
             [sample_line "A.pdf__page-1"; sample_line "my__report.pdf__page-1"] in
  let w := sample_world "submitted" (JObj []) in
  download_fails c "file-9" /\
  check_batch_status c "out/state" "out" w
  = (Ok "error",
     World (<[batch_info_path "out/state" :=
               JsonFile (JObj (PyDict.set "status" (JStr "completed")
                                 (sample_fields "submitted")))]> (disk w))
           (calls w ++ [BatchesRetrieve (JStr "batch-1"); FilesContent "file-9"])).
Proof.
  intros c w.
  assert (download_fails c "file-9") as Hfails.
  { unfold download_fails. simpl. apply Exists_cons_tl, Exists_cons_hd. reflexivity. }
  split; [exact Hfails|].
  refine (undecodable_line_fails_the_job c "out/state" "out" w (sample_fields "submitted")
            (JStr "batch-1") (Batch "completed" (Some "file-9")) "file-9"
            _ _ _ _ _ _ _ Hfails); try reflexivity; discriminate.
Defined.

(** ** The decoder of correlation identifiers *)

Section Decoder.
Import PyStr.

Lemma startswith_cons a p b s :
  startswith (String a p) (String b s) = Ascii.eqb a b && startswith p s.
Proof. reflexivity. Qed.

Lemma startswith_sep s :
  startswith "__" s = true -> exists rest, s = String "_" (String "_" rest).
Proof.
  destruct s as [|a [|b rest]]; [done| |].
  - rewrite startswith_cons. cbn [startswith]. by rewrite andb_false_r.
  - rewrite !startswith_cons.
    destruct (Ascii.eqb_spec "_" a) as [<-|]; [|done].
    destruct (Ascii.eqb_spec "_" b) as [<-|]; [|done].
    by exists rest.
Qed.

Lemma split_go_skip c s : split_go "__" (String c s) 1 = split_go "__" s 0.
Proof. reflexivity. Qed.

Lemma split_go_unfold c s :
  split_go "__" (String c s) 0
  = if startswith "__" (String c s)
    then (EmptyString, let '(p, ps) := split_go "__" s 1 in p :: ps)
    else let '(p, ps) := split_go "__" s 0 in (String c p, ps).
Proof. reflexivity. Qed.

Lemma join_cons_char c p ps : join "__" (String c p :: ps) = String c (join "__" (p :: ps)).
Proof. by destruct ps. Qed.

Lemma join_cons_empty p ps : join "__" ("" :: p :: ps) = "__" +:+ join "__" (p :: ps).
Proof. reflexivity. Qed.

(** An empty first piece followed by another piece: the string starts with
    the separator. *)
Lemma split_go_empty_head s q qs :
  split_go "__" s 0 = ("", q :: qs) -> startswith "__" s = true.
Proof.
  destruct s as [|c s]; [done|]. rewrite split_go_unfold.
  destruct (startswith "__" (String c s)); [done|].
  by destruct (split_go "__" s 0).
Qed.

(** The pieces of a split, put together again with the separator, give the
    string back; no piece contains the separator, and a piece that is
    followed by another one does not end with ["_"]. *)
Lemma split_go_pieces n s p ps :
  String.length s <= n ->
  split_go "__" s 0 = (p, ps) ->
  s = join "__" (p :: ps) /\
  Forall (fun x => contains "__" x = false) (p :: ps) /\
  (ps <> [] -> endswith "_" p = false).
Proof.
  revert s p ps. induction n as [|n IH]; intros s p ps Hlen.
  - destruct s; [|simpl in Hlen; lia]. intros [= <- <-].
    split_and!; [done|by repeat constructor|done].
  - destruct s as [|c s];
      [intros [= <- <-]; split_and!; [done|by repeat constructor|done]|].
    rewrite split_go_unfold.
    destruct (startswith "__" (String c s)) eqn:Hp.
    + apply startswith_sep in Hp as [rest Hrest]. injection Hrest as -> ->.
      rewrite split_go_skip.
      destruct (split_go "__" rest 0) as [p' ps'] eqn:Hsplit.
      intros [= <- <-].
      destruct (IH rest p' ps') as (Hjoin & Hall & _); [simpl in Hlen; lia|done|].
      split_and!; [|by constructor|done].
      by rewrite join_cons_empty, <- Hjoin.
    + destruct (split_go "__" s 0) as [p' ps'] eqn:Hsplit.
      intros [= <- <-].
      destruct (IH s p' ps') as (Hjoin & Hall & Hend); [simpl in Hlen; lia|done|].
      split_and!; [by rewrite join_cons_char, <- Hjoin| |].
      * apply Forall_cons in Hall as [Hp' Hall]. constructor; [|done].
        change (contains "__" (String c p'))
          with (startswith "__" (String c p') || contains "__" p').
        rewrite Hp', orb_false_r.
        destruct p' as [|c' p']; [cbn [startswith]; by rewrite andb_false_r|].
        rewrite Hjoin, join_cons_char in Hp. exact Hp.
      * intros Hne. rewrite endswith_cons, (Hend Hne), orb_false_r.
        cbn [String.eqb].
        destruct p' as [|c' p']; [|by destruct (Ascii.eqb c "_")].
        destruct ps' as [|q qs]; [done|].
        apply split_go_empty_head, startswith_sep in Hsplit as [rest ->].
        rewrite startswith_cons in Hp.
        destruct (Ascii.eqb_spec c "_") as [->|]; done.
Qed.

(** X5: what the decoder accepts.  The identifier [cid] decodes to the
    document [pdf] and the page [page] exactly when [cid] is [pdf], the
    separator ["__"] and a page part, where [pdf] neither contains ["__"]
    nor ends with ["_"], the page part does not contain ["__"], and [page]
    is the page part with every ["page-"] removed.  In every other case the
    decoder raises. *)
Theorem decode_characterised cid pdf page :
  Correlation.decode cid = Ok (pdf, page)
  <-> exists page_part,
        cid = pdf +:+ "__" +:+ page_part /\
        contains "__" pdf = false /\
        endswith "_" pdf = false /\
        contains "__" page_part = false /\
        page = replace "page-" "" page_part.
Proof.
  unfold Correlation.decode, split. split.
  - destruct (split_go "__" cid 0) as [p ps] eqn:Hsplit.
    destruct ps as [|page_part [|? ?]]; try done.
    intros [= <- <-]. exists page_part.
    destruct (split_go_pieces _ cid p [page_part] (le_n _) Hsplit)
      as (Hjoin & Hall & Hend).
    apply Forall_cons in Hall as [Hp Hall]. apply Forall_cons in Hall as [Hq _].
    split_and!; [done|done|by apply Hend|done|done].
  - intros (page_part & -> & Hp & He & Hq & ->).
    rewrite split_go_app by done. by rewrite split_go_absent.
Qed.

Lemma contains_app_r sub a b : contains sub b = true -> contains sub (a +:+ b) = true.
Proof.
  intros H. induction a as [|c a IH]; [done|].
  change (String c a +:+ b) with (String c (a +:+ b)).
  change (contains sub (String c (a +:+ b)))
    with (startswith sub (String c (a +:+ b)) || contains sub (a +:+ b)).
  rewrite IH. apply orb_true_r.
Qed.

(** A string with a separator splits into two pieces at least. *)
Lemma split_go_two t :
  contains "__" t = true -> exists p q qs, split_go "__" t 0 = (p, q :: qs).
Proof.
  induction t as [|c t IH]; [done|].
  intros H. rewrite split_go_unfold.
  destruct (startswith "__" (String c t)) eqn:Hp.
  - destruct (split_go "__" t 1) as [p ps]. by exists "", p, ps.
  - change (contains "__" (String c t))
      with (startswith "__" (String c t) || contains "__" t) in H.
    rewrite Hp in H. destruct (IH H) as (p & q & qs & ->). by exists (String c p), q, qs.
Qed.

(** A separator in each of two parts gives three pieces at least. *)
Lemma split_go_three a b :
  contains "__" a = true -> contains "__" b = true ->
  exists p q r rs, split_go "__" (a +:+ b) 0 = (p, q :: r :: rs).
Proof.
  intros Ha Hb. induction a as [|c a IH]; [done|].
  change (String c a +:+ b) with (String c (a +:+ b)).
  rewrite split_go_unfold.
  change (contains "__" (String c a))
    with (startswith "__" (String c a) || contains "__" a) in Ha.
  destruct (startswith "__" (String c a)) eqn:Hp.
  - apply startswith_sep in Hp as [rest Hrest]. injection Hrest as -> ->.
    change (startswith "__" (String "_" (String "_" rest +:+ b))) with true. cbv iota.
    change (String "_" rest +:+ b) with (String "_" (rest +:+ b)).
    rewrite split_go_skip.
    destruct (split_go_two (rest +:+ b)) as (p & q & qs & ->); [by apply contains_app_r|].
    by exists "", p, q, qs.
  - simpl in Ha.
    assert (startswith "__" (String c (a +:+ b)) = false) as ->.
    { destruct a as [|c' a]; [done|]. exact Hp. }
    destruct (IH Ha) as (p & q & r & rs & ->). by exists (String c p), q, r, rs.
Qed.

Lemma append_assoc a b c : (a +:+ b) +:+ c = a +:+ b +:+ c.
Proof.
  induction a as [|x a IH]; [done|].
  change (String x a +:+ b) with (String x (a +:+ b)).
  change (String x (a +:+ b) +:+ c) with (String x ((a +:+ b) +:+ c)).
  by rewrite IH.
Qed.

(** X6: a separator inside a name is not misread, it is refused.  When the
    document identifier or the page identifier contains ["__"], the
    correlation identifier built from them splits into three pieces or
    more, and the decoder raises [ValueError]: such a page can be submitted
    but its result can never be filed. *)
Theorem decode_rejects_separator_in_names document page :
  contains "__" document = true \/ contains "__" page = true ->
  Correlation.decode (Correlation.custom_id document page) = Raise ValueError.
Proof.
  intros H. unfold Correlation.decode, Correlation.custom_id, split.
  assert (exists p q r rs,
            split_go "__" (document +:+ "__page-" +:+ page) 0 = (p, q :: r :: rs))
    as (p & q & r & rs & ->); [|done].
  destruct H as [H|H].
  - by apply split_go_three.
  - rewrite <- append_assoc. apply split_go_three; [|done]. by apply contains_app_r.
Qed.

Lemma decode_rejects_separator_in_names_witness :
  Correlation.decode (Correlation.custom_id "my__report.pdf" "1") = Raise ValueError /\
  Correlation.decode (Correlation.custom_id "A.pdf" "1__2") = Raise ValueError.
Proof.
  split.
  - exact (decode_rejects_separator_in_names "my__report.pdf" "1" (or_introl eq_refl)).
  - exact (decode_rejects_separator_in_names "A.pdf" "1__2" (or_intror eq_refl)).
Defined.

End Decoder.

(** ** The compiler: the metadata skeleton, and malformed elements *)

Section CompilerExact.
Variable rt : runtime.

Lemma page_loop_meta pdf sp model (contexts : list (string * string))
    batch_lines pages_meta :
  NoDup contexts.*1 ->
  (forall page, page ∈ contexts.*1 -> page ∉ PyDict.keys pages_meta) ->
  (fold_left (page_step pdf sp model) contexts (batch_lines, pages_meta)).2
  = pages_meta ++ ((fun '(page, _) => (page, queued)) <$> contexts).
Proof.
  revert batch_lines pages_meta.
  induction contexts as [|[page context] contexts IH];
    intros batch_lines pages_meta Hnd Hfresh.
  - simpl. by rewrite app_nil_r.
  - apply NoDup_cons in Hnd as [Hpage Hnd]. simpl.
    rewrite set_fresh by (apply Hfresh; set_solver).
    rewrite IH; [by rewrite <- app_assoc|done|].
    intros p Hp. unfold PyDict.keys. rewrite fmap_app. simpl.
    intros [Hin|Hin]%elem_of_app.
    + apply (Hfresh p); [set_solver|done].
    + apply list_elem_of_singleton in Hin as ->. done.
Qed.

Lemma pdf_step_exact sp model batch_lines batch_metadata pdf pages :
  pages_ok pages ->
  pdf ∉ PyDict.keys batch_metadata ->
  pdf_step rt sp model (batch_lines, batch_metadata) (pdf, pages_json pages)
  = Ok (batch_lines ++ request_lines rt sp model [(pdf, pages)],
        batch_metadata ++ skeleton [(pdf, pages)]).
Proof.
  intros Hok Hfresh. unfold pdf_step. rewrite prepare_context_ok by done.
  unfold mbind at 1, res_bind.
  set (contexts := (fun '(page, items) => (page, page_context rt page items)) <$> pages).
  pose proof (page_loop_lines pdf sp model contexts batch_lines []) as Hlines.
  pose proof (page_loop_meta pdf sp model contexts batch_lines []) as Hmeta.
  destruct (fold_left _ _ _) as [lines pages_meta]. simpl in Hlines, Hmeta.
  subst lines. rewrite Hmeta.
  - rewrite set_fresh by done. f_equal. f_equal.
    + unfold request_lines. simpl. rewrite app_nil_r. unfold contexts.
      rewrite <- list_fmap_compose. f_equal. apply list_fmap_ext. by intros ? [??].
    + unfold skeleton. simpl. unfold contexts. rewrite <- list_fmap_compose.
      assert (forall f g : string * list json -> string * json,
                f <$> pages = g <$> pages ->
                [(pdf, JObj [("pages", JObj (f <$> pages))])]
                = [(pdf, JObj [("pages", JObj (g <$> pages))])]) as Hcong
        by (by intros f g ->).
      f_equal. apply Hcong. apply list_fmap_ext. by intros ? [??].
  - destruct Hok as [Hnd _].
    assert (contexts.*1 = pages.*1) as ->; [|done].
    unfold contexts. rewrite <- list_fmap_compose. apply list_fmap_ext. by intros ? [??].
  - intros ??. set_solver.
Qed.

Lemma document_loop_exact sp model docs batch_lines batch_metadata :
  documents_ok docs ->
  (forall pdf, pdf ∈ docs.*1 -> pdf ∉ PyDict.keys batch_metadata) ->
  foldM (pdf_step rt sp model)
        ((fun '(pdf, pages) => (pdf, pages_json pages)) <$> docs)
        (batch_lines, batch_metadata)
  = Ok (batch_lines ++ request_lines rt sp model docs, batch_metadata ++ skeleton docs).
Proof.
  intros [Hnd Hok]. revert batch_lines batch_metadata.
  induction docs as [|[pdf pages] docs IH]; intros batch_lines batch_metadata Hfresh.
  - simpl. by rewrite !app_nil_r.
  - apply NoDup_cons in Hnd as [Hpdf Hnd]. apply Forall_cons in Hok as [Hpages Hok].
    cbn [fmap list_fmap foldM].
    rewrite pdf_step_exact by (done || apply Hfresh; set_solver).
    unfold mbind at 1, res_bind.
    rewrite IH; [|done|done|].
    + f_equal. f_equal.
      * rewrite <- app_assoc. f_equal. unfold request_lines. simpl. by rewrite app_nil_r.
      * by rewrite <- app_assoc.
    + intros p Hp. unfold PyDict.keys. rewrite fmap_app. simpl.
      intros [Hin|Hin]%elem_of_app.
      * apply (Hfresh p); [set_solver|done].
      * apply list_elem_of_singleton in Hin as ->. done.
Qed.

Lemma batch_requests_exact sp model docs :
  documents_ok docs ->
  batch_requests rt (documents_json docs) sp model
  = Ok (request_lines rt sp model docs, skeleton docs).
Proof.
  intros Hok. unfold batch_requests, documents_json, mbind, res_bind. simpl.
  rewrite document_loop_exact; [done|done|]. intros ??. set_solver.
Qed.

Lemma prepare_batch_file_exact sp model docs w :
  documents_ok docs ->
  prepare_batch_file rt (documents_json docs) sp model w
  = (Ok (staging_file, JObj (skeleton docs)),
     World (<[staging_file := JsonlFile (request_lines rt sp model docs)]> (disk w))
           (calls w)).
Proof.
  intros Hok. unfold prepare_batch_file. io_unfold.
  by rewrite batch_requests_exact.
Qed.

(** X7: the two results of the compiler.  For documents whose pages are
    lists of well-formed elements, [prepare_batch_file] returns the name of
    the staging file and the metadata skeleton: every document of the input,
    in order, with every one of its pages, in order, each marked
    [{"status": "queued"}], and nothing else.  The staging file holds the
    request lines and no other file is touched. *)
Theorem compiler_returns_the_skeleton sp model docs w :
  documents_ok docs ->
  prepare_batch_file rt (documents_json docs) sp model w
  = (Ok ("batch_requests.jsonl", JObj (skeleton docs)),
     World (<["batch_requests.jsonl" := JsonlFile (request_lines rt sp model docs)]>
              (disk w))
           (calls w)).
Proof. apply prepare_batch_file_exact. Qed.

Lemma strs_raises parts :
  Exists (fun v => forall s, v <> JStr s) parts -> exists e, Py.strs parts = Raise e.
Proof.
  induction 1 as [v parts Hbad|v parts _ [e IH]]; simpl.
  - destruct v; try by eexists. by destruct (Hbad s).
  - destruct v; try by eexists. rewrite IH. by exists e.
Qed.

(** An element that is not accepted either makes [.get] raise or puts a
    value that is not a string among the parts. *)
Lemma context_part_bad item :
  element_ok item = false ->
  (exists e, context_part rt item = Raise e) \/
  (exists v, context_part rt item = Ok v /\ forall s, v <> JStr s).
Proof.
  destruct item as [| | | | |d]; try (left; by eexists).
  unfold element_ok, context_part, mbind, res_bind. simpl.
  destruct (is_str _ "Table"); [done|].
  destruct (is_str _ "Image"); [done|]. simpl.
  destruct (PyDict.get "content" d) as [v|]; [|done].
  destruct v; try done; intros _; right; by eexists.
Qed.

Lemma traverse_bad items :
  Exists (fun item => element_ok item = false) items ->
  (exists e, traverse (context_part rt) items = Raise e) \/
  (exists parts, traverse (context_part rt) items = Ok parts /\
                 Exists (fun v => forall s, v <> JStr s) parts).
Proof.
  induction 1 as [item items Hbad|item items _ IH]; simpl; unfold mbind, res_bind.
  - destruct (context_part_bad item Hbad) as [[e ->]|(v & -> & Hv)]; [left; by eexists|].
    destruct (traverse (context_part rt) items) as [parts|e]; [|left; by eexists].
    right. eexists. split; [done|]. by left.
  - destruct (context_part rt item) as [v|e]; [|left; by eexists].
    destruct IH as [[e ->]|(parts & -> & Hparts)]; [left; by eexists|].
    right. eexists. split; [done|]. by right.
Qed.

Lemma context_step_bad contexts page items :
  Exists (fun item => element_ok item = false) items ->
  exists e, context_step rt contexts (page, JArr items) = Raise e.
Proof.
  intros H. unfold context_step, mbind, res_bind. simpl.
  destruct (traverse_bad items H) as [[e ->]|(parts & -> & Hparts)]; [by eexists|].
  unfold Py.join, mbind, res_bind. simpl.
  destruct (strs_raises parts Hparts) as [e ->]. by exists e.
Qed.

Lemma prepare_context_bad pages :
  Exists (fun '(_, items) => Exists (fun item => element_ok item = false) items) pages ->
  exists e, prepare_context_for_llm rt (pages_json pages) = Raise e.
Proof.
  intros H. unfold prepare_context_for_llm, pages_json, mbind, res_bind. simpl.
  apply foldM_raises. apply Exists_fmap.
  eapply Exists_impl; [exact H|]. intros [page items] Hbad contexts.
  by apply context_step_bad.
Qed.

Lemma batch_requests_bad docs sp model :
  has_malformed_element docs ->
  exists e, batch_requests rt (documents_json docs) sp model = Raise e.
Proof.
  intros H. unfold batch_requests, documents_json, mbind, res_bind. simpl.
  apply foldM_raises. apply Exists_fmap.
  eapply Exists_impl; [exact H|]. intros [pdf pages] Hbad [lines meta].
  unfold pdf_step.
  destruct (prepare_context_bad pages Hbad) as [e ->]. by exists e.
Qed.

Lemma prepare_batch_file_bad docs sp model w :
  has_malformed_element docs ->
  exists e, prepare_batch_file rt (documents_json docs) sp model w = (Raise e, w).
Proof.
  intros H. destruct (batch_requests_bad docs sp model H) as [e He].
  exists e. unfold prepare_batch_file. io_unfold. by rewrite He.
Qed.

(** X8: one malformed element fails the whole compilation.  When some
    element of some page of some document is not an object, or is a text
    element whose [content] is not a string, [prepare_batch_file] raises,
    whatever the other documents hold, and it raises before the staging
    file is opened: the world is left as it was. *)
Theorem malformed_element_fails_the_batch docs sp model w :
  has_malformed_element docs ->
  exists e, prepare_batch_file rt (documents_json docs) sp model w = (Raise e, w).
Proof. apply prepare_batch_file_bad. Qed.

End CompilerExact.

Lemma compiler_returns_the_skeleton_witness :
  let rt := sample_runtime (service "validating" None []) in
  documents_ok scenario_documents /\
  prepare_batch_file rt (documents_json scenario_documents) "Extract metadata."
                     "gpt-4o-mini" (World ∅ [])
  = (Ok ("batch_requests.jsonl",
         JObj [("A.pdf", JObj [("pages", JObj [("1", queued)])]);
               ("B.pdf", JObj [("pages", JObj [("1", queued); ("2", queued)])])]),
     World (<["batch_requests.jsonl" :=
               JsonlFile (request_lines rt "Extract metadata." "gpt-4o-mini"
                            scenario_documents)]> ∅) []).
Proof.
  intros rt. split; [exact scenario_documents_ok|].
  exact (compiler_returns_the_skeleton rt "Extract metadata." "gpt-4o-mini"
           scenario_documents (World ∅ []) scenario_documents_ok).
Defined.

(** The second document has a page given as bare text in a list. *)
Lemma malformed_element_fails_the_batch_witness :
  let rt := sample_runtime (service "validating" None []) in
  let docs := [("A.pdf", [("1", [text_element "text1"])]);
               ("B.pdf", [("1", [JStr "text2"])])] in
  has_malformed_element docs /\
  exists e,
    prepare_batch_file rt (documents_json docs) "Extract metadata." "gpt-4o-mini"
                       half_done_world
    = (Raise e, half_done_world).
Proof.
  intros rt docs.
  assert (has_malformed_element docs) as Hbad.
  { apply Exists_cons_tl, Exists_cons_hd, Exists_cons_hd, Exists_cons_hd. reflexivity. }
  split; [exact Hbad|].
  exact (malformed_element_fails_the_batch rt docs "Extract metadata." "gpt-4o-mini"
           half_done_world Hbad).
Defined.

(** ** The driver's filter, exactly *)

Section FilterExact.
Context {V : Type}.
Implicit Types (data : list (string * V)).

(** In a dictionary, deleting a key removes its one entry. *)
Lemma del_filter k data :
  PyDict.wf data ->
  PyDict.del k data = List.filter (fun entry => negb (String.eqb entry.1 k)) data.
Proof.
  unfold PyDict.wf, PyDict.keys.
  induction data as [|[k0 v0] data IH]; [done|].
  intros [Hk0 Hnd]%NoDup_cons. simpl.
  destruct (String.eqb_spec k0 k) as [->|Hne]; simpl.
  - symmetry. apply forallb_filter_id. apply forallb_forall.
    intros [k1 v1] Hin. simpl. destruct (String.eqb_spec k1 k) as [->|]; [|done].
    destruct Hk0. apply list_elem_of_fmap. exists (k, v1). split; [done|].
    by apply list_elem_of_In.
  - f_equal. by apply IH.
Qed.

Lemma wf_filter (P : string * V -> bool) data :
  PyDict.wf data -> PyDict.wf (List.filter P data).
Proof.
  unfold PyDict.wf, PyDict.keys.
  induction data as [|[k0 v0] data IH]; [done|].
  intros [Hk0 Hnd]%NoDup_cons. simpl.
  destruct (P (k0, v0)); [|by apply IH].
  simpl. apply NoDup_cons. split; [|by apply IH].
  intros ([k1 v1] & -> & Hin%list_elem_of_In)%list_elem_of_fmap.
  apply filter_In in Hin as [Hin%list_elem_of_In _].
  apply Hk0. apply list_elem_of_fmap. by exists (k1, v1).
Qed.

Lemma filter_filter (P Q : string * V -> bool) data :
  List.filter P (List.filter Q data) = List.filter (fun e => Q e && P e) data.
Proof.
  induction data as [|e data IH]; [done|]. simpl.
  destruct (Q e); simpl; [|done]. destruct (P e); by rewrite IH.
Qed.

Lemma remaining_nil od d data :
  (forall pdf, pdf ∈ PyDict.keys data -> is_Some (d !! output_file od pdf)) ->
  remaining od d data = [].
Proof.
  intros H. unfold remaining. induction data as [|[pdf v] data IH]; [done|].
  simpl. unfold has_artifact at 1. rewrite bool_decide_eq_true_2 by (apply H; set_solver).
  simpl. apply IH. intros p Hp. apply H. set_solver.
Qed.

Lemma remaining_fmap {B} (f : V -> B) od d data :
  remaining od d (prod_map id f <$> data) = prod_map id f <$> remaining od d data.
Proof.
  unfold remaining. induction data as [|[pdf x] data IH]; [done|].
  csimpl. destruct (has_artifact od d pdf); simpl; by rewrite IH.
Qed.

End FilterExact.

Section SkipExact.
Variables (od : string) (d : gmap string file).
Implicit Types (data : list (string * json)).

Lemma skip_loop_filter ks data :
  PyDict.wf data ->
  fold_left (skip_step od d) ks data
  = List.filter (fun entry => negb (str_in entry.1 ks && has_artifact od d entry.1)) data.
Proof.
  revert data. induction ks as [|k ks IH]; intros data Hwf.
  - simpl. symmetry. apply forallb_filter_id. by apply forallb_forall.
  - simpl. unfold skip_step at 2. fold (has_artifact od d k).
    destruct (has_artifact od d k) eqn:Hk.
    + rewrite del_filter by done. rewrite IH by by apply wf_filter.
      rewrite filter_filter. apply filter_ext. intros [k1 v1]. simpl.
      rewrite (String.eqb_sym k1 k).
      destruct (String.eqb_spec k k1) as [<-|]; simpl; [by rewrite Hk|done].
    + rewrite IH by done. apply filter_ext. intros [k1 v1]. simpl.
      destruct (String.eqb_spec k1 k) as [->|]; simpl; [|done].
      rewrite Hk. by rewrite andb_false_r.
Qed.

Lemma str_in_keys k (v : json) data : (k, v) ∈ data -> str_in k (PyDict.keys data) = true.
Proof.
  intros Hin. unfold str_in. apply existsb_exists. exists k. split; [|apply String.eqb_refl].
  apply list_elem_of_In. apply list_elem_of_fmap. by exists (k, v).
Qed.

End SkipExact.

Lemma skip_processed_exact od data w :
  PyDict.wf data ->
  skip_processed od data w = (Ok (remaining od (disk w) data), w).
Proof.
  intros Hwf. unfold skip_processed, remaining. f_equal. f_equal.
  rewrite skip_loop_filter by done.
  apply filter_ext_in. intros [k v] Hin%list_elem_of_In. simpl.
  by rewrite (str_in_keys k v).
Qed.

(** X9: the filter of the driver (lines 202-206) returns the candidates
    whose artifact does not exist, in the order of the input and each with
    the value it had, and nothing else; it does not touch the disk. *)
Theorem filter_keeps_the_unprocessed_documents od data w :
  PyDict.wf data ->
  skip_processed od data w = (Ok (remaining od (disk w) data), w).
Proof. apply skip_processed_exact. Qed.

Lemma filter_keeps_the_unprocessed_documents_witness :
  let data := [("A.pdf", JNum 1); ("B.pdf", JNum 2); ("C.pdf", JNum 3)] in
  let w := World {["out/B_metadata.json" := JsonFile (JObj [])]} [] in
  remaining "out" (disk w) data = [("A.pdf", JNum 1); ("C.pdf", JNum 3)] /\
  skip_processed "out" data w = (Ok (remaining "out" (disk w) data), w).
Proof.
  intros data w. split; [by vm_compute|].
  apply (filter_keeps_the_unprocessed_documents "out" data w).
  by apply (bool_decide_unpack _).
Defined.

(** ** The driver, run by run *)

Lemma staging_not_batch_info sd : staging_file <> batch_info_path sd.
Proof.
  intros Heq.
  assert (PyStr.endswith "batch_info.json" (batch_info_path sd) = true) as H.
  { apply endswith_join, endswith_refl. }
  rewrite <- Heq in H. discriminate H.
Qed.

Lemma documents_json_items docs :
  documents_json docs = JObj (prod_map id pages_json <$> docs).
Proof.
  unfold documents_json. f_equal. apply list_fmap_ext. by intros ? [??].
Qed.

Lemma documents_ok_remaining od d docs :
  documents_ok docs -> documents_ok (remaining od d docs).
Proof.
  intros [Hnd Hok]. split.
  - by apply (wf_filter _ docs).
  - unfold remaining. apply Forall_forall. intros e Hin%list_elem_of_In.
    apply filter_In in Hin as [Hin%list_elem_of_In _].
    rewrite Forall_forall in Hok. by apply Hok.
Qed.

Section DriverRuns.
Variables (rt : runtime) (analyzed_data_file api_key output_dir model : string).
Abbreviation state_dir := (PyPath.join output_dir "state").
Abbreviation c := (OpenAI rt api_key).
Abbreviation run := (process_all_pdfs rt analyzed_data_file api_key output_dir model).
Abbreviation fresh_job :=
  (submit_new_job rt c analyzed_data_file output_dir state_dir model).

(** Without a job record the driver goes straight to the submission. *)
Lemma driver_without_record w :
  disk w !! batch_info_path state_dir = None -> run w = fresh_job w.
Proof.
  intros H. unfold process_all_pdfs. unfold mbind at 1, io_bind at 1.
  unfold IO.exists_ at 1.
  rewrite H. rewrite bool_decide_eq_false_2; [done|]. by intros [??].
Qed.

(** With a job record, the status returned by the check decides. *)
Lemma driver_after_check w f s w1 :
  disk w !! batch_info_path state_dir = Some f ->
  check_batch_status c state_dir output_dir w = (Ok s, w1) ->
  run w
  = if str_in s ["completed"; "completed_and_processed"]
       || str_in s ["submitted"; "in_progress"]
    then (Ok tt, w1)
    else (IO.remove (batch_info_path state_dir);; fresh_job) w1.
Proof.
  intros H Hcheck. unfold process_all_pdfs. unfold mbind at 1, io_bind at 1.
  unfold IO.exists_ at 1. rewrite H, bool_decide_eq_true_2 by done.
  unfold mbind at 1, io_bind at 1. rewrite Hcheck.
  destruct (str_in s ["completed"; "completed_and_processed"]); [done|].
  by destruct (str_in s ["submitted"; "in_progress"]).
Qed.

Lemma fresh_job_nothing_left w f data :
  disk w !! analyzed_data_file = Some f ->
  json_load f = Ok (JObj data) ->
  PyDict.wf data ->
  remaining output_dir (disk w) data = [] ->
  fresh_job w = (Ok tt, w).
Proof.
  intros Hf Hload Hwf Hrem. unfold submit_new_job.
  unfold mbind at 1, io_bind at 1. unfold IO.read at 1. rewrite Hf.
  unfold mbind at 1, io_bind at 1. unfold IO.lift at 1. rewrite Hload.
  unfold mbind at 1, io_bind at 1. unfold IO.lift at 1. cbn [Py.items].
  unfold mbind at 1, io_bind at 1.
  rewrite skip_processed_exact by done. by rewrite Hrem.
Qed.

(** The run up to the compilation of the documents that are left. *)
Lemma fresh_job_filtered w f docs :
  disk w !! analyzed_data_file = Some f ->
  json_load f = Ok (documents_json docs) ->
  NoDup docs.*1 ->
  remaining output_dir (disk w) docs <> [] ->
  fresh_job w
  = (staged ← prepare_batch_file rt
                (documents_json (remaining output_dir (disk w) docs))
                (system_prompts rt) model;
     _ ← submit_batch_job rt c staged.1 state_dir (Data staged.2);
     still_there ← IO.exists_ staged.1;
     if (still_there : bool) then IO.remove staged.1 else mret tt) w.
Proof.
  intros Hf Hload Hnd Hrem. unfold submit_new_job.
  unfold mbind at 1, io_bind at 1. unfold IO.read at 1. rewrite Hf.
  unfold mbind at 1, io_bind at 1. unfold IO.lift at 1. rewrite Hload.
  unfold mbind at 1, io_bind at 1. unfold IO.lift at 1.
  rewrite documents_json_items. cbn [Py.items].
  unfold mbind at 1, io_bind at 1.
  rewrite skip_processed_exact.
  2:{ unfold PyDict.wf, PyDict.keys. rewrite <- list_fmap_compose.
      assert ((fst ∘ prod_map id pages_json <$> docs) = docs.*1) as ->; [|done].
      apply list_fmap_ext. by intros ? [??]. }
  rewrite remaining_fmap.
  assert (Py.truthy (JObj (prod_map id pages_json <$> remaining output_dir (disk w) docs))
          = true) as ->.
  { destruct (remaining output_dir (disk w) docs); done. }
  cbn [negb]. by rewrite <- documents_json_items.
Qed.

(** The three ways in which a submission of well-formed documents ends:
    the staging file is written, offered to the service and removed. *)
Lemma fresh_job_outcome w f docs :
  disk w !! analyzed_data_file = Some f ->
  json_load f = Ok (documents_json docs) ->
  documents_ok docs ->
  remaining output_dir (disk w) docs <> [] ->
  let rest := remaining output_dir (disk w) docs in
  let lines := JsonlFile (request_lines rt (system_prompts rt) model rest) in
  let staged := <[staging_file := lines]> (disk w) in
  fresh_job w
  = match files_create c lines with
    | Raise _ => (Ok tt, World (delete staging_file staged) (calls w ++ [FilesCreate lines]))
    | Ok fid =>
        match batches_create c fid with
        | Raise _ =>
            (Ok tt, World (delete staging_file staged)
                          (calls w ++ [FilesCreate lines; BatchesCreate fid]))
        | Ok bid =>
            (Ok tt,
             World (delete staging_file
                      (<[batch_info_path state_dir :=
                          JsonFile (JObj [("batch_id", JStr bid);
                                          ("input_file_id", JStr fid);
                                          ("created_at", JStr (now_isoformat rt));
                                          ("status", JStr "submitted");
                                          ("metadata", JObj (skeleton rest))])]> staged))
                   (calls w ++ [FilesCreate lines; BatchesCreate fid]))
        end
    end.
Proof.
  intros Hf Hload Hok Hrem rest lines staged.
  rewrite (fresh_job_filtered w f docs) by (done || apply Hok).
  fold rest. unfold mbind at 1, io_bind at 1.
  rewrite prepare_batch_file_exact by by apply documents_ok_remaining.
  fold lines. fold staged. cbn [fst snd].
  set (w1 := World staged (calls w)).
  assert (disk w1 !! staging_file = Some lines) as Hstaged by apply lookup_insert_eq.
  unfold mbind at 1, io_bind at 1.
  destruct (files_create c lines) as [fid|e] eqn:Hup.
  - destruct (batches_create c fid) as [bid|e] eqn:Hcr.
    + rewrite (submit_succeeds _ _ _ _ _ w1 lines fid bid) by done.
      unfold mbind at 1, io_bind at 1. unfold IO.exists_ at 1. cbn [disk].
      rewrite lookup_insert_ne by apply not_eq_sym, staging_not_batch_info.
      rewrite Hstaged, bool_decide_eq_true_2 by done.
      unfold IO.remove. cbn [disk calls].
      rewrite lookup_insert_ne by apply not_eq_sym, staging_not_batch_info.
      by rewrite Hstaged.
    + rewrite (submit_create_raises _ _ _ _ _ w1 lines fid e) by done.
      unfold mbind at 1, io_bind at 1. unfold IO.exists_ at 1. cbn [disk].
      rewrite Hstaged, bool_decide_eq_true_2 by done.
      unfold IO.remove. cbn [disk calls]. by rewrite Hstaged.
  - rewrite (submit_upload_raises _ _ _ _ _ w1 lines e) by done.
    unfold mbind at 1, io_bind at 1. unfold IO.exists_ at 1. cbn [disk].
    rewrite Hstaged, bool_decide_eq_true_2 by done.
    unfold IO.remove. cbn [disk calls]. by rewrite Hstaged.
Qed.

Lemma fresh_job_malformed w f docs :
  disk w !! analyzed_data_file = Some f ->
  json_load f = Ok (documents_json docs) ->
  NoDup docs.*1 ->
  has_malformed_element (remaining output_dir (disk w) docs) ->
  exists e, fresh_job w = (Raise e, w).
Proof.
  intros Hf Hload Hnd Hbad.
  rewrite (fresh_job_filtered w f docs); [|done|done|done|].
  - destruct (prepare_batch_file_bad rt _ (system_prompts rt) model w Hbad) as [e He].
    exists e. unfold mbind at 1, io_bind at 1. by rewrite He.
  - intros Hnil. rewrite Hnil in Hbad. by apply Exists_nil in Hbad.
Qed.

End DriverRuns.

(** X10: a run with nothing left to do changes nothing.  When there is no
    job record and every document of the analyzed data already has its
    artifact, the driver returns without a request to the service and
    without writing, removing or changing a file.  The pages of the
    documents are not looked at. *)
Theorem driver_skips_processed_documents rt file key od model w f data :
  disk w !! batch_info_path (PyPath.join od "state") = None ->
  disk w !! file = Some f ->
  json_load f = Ok (JObj data) ->
  PyDict.wf data ->
  (forall pdf, pdf ∈ PyDict.keys data -> is_Some (disk w !! output_file od pdf)) ->
  process_all_pdfs rt file key od model w = (Ok tt, w).
Proof.
  intros Hrec Hf Hload Hwf Hall.
  rewrite driver_without_record by done.
  eapply fresh_job_nothing_left; [done..|]. by apply remaining_nil.
Qed.

Lemma driver_skips_processed_documents_witness :
  let rt := sample_runtime (service "validating" None []) in
  let data := [("A.pdf", JStr "pages that are not looked at")] in
  let w := World (<["out/A_metadata.json" := JsonFile (JObj [])]>
                    (<["data.json" := JsonFile (JObj data)]> ∅)) [] in
  process_all_pdfs rt "data.json" "key" "out" "gpt-4o-mini" w = (Ok tt, w).
Proof.
  intros rt data w.
  refine (driver_skips_processed_documents rt "data.json" "key" "out" "gpt-4o-mini" w
            (JsonFile (JObj data)) data _ _ _ _ _); try reflexivity.
  - by apply (bool_decide_unpack _).
  - intros pdf Hin. apply list_elem_of_singleton in Hin as ->. by eexists.
Defined.

(** X11: a successful run submits exactly what is left.  Without a job
    record, with well-formed analyzed data of which some documents have no
    artifact, and with a service that accepts the upload and creates the
    job, the driver uploads the request lines of the documents without
    artifact, in the order of the input, creates one job, writes the job
    record with the two identifiers, the creation time, status
    ["submitted"] and the skeleton of those documents, and removes the
    staging file. *)
Theorem driver_submits_what_is_left rt file key od model w f docs fid bid :
  let sd := PyPath.join od "state" in
  let rest := remaining od (disk w) docs in
  let lines := JsonlFile (request_lines rt (system_prompts rt) model rest) in
  disk w !! batch_info_path sd = None ->
  disk w !! file = Some f ->
  json_load f = Ok (documents_json docs) ->
  documents_ok docs ->
  rest <> [] ->
  files_create (OpenAI rt key) lines = Ok fid ->
  batches_create (OpenAI rt key) fid = Ok bid ->
  process_all_pdfs rt file key od model w
  = (Ok tt,
     World (delete staging_file
              (<[batch_info_path sd :=
                  JsonFile (JObj [("batch_id", JStr bid);
                                  ("input_file_id", JStr fid);
                                  ("created_at", JStr (now_isoformat rt));
                                  ("status", JStr "submitted");
                                  ("metadata", JObj (skeleton rest))])]>
                 (<[staging_file := lines]> (disk w))))
           (calls w ++ [FilesCreate lines; BatchesCreate fid])).
Proof.
  intros sd rest lines Hrec Hf Hload Hok Hrem Hup Hcr.
  rewrite driver_without_record by done.
  rewrite (fresh_job_outcome _ _ _ _ _ w f docs) by done.
  fold rest. fold lines. by rewrite Hup, Hcr.
Qed.

Lemma driver_submits_what_is_left_witness :
  let rt := sample_runtime (service "validating" None []) in
  let w := half_done_world in
  let rest := remaining "out" (disk w) scenario_documents in
  let lines := JsonlFile (request_lines rt (system_prompts rt) "gpt-4o-mini" rest) in
  rest = [("B.pdf", [("1", [text_element "text2"]); ("2", [text_element "text3"])])] /\
  process_all_pdfs rt "data.json" "key" "out" "gpt-4o-mini" w
  = (Ok tt,
     World (delete staging_file
              (<[batch_info_path (PyPath.join "out" "state") :=
                  JsonFile (JObj [("batch_id", JStr "batch-2");
                                  ("input_file_id", JStr "file-1");
                                  ("created_at", JStr (now_isoformat rt));
                                  ("status", JStr "submitted");
                                  ("metadata", JObj (skeleton rest))])]>
                 (<[staging_file := lines]> (disk w))))
           (calls w ++ [FilesCreate lines; BatchesCreate "file-1"])).
Proof.
  intros rt w rest lines. split; [by vm_compute|].
  refine (driver_submits_what_is_left rt "data.json" "key" "out" "gpt-4o-mini" w
            (JsonFile (documents_json scenario_documents)) scenario_documents
            "file-1" "batch-2" _ _ _ scenario_documents_ok _ _ _); try reflexivity.
  by vm_compute.
Defined.

(** X12: the staging file never outlives a run.  Without a job record and
    with well-formed analyzed data of which some documents have no
    artifact, the driver returns normally whatever the service does.  The
    first request is the upload of the request lines of the documents that
    are left; after the run the staging file does not exist, even if a file
    of that name existed before; a job record exists exactly when the
    upload and the creation of the job both succeeded; and no other file
    has changed. *)
Theorem staging_file_never_survives rt file key od model w f docs :
  let sd := PyPath.join od "state" in
  let c := OpenAI rt key in
  let rest := remaining od (disk w) docs in
  let lines := JsonlFile (request_lines rt (system_prompts rt) model rest) in
  disk w !! batch_info_path sd = None ->
  disk w !! file = Some f ->
  json_load f = Ok (documents_json docs) ->
  documents_ok docs ->
  rest <> [] ->
  exists w' sent,
    process_all_pdfs rt file key od model w = (Ok tt, w') /\
    calls w' = calls w ++ FilesCreate lines :: sent /\
    disk w' !! staging_file = None /\
    (is_Some (disk w' !! batch_info_path sd) <->
     exists fid bid, files_create c lines = Ok fid /\ batches_create c fid = Ok bid) /\
    (forall path, path <> staging_file -> path <> batch_info_path sd ->
       disk w' !! path = disk w !! path).
Proof.
  intros sd c rest lines Hrec Hf Hload Hok Hrem.
  rewrite driver_without_record by done.
  rewrite (fresh_job_outcome _ _ _ _ _ w f docs) by done.
  fold rest. fold lines. fold c. fold sd.
  destruct (files_create c lines) as [fid|e] eqn:Hup.
  - destruct (batches_create c fid) as [bid|e'] eqn:Hcr.
    + eexists _, [BatchesCreate fid]. do 2 (split; [reflexivity|]).
      split; [apply lookup_delete_eq|]. split.
      * cbn [disk]. rewrite lookup_delete_ne by apply staging_not_batch_info.
        rewrite lookup_insert_eq. split; [intros _; by exists fid, bid|by eexists].
      * intros path H1 H2. cbn [disk].
        by rewrite lookup_delete_ne, !lookup_insert_ne.
    + eexists _, [BatchesCreate fid]. do 2 (split; [reflexivity|]).
      split; [apply lookup_delete_eq|]. split.
      * cbn [disk]. rewrite lookup_delete_ne by apply staging_not_batch_info.
        rewrite lookup_insert_ne by apply staging_not_batch_info. rewrite Hrec.
        split; [by intros [??]|]. intros (fid' & bid & [= <-] & Hc).
        by rewrite Hcr in Hc.
      * intros path H1 H2. cbn [disk].
        by rewrite lookup_delete_ne, !lookup_insert_ne.
  - eexists _, []. do 2 (split; [reflexivity|]).
    split; [apply lookup_delete_eq|]. split.
    + cbn [disk]. rewrite lookup_delete_ne by apply staging_not_batch_info.
      rewrite lookup_insert_ne by apply staging_not_batch_info. rewrite Hrec.
      split; [by intros [??]|]. by intros (fid' & bid & ? & ?).
    + intros path H1 H2. cbn [disk].
      by rewrite lookup_delete_ne, !lookup_insert_ne.
Qed.

(** The service refuses the upload. *)
Lemma staging_file_never_survives_witness :
  let unreachable := Client (fun _ => Raise ServiceError) (fun _ => Raise ServiceError)
                            (fun _ => Raise ServiceError) (fun _ => Raise ServiceError) in
  let rt := sample_runtime unreachable in
  let w := half_done_world in
  let lines := JsonlFile (request_lines rt (system_prompts rt) "gpt-4o-mini"
                            (remaining "out" (disk w) scenario_documents)) in
  exists w' sent,
    process_all_pdfs rt "data.json" "key" "out" "gpt-4o-mini" w = (Ok tt, w') /\
    calls w' = calls w ++ FilesCreate lines :: sent /\
    disk w' !! staging_file = None /\
    (is_Some (disk w' !! batch_info_path (PyPath.join "out" "state")) <->
     exists fid bid,
       files_create unreachable lines = Ok fid /\ batches_create unreachable fid = Ok bid) /\
    (forall path,
       path <> staging_file -> path <> batch_info_path (PyPath.join "out" "state") ->
       disk w' !! path = disk w !! path).
Proof.
  intros unreachable rt w lines.
  refine (staging_file_never_survives rt "data.json" "key" "out" "gpt-4o-mini" w
            (JsonFile (documents_json scenario_documents)) scenario_documents
            _ _ _ scenario_documents_ok _); try reflexivity.
  by vm_compute.
Defined.

(** X13: a malformed element among the documents that are left makes the
    driver raise.  Without a job record, when some document without
    artifact has an element that the context builder does not accept,
    [process_all_pdfs] raises; nothing has been sent and no file has been
    written.  (A malformed document that already has its artifact is
    filtered out first and does no harm.) *)
Theorem driver_raises_on_malformed_element rt file key od model w f docs :
  disk w !! batch_info_path (PyPath.join od "state") = None ->
  disk w !! file = Some f ->
  json_load f = Ok (documents_json docs) ->
  NoDup docs.*1 ->
  has_malformed_element (remaining od (disk w) docs) ->
  exists e, process_all_pdfs rt file key od model w = (Raise e, w).
Proof.
  intros Hrec Hf Hload Hnd Hbad.
  rewrite driver_without_record by done.
  by eapply fresh_job_malformed.
Qed.

Lemma driver_raises_on_malformed_element_witness :
  let rt := sample_runtime (service "validating" None []) in
  let docs := [("A.pdf", [("1", [JStr "skipped"])]); ("B.pdf", [("1", [JStr "text2"])])] in
  let w := World (<["out/A_metadata.json" := JsonFile (JObj [])]>
                    (<["data.json" := JsonFile (documents_json docs)]> ∅)) [] in
  exists e, process_all_pdfs rt "data.json" "key" "out" "gpt-4o-mini" w = (Raise e, w).
Proof.
  intros rt docs w.
  refine (driver_raises_on_malformed_element rt "data.json" "key" "out" "gpt-4o-mini" w
            (JsonFile (documents_json docs)) docs _ _ _ _ _); try reflexivity.
  - by apply (bool_decide_unpack _).
  - change (remaining "out" (disk w) docs) with [("B.pdf", [("1", [JStr "text2"])])].
    apply Exists_cons_hd, Exists_cons_hd, Exists_cons_hd. reflexivity.
Defined.

(** X14: an ["error"] from the status check costs the job its record.
    When a job record exists and [check_batch_status] answers ["error"]
    (the record is unusable, the status request or the download raised, or
    a downloaded line did not decode), the driver removes the record and
    goes on to load, filter, compile and submit as if there had been no
    job. *)
Theorem driver_discards_job_on_error rt file key od model w f w1 :
  let sd := PyPath.join od "state" in
  let c := OpenAI rt key in
  disk w !! batch_info_path sd = Some f ->
  check_batch_status c sd od w = (Ok "error", w1) ->
  process_all_pdfs rt file key od model w
  = submit_new_job rt c file od sd model
      (World (delete (batch_info_path sd) (disk w1)) (calls w1)).
Proof.
  intros sd c Hrec Hcheck. subst sd c.
  rewrite (driver_after_check _ _ _ _ _ w f "error" w1) by done.
  cbn [str_in existsb String.eqb Ascii.eqb Bool.eqb orb].
  destruct (check_frame _ _ _ _ _ _ Hcheck) as [_ Hkept]; [done|].
  rewrite Hrec in Hkept.
  destruct (proj2 Hkept) as [f1 Hf1]; [by eexists|].
  unfold mbind, io_bind, IO.remove. by rewrite Hf1.
Qed.

(** The job is completed, and one of its two lines does not decode. *)
Lemma driver_discards_job_on_error_witness :
  let c := service "completed" (Some "file-9")
             [sample_line "A.pdf__page-1"; sample_line "my__report.pdf__page-1"] in
  let rt := sample_runtime c in
  let w := sample_world "submitted" (documents_json scenario_documents) in
  let w1 := (check_batch_status c "out/state" "out" w).2 in
  check_batch_status c "out/state" "out" w = (Ok "error", w1) /\
  process_all_pdfs rt "data.json" "key" "out" "gpt-4o-mini" w
  = submit_new_job rt c "data.json" "out" (PyPath.join "out" "state") "gpt-4o-mini"
      (World (delete (batch_info_path (PyPath.join "out" "state")) (disk w1)) (calls w1)).
Proof.
  intros c rt w w1.
  assert (check_batch_status c "out/state" "out" w = (Ok "error", w1)) as Hcall
    by (vm_compute; reflexivity).
  split; [exact Hcall|].
  exact (driver_discards_job_on_error rt "data.json" "key" "out" "gpt-4o-mini" w
           (JsonFile (sample_record "submitted")) w1 eq_refl Hcall).
Defined.

(** X15: the run that reconciles submits nothing.  When a job record exists,
    the service reports the job completed with an output file and every
    downloaded line decodes, the driver writes the artifacts, removes the
    record and returns: the only requests are the status request and the
    download, and the analyzed data are not read, whether or not documents
    without artifact are left. *)
Theorem driver_stops_after_reconciliation
    rt file key od model w fields bid b oid batch_results pdf_results :
  let sd := PyPath.join od "state" in
  let c := OpenAI rt key in
  disk w !! batch_info_path sd = Some (JsonFile (JObj fields)) ->
  PyDict.get "batch_id" fields = Some bid ->
  Py.truthy bid = true ->
  batches_retrieve c bid = Ok b ->
  status b = "completed" ->
  output_file_id b = Some oid ->
  oid <> "" ->
  files_content c oid = Ok batch_results ->
  foldM result_step batch_results [] = Ok pdf_results ->
  process_all_pdfs rt file key od model w
  = (Ok tt,
     World (delete (batch_info_path sd)
              (store_results od pdf_results
                 (<[batch_info_path sd :=
                     JsonFile (JObj (PyDict.set "status" (JStr "completed") fields))]>
                    (disk w))))
           (calls w ++ [BatchesRetrieve bid; FilesContent oid])).
Proof.
  intros sd c H1 H2 H3 H4 H5 H6 H7 H8 H9.
  by rewrite (driver_after_check _ _ _ _ _ w _ "completed_and_processed" _ H1
                (check_completed c sd od w fields bid b oid batch_results pdf_results
                   H1 H2 H3 H4 H5 H6 H7 H8 H9)).
Qed.

(** The analyzed data are not there at all. *)
Lemma driver_stops_after_reconciliation_witness :
  let lines := [sample_line "A.pdf__page-1"] in
  let c := service "completed" (Some "file-9") lines in
  let rt := sample_runtime c in
  let w := sample_world "submitted" (JObj []) in
  let sd := PyPath.join "out" "state" in
  process_all_pdfs rt "missing.json" "key" "out" "gpt-4o-mini" w
  = (Ok tt,
     World (delete (batch_info_path sd)
              (store_results "out" [("A.pdf", [("1", JObj [("x", JNum 1)])])]
                 (<[batch_info_path sd :=
                     JsonFile (JObj (PyDict.set "status" (JStr "completed")
                                       (sample_fields "submitted")))]>
                    (disk w))))
           (calls w ++ [BatchesRetrieve (JStr "batch-1"); FilesContent "file-9"])).
Proof.
  intros lines c rt w sd.
  refine (driver_stops_after_reconciliation rt "missing.json" "key" "out" "gpt-4o-mini" w
            (sample_fields "submitted") (JStr "batch-1")
            (Batch "completed" (Some "file-9")) "file-9" lines
            [("A.pdf", [("1", JObj [("x", JNum 1)])])] _ _ _ _ _ _ _ _ _);
    try reflexivity; discriminate.
Defined.

(** X16: the statuses on which the driver waits.  When a job record exists
    and the service reports the job as ["submitted"], as ["in_progress"], or
    as ["completed"] without an output file, the driver refreshes the status
    in the record and returns: the only request is the status request, the
    record is kept, nothing is submitted and no other file changes. *)
Theorem driver_keeps_waiting rt file key od model w fields bid b :
  let sd := PyPath.join od "state" in
  let c := OpenAI rt key in
  disk w !! batch_info_path sd = Some (JsonFile (JObj fields)) ->
  PyDict.get "batch_id" fields = Some bid ->
  Py.truthy bid = true ->
  batches_retrieve c bid = Ok b ->
  status b = "submitted" \/ status b = "in_progress" \/
    (status b = "completed" /\ has_output b = false) ->
  process_all_pdfs rt file key od model w
  = (Ok tt,
     World (<[batch_info_path sd :=
               JsonFile (JObj (PyDict.set "status" (JStr (status b)) fields))]> (disk w))
           (calls w ++ [BatchesRetrieve bid])).
Proof.
  intros sd c H1 H2 H3 H4 Hs.
  assert (String.eqb (status b) "completed" && has_output b = false) as Hpending.
  { destruct Hs as [->|[->|[-> ->]]]; done. }
  rewrite (driver_after_check _ _ _ _ _ w _ _ _ H1
             (check_pending c sd od w fields bid b H1 H2 H3 H4 Hpending)).
  by destruct Hs as [->|[->|[-> _]]].
Qed.

(** A job reported as completed, but without an output file. *)
Lemma driver_keeps_waiting_witness :
  let c := service "completed" None [] in
  let rt := sample_runtime c in
  let w := sample_world "submitted" (documents_json scenario_documents) in
  let sd := PyPath.join "out" "state" in
  process_all_pdfs rt "data.json" "key" "out" "gpt-4o-mini" w
  = (Ok tt,
     World (<[batch_info_path sd :=
               JsonFile (JObj (PyDict.set "status" (JStr "completed")
                                 (sample_fields "submitted")))]> (disk w))
           (calls w ++ [BatchesRetrieve (JStr "batch-1")])).
Proof.
  intros c rt w sd.
  refine (driver_keeps_waiting rt "data.json" "key" "out" "gpt-4o-mini" w
            (sample_fields "submitted") (JStr "batch-1") (Batch "completed" None)
            _ _ _ _ _); try reflexivity.
  right. right. by split.
Defined.

(** ** From the submitter to the reconciler *)

Lemma submit_inv rt c path sd m w bid w1 :
  submit_batch_job rt c path sd (Data m) w = (Ok (Some bid), w1) ->
  exists f fid,
    files_create c f = Ok fid /\ batches_create c fid = Ok bid /\
    w1 = World (<[batch_info_path sd :=
               JsonFile (JObj [("batch_id", JStr bid);
                               ("input_file_id", JStr fid);
                               ("created_at", JStr (now_isoformat rt));
                               ("status", JStr "submitted");
                               ("metadata", m)])]> (disk w))
           (calls w ++ [FilesCreate f; BatchesCreate fid]).
Proof.
  unfold submit_batch_job. io_unfold.
  destruct (disk w !! path) as [f|]; simpl; [|by intros [=]].
  destruct (files_create c f) as [fid|] eqn:Hup; simpl; [|by intros [=]].
  destruct (batches_create c fid) as [bid'|] eqn:Hcr; simpl; [|by intros [=]].
  intros [= <- <-]. exists f, fid. by rewrite <- app_assoc.
Qed.

(** X17: the job that was submitted is the job that is polled.  After a
    call of [submit_batch_job] that returned the job identifier [bid], not
    empty, a call of [check_batch_status] on the same state directory asks
    the service for the status of [bid] and of nothing else; when the answer
    is not "completed with an output file", it returns the reported status
    and the record keeps the job identifier, the file identifier, the
    creation time and the metadata that the submitter wrote, only the
    status being replaced. *)
Theorem submitted_job_is_polled rt c c' path sd od m w bid w1 b :
  submit_batch_job rt c path sd (Data m) w = (Ok (Some bid), w1) ->
  bid <> "" ->
  batches_retrieve c' (JStr bid) = Ok b ->
  String.eqb (status b) "completed" && has_output b = false ->
  exists w2,
    check_batch_status c' sd od w1 = (Ok (status b), w2) /\
    calls w2 = calls w1 ++ [BatchesRetrieve (JStr bid)] /\
    recorded sd "batch_id" w2 = Some (JStr bid) /\
    recorded sd "status" w2 = Some (JStr (status b)) /\
    recorded sd "metadata" w2 = Some m /\
    recorded sd "input_file_id" w2 = recorded sd "input_file_id" w1 /\
    recorded sd "created_at" w2 = recorded sd "created_at" w1 /\
    (forall path', path' <> batch_info_path sd -> disk w2 !! path' = disk w !! path').
Proof.
  intros Hsub Hbid Hb Hpending.
  destruct (submit_inv _ _ _ _ _ _ _ _ Hsub) as (f & fid & Hup & Hcr & ->).
  eexists. split.
  - eapply check_pending; [apply lookup_insert_eq|reflexivity| |done|done].
    simpl. by destruct (String.eqb_spec bid "").
  - unfold recorded. cbn [disk calls]. rewrite !lookup_insert_eq.
    split_and!; try done.
    intros path' Hne. by rewrite !lookup_insert_ne.
Qed.

Lemma submitted_job_is_polled_witness :
  let c := service "validating" None [] in
  let c' := service "in_progress" None [] in
  let rt := sample_runtime c in
  let m := JObj (skeleton scenario_documents) in
  let w := World {["batch_requests.jsonl" := JsonlFile []]} [] in
  let w1 := (submit_batch_job rt c "batch_requests.jsonl" "out/state" (Data m) w).2 in
  submit_batch_job rt c "batch_requests.jsonl" "out/state" (Data m) w
  = (Ok (Some "batch-2"), w1) /\
  exists w2,
    check_batch_status c' "out/state" "out" w1 = (Ok "in_progress", w2) /\
    calls w2 = calls w1 ++ [BatchesRetrieve (JStr "batch-2")] /\
    recorded "out/state" "batch_id" w2 = Some (JStr "batch-2") /\
    recorded "out/state" "status" w2 = Some (JStr "in_progress") /\
    recorded "out/state" "metadata" w2 = Some m /\
    recorded "out/state" "input_file_id" w2 = recorded "out/state" "input_file_id" w1 /\
    recorded "out/state" "created_at" w2 = recorded "out/state" "created_at" w1 /\
    (forall path', path' <> batch_info_path "out/state" ->
       disk w2 !! path' = disk w !! path').
Proof.
  intros c c' rt m w w1.
  assert (submit_batch_job rt c "batch_requests.jsonl" "out/state" (Data m) w
          = (Ok (Some "batch-2"), w1)) as Hsub by (vm_compute; reflexivity).
  split; [exact Hsub|].
  exact (submitted_job_is_polled rt c c' "batch_requests.jsonl" "out/state" "out" m w
           "batch-2" w1 (Batch "in_progress" None) Hsub ltac:(discriminate)
           eq_refl eq_refl).
Defined.

(** ** From the compiler to the artifacts *)

Lemma decode_custom_id document page :
  name_ok document = true -> page_name_ok page = true ->
  Correlation.decode (Correlation.custom_id document page) = Ok (document, page).
Proof.
  unfold name_ok, page_name_ok.
  intros [Hd%negb_true_iff He%negb_true_iff]%andb_true_iff
         [Hp%negb_true_iff Hq%negb_true_iff]%andb_true_iff.
  unfold Correlation.decode, Correlation.custom_id, PyStr.split.
  change (document +:+ "__page-" +:+ page) with (document +:+ "__" +:+ "page-" +:+ page).
  rewrite split_go_app by done.
  rewrite split_go_absent by (by rewrite contains_sep_page_part).
  by rewrite replace_page_prefix.
Qed.

Lemma page_pairs_elem docs pdf page :
  (pdf, page) ∈ page_pairs docs <-> exists pages, (pdf, pages) ∈ docs /\ page ∈ pages.*1.
Proof.
  unfold page_pairs. rewrite list_elem_of_bind. split.
  - intros ([pdf' pages] & Hin & Hdoc).
    apply list_elem_of_fmap in Hin as (p & [= -> ->] & Hp). by exists pages.
  - intros (pages & Hdoc & Hp). exists (pdf, pages). split; [|done].
    apply list_elem_of_fmap. by exists page.
Qed.

Lemma names_ok_pair docs pdf page :
  names_ok docs = true -> (pdf, page) ∈ page_pairs docs ->
  name_ok pdf = true /\ page_name_ok page = true.
Proof.
  intros Hok (pages & Hdoc & Hp)%page_pairs_elem.
  unfold names_ok in Hok. rewrite forallb_forall in Hok.
  apply list_elem_of_In, Hok in Hdoc.
  apply andb_true_iff in Hdoc as [Hpdf Hpages].
  split; [done|]. rewrite forallb_forall in Hpages.
  apply list_elem_of_fmap in Hp as ([page' items] & -> & Hin).
  by apply list_elem_of_In, Hpages in Hin.
Qed.

(** A key of a dictionary has one value. *)
Lemma documents_lookup {V} (docs : list (string * V)) pdf (pages pages' : V) :
  NoDup docs.*1 -> (pdf, pages) ∈ docs -> (pdf, pages') ∈ docs -> pages = pages'.
Proof.
  intros Hnd H1 H2.
  induction docs as [|[k v] docs IH]; [by apply elem_of_nil in H1|].
  csimpl in Hnd. apply NoDup_cons in Hnd as [Hk Hnd].
  apply elem_of_cons in H1 as [[= -> ->]|H1]; apply elem_of_cons in H2 as [[= ->]|H2].
  - done.
  - destruct Hk. apply list_elem_of_fmap. by exists (k, pages').
  - subst. destruct Hk. apply list_elem_of_fmap. by exists (k, pages).
  - by apply IH.
Qed.

Section RoundTrip.
Variable answer : string -> string -> json.

Abbreviation tag := (fun pair : string * string => (pair, answer pair.1 pair.2)).
Abbreviation mine pdf :=
  (omap (fun pair : string * string =>
           if String.eqb pair.1 pdf then Some pair.2 else None)).

Lemma result_lines_for pairs :
  Forall (fun '(pdf, page) => name_ok pdf = true /\ page_name_ok page = true) pairs ->
  Forall2 (fun line '(doc, page, payload) => result_for doc page payload line)
          (result_line answer <$> pairs) (tag <$> pairs).
Proof.
  induction 1 as [|[pdf page] pairs [Hpdf Hpage] _ IH]; csimpl; constructor; [|done].
  eexists _, _. split_and!; [done|done|by apply decode_custom_id|done].
Qed.

Lemma pages_of_tagged pdf pairs :
  pages_of pdf (tag <$> pairs) = (fun page => (page, answer pdf page)) <$> mine pdf pairs.
Proof.
  unfold pages_of. induction pairs as [|[doc page] pairs IH]; [done|].
  csimpl. destruct (String.eqb_spec doc pdf) as [->|]; csimpl; by rewrite IH.
Qed.

Lemma elem_of_mine pdf page (pairs : list (string * string)) :
  page ∈ mine pdf pairs <-> (pdf, page) ∈ pairs.
Proof.
  rewrite list_elem_of_omap. split.
  - intros ([doc p] & Hin & Heq). simpl in Heq.
    destruct (String.eqb_spec doc pdf) as [->|]; [|done]. by injection Heq as ->.
  - intros Hin. exists (pdf, page). split; [done|]. simpl. by rewrite String.eqb_refl.
Qed.

Lemma mine_NoDup pdf (pairs : list (string * string)) :
  NoDup pairs -> NoDup (mine pdf pairs).
Proof.
  induction 1 as [|[d p] pairs Hout _ IH]; csimpl; [constructor|].
  destruct (String.eqb_spec d pdf) as [->|]; [|done].
  apply NoDup_cons. split; [|done]. by rewrite elem_of_mine.
Qed.

(** X18: what was compiled comes back page by page.  Take well-formed
    documents in which no document identifier contains ["__"] or ends with
    ["_"] and no page identifier contains ["__"] or ["page-"], and a
    completed job whose output answers every (document, page) pair once,
    in any order, each line carrying the correlation identifier that the
    compiler gives the pair.  Then for every document with at least one
    page whose artifact path is not shared with another document, the
    reconciler writes an artifact whose keys are exactly the pages of the
    document, each once, every page mapped to the response of its own line;
    and the job record is removed. *)
Theorem answered_pages_come_back c sd od w fields bid b oid docs pairs pdf pages :
  documents_ok docs ->
  names_ok docs = true ->
  disk w !! batch_info_path sd = Some (JsonFile (JObj fields)) ->
  PyDict.get "batch_id" fields = Some bid ->
  Py.truthy bid = true ->
  batches_retrieve c bid = Ok b ->
  status b = "completed" ->
  output_file_id b = Some oid ->
  oid <> "" ->
  pairs ≡ₚ page_pairs docs ->
  files_content c oid = Ok (result_line answer <$> pairs) ->
  (pdf, pages) ∈ docs ->
  pages <> [] ->
  (forall doc, doc ∈ docs.*1 -> doc <> pdf -> output_file od doc <> output_file od pdf) ->
  exists w' data,
    check_batch_status c sd od w = (Ok "completed_and_processed", w') /\
    disk w' !! output_file od pdf = Some (JsonFile (JObj data)) /\
    NoDup (PyDict.keys data) /\
    (forall page, page ∈ PyDict.keys data <-> page ∈ pages.*1) /\
    (forall page, page ∈ pages.*1 -> PyDict.get page data = Some (answer pdf page)) /\
    disk w' !! batch_info_path sd = None.
Proof.
  intros Hok Hnames Hrec Hbid Htruthy Hb Hstatus Hout Hoid Hperm Hlines Hdoc Hpages Hpaths.
  assert (forall page, (pdf, page) ∈ pairs <-> page ∈ pages.*1) as Hmine.
  { intros page. rewrite Hperm, page_pairs_elem. split.
    - intros (pages' & Hdoc' & Hp).
      by rewrite (documents_lookup docs pdf pages pages' (proj1 Hok) Hdoc Hdoc').
    - intros Hp. by exists pages. }
  assert (NoDup pairs) as Hnd.
  { rewrite Hperm. by apply page_pairs_NoDup. }
  destruct (reconcile_among_others c sd od w fields bid b oid
              (result_line answer <$> pairs) pdf (tag <$> pairs))
    as (w' & data & Hcall & Hfile & Hdata & Hkeys & Hget & Hgone & _); try done.
  - apply result_lines_for. apply Forall_forall. intros [d p] Hin.
    apply (names_ok_pair docs); [done|]. by rewrite <- Hperm.
  - destruct pages as [|[page items] pages]; [done|].
    assert ((pdf, page) ∈ pairs) as Hin by (apply Hmine; set_solver).
    rewrite <- !list_fmap_compose. apply list_elem_of_fmap. by exists (pdf, page).
  - intros doc Hin Hne. apply Hpaths; [|done].
    rewrite <- !list_fmap_compose in Hin.
    apply list_elem_of_fmap in Hin as ([d p] & -> & Hin). simpl.
    rewrite Hperm in Hin. by apply page_pairs_document in Hin.
  - exists w', data. rewrite pages_of_tagged in Hkeys, Hget.
    split_and!; try done.
    + intros page. rewrite Hkeys, <- list_fmap_compose. simpl.
      rewrite list_fmap_id. rewrite elem_of_mine. apply Hmine.
    + intros page Hp. apply Hmine, elem_of_mine in Hp.
      apply list_elem_of_split in Hp as (before & after & Heq).
      apply (Hget ((fun page => (page, answer pdf page)) <$> before) page
                  (answer pdf page) ((fun page => (page, answer pdf page)) <$> after)).
      * rewrite Heq, fmap_app. done.
      * rewrite <- list_fmap_compose. simpl. rewrite list_fmap_id.
        pose proof (mine_NoDup pdf pairs Hnd) as Hnd'.
        rewrite Heq in Hnd'. apply NoDup_app in Hnd' as (_ & _ & Hnd').
        by apply NoDup_cons in Hnd' as [? _].
Qed.

End RoundTrip.

(** The three pages of the scenario, answered in another order. *)
Lemma answered_pages_come_back_witness :
  let answer := fun pdf page => JStr ("metadata of " +:+ pdf +:+ ", page " +:+ page) in
  let pairs := [("B.pdf", "2"); ("A.pdf", "1"); ("B.pdf", "1")] in
  let c := service "completed" (Some "file-9") (result_line answer <$> pairs) in
  let w := sample_world "submitted" (JObj []) in
  exists w' data,
    check_batch_status c "out/state" "out" w = (Ok "completed_and_processed", w') /\
    disk w' !! output_file "out" "B.pdf" = Some (JsonFile (JObj data)) /\
    NoDup (PyDict.keys data) /\
    (forall page, page ∈ PyDict.keys data <-> page ∈ ["1"; "2"]) /\
    (forall page, page ∈ ["1"; "2"] -> PyDict.get page data = Some (answer "B.pdf" page)) /\
    disk w' !! batch_info_path "out/state" = None.
Proof.
  intros answer pairs c w.
  refine (answered_pages_come_back answer c "out/state" "out" w
            (sample_fields "submitted") (JStr "batch-1")
            (Batch "completed" (Some "file-9")) "file-9" scenario_documents pairs
            "B.pdf" [("1", [text_element "text2"]); ("2", [text_element "text3"])]
            scenario_documents_ok _ _ _ _ _ _ _ _ _ _ _ _ _);
    try reflexivity; try discriminate.
  - change (page_pairs scenario_documents)
      with [("A.pdf", "1"); ("B.pdf", "1"); ("B.pdf", "2")].
    unfold pairs. etrans; [apply perm_swap|]. apply perm_skip, perm_swap.
  - apply elem_of_cons. right. apply elem_of_cons. by left.
  - intros doc Hin Hne. apply elem_of_cons in Hin as [->|Hin]; [by vm_compute|].
    apply list_elem_of_singleton in Hin. by destruct Hne.
Defined.

(** ** From the reconciler back to the driver *)

Lemma store_results_mono od groups d q :
  is_Some (d !! q) -> is_Some (store_results od groups d !! q).
Proof.
  unfold store_results. revert d.
  induction groups as [|[pdf data] groups IH]; intros d H; [done|].
  simpl. apply IH. apply lookup_insert_is_Some.
  destruct (decide (output_file od pdf = q)); [by left|by right].
Qed.

(** Every group gets a file. *)
Lemma store_results_present od groups d pdf :
  pdf ∈ PyDict.keys groups -> is_Some (store_results od groups d !! output_file od pdf).
Proof.
  intros ([pdf' data] & -> & Hin)%list_elem_of_fmap.
  apply list_elem_of_split in Hin as (before & after & ->).
  unfold store_results. rewrite fold_left_app. simpl.
  apply store_results_mono. rewrite lookup_insert_eq. by eexists.
Qed.

Lemma remaining_drops {V} od d (docs : list (string * V)) pdf :
  has_artifact od d pdf = true -> PyDict.get pdf (remaining od d docs) = None.
Proof.
  intros H. unfold remaining. induction docs as [|[k v] docs IH]; [done|].
  simpl. destruct (has_artifact od d k) eqn:Hk; simpl; [done|].
  destruct (String.eqb_spec k pdf) as [->|]; [by rewrite H in Hk|done].
Qed.

(** X19: a document with one answered page is never submitted again.  After
    a reconciliation, every document that has at least one line in the
    download has its artifact, whether or not all of its pages were
    answered; the driver's filter therefore drops it from any later list of
    candidates, and the pages that were not answered are not asked for
    again. *)
Theorem reconciled_documents_are_not_resubmitted
    c sd od w fields bid b oid lines answers :
  disk w !! batch_info_path sd = Some (JsonFile (JObj fields)) ->
  PyDict.get "batch_id" fields = Some bid ->
  Py.truthy bid = true ->
  batches_retrieve c bid = Ok b ->
  status b = "completed" ->
  output_file_id b = Some oid ->
  oid <> "" ->
  files_content c oid = Ok lines ->
  Forall2 (fun line '(doc, page, payload) => result_for doc page payload line)
          lines answers ->
  exists w',
    check_batch_status c sd od w = (Ok "completed_and_processed", w') /\
    forall pdf, pdf ∈ answers.*1.*1 ->
      has_artifact od (disk w') pdf = true /\
      forall docs : list (string * json),
        PyDict.get pdf (remaining od (disk w') docs) = None.
Proof.
  intros Hrec Hbid Htruthy Hb Hstatus Hout Hoid Hlines Hanswers.
  eexists. split.
  - eapply check_completed; try done. by apply group_answers.
  - intros pdf Hin.
    assert (has_artifact od
              (delete (batch_info_path sd)
                 (store_results od (fold_left file_result answers [])
                    (<[batch_info_path sd :=
                        JsonFile (JObj (PyDict.set "status" (JStr "completed") fields))]>
                       (disk w)))) pdf = true) as Hart.
    { unfold has_artifact. apply bool_decide_eq_true_2.
      rewrite lookup_delete_ne by apply not_eq_sym, output_file_not_batch_info.
      apply store_results_present. apply groups_keys. by right. }
    split; [exact Hart|]. intros docs. by apply remaining_drops.
Qed.

(** Of the two pages of [B.pdf] only the first is answered. *)
Lemma reconciled_documents_are_not_resubmitted_witness :
  let c := service "completed" (Some "file-9") [sample_line "B.pdf__page-1"] in
  let w := sample_world "submitted" (documents_json scenario_documents) in
  exists w',
    check_batch_status c "out/state" "out" w = (Ok "completed_and_processed", w') /\
    forall pdf, pdf ∈ ["B.pdf"] ->
      has_artifact "out" (disk w') pdf = true /\
      forall docs : list (string * json),
        PyDict.get pdf (remaining "out" (disk w') docs) = None.
Proof.
  intros c w.
  refine (reconciled_documents_are_not_resubmitted c "out/state" "out" w
            (sample_fields "submitted") (JStr "batch-1")
            (Batch "completed" (Some "file-9")) "file-9" [sample_line "B.pdf__page-1"]
            [("B.pdf", "1", JObj [("x", JNum 1)])] _ _ _ _ _ _ _ _ _);
    try reflexivity; try discriminate.
  constructor; [|constructor]. eexists _, _. by split_and!.
Defined.

(** ** What a run of the driver sends *)

Section Calls.

Lemma submit_calls rt c path sd metadata w :
  exists r w' sent,
    submit_batch_job rt c path sd metadata w = (Ok r, w') /\
    calls w' = calls w ++ sent /\ one_submission sent.
Proof.
  unfold submit_batch_job. io_unfold.
  destruct (disk w !! path) as [f|]; simpl.
  2:{ exists None, w, []. rewrite app_nil_r. split_and!; [done|done|by left]. }
  destruct (files_create c f) as [fid|]; simpl.
  2:{ eexists None, _, [FilesCreate f]. split_and!; [done|done|right; left; by eexists]. }
  destruct (batches_create c fid) as [bid|]; simpl.
  2:{ eexists None, _, [FilesCreate f; BatchesCreate fid].
      split_and!; [done|by rewrite <- app_assoc|right; right; by eexists _, _]. }
  unfold IO.json_dump.
  destruct (job_record _ _ _ _) as [j|]; io_unfold; simpl.
  - eexists (Some bid), _, [FilesCreate f; BatchesCreate fid].
    split_and!; [done|by rewrite <- app_assoc|right; right; by eexists _, _].
  - eexists None, _, [FilesCreate f; BatchesCreate fid].
    split_and!; [done|by rewrite <- app_assoc|right; right; by eexists _, _].
Qed.

Lemma prepare_calls rt data sp model w :
  calls (prepare_batch_file rt data sp model w).2 = calls w.
Proof.
  unfold prepare_batch_file. io_unfold.
  by destruct (batch_requests rt data sp model) as [[??]|].
Qed.

Lemma fresh_job_calls rt c file od sd model w :
  exists sent,
    calls (submit_new_job rt c file od sd model w).2 = calls w ++ sent /\
    one_submission sent.
Proof.
  assert (exists sent, calls w = calls w ++ sent /\ one_submission sent) as Hnone.
  { exists []. rewrite app_nil_r. split; [done|by left]. }
  unfold submit_new_job.
  unfold mbind at 1, io_bind at 1. unfold IO.read at 1.
  destruct (disk w !! file) as [f|]; [|done].
  unfold mbind at 1, io_bind at 1. unfold IO.lift at 1.
  destruct (json_load f) as [analyzed_data|]; [|done].
  unfold mbind at 1, io_bind at 1. unfold IO.lift at 1.
  destruct (Py.items analyzed_data) as [documents|]; [|done].
  unfold mbind at 1, io_bind at 1. unfold skip_processed at 1.
  set (rest := fold_left _ _ _).
  destruct (negb (Py.truthy (JObj rest))); [done|].
  unfold mbind at 1, io_bind at 1.
  pose proof (prepare_calls rt (JObj rest) (system_prompts rt) model w) as Hprep.
  destruct (prepare_batch_file rt (JObj rest) (system_prompts rt) model w)
    as [[staged|e] w1]; simpl in Hprep; [|simpl; by rewrite Hprep].
  unfold mbind at 1, io_bind at 1.
  destruct (submit_calls rt c staged.1 sd (Data staged.2) w1)
    as (r & w2 & sent & -> & Hcalls & Hsent).
  exists sent. split; [|done].
  unfold mbind, io_bind, IO.exists_, IO.remove, mret, io_ret. simpl.
  destruct (bool_decide _); simpl.
  - destruct (disk w2 !! staged.1); simpl; by rewrite Hcalls, Hprep.
  - by rewrite Hcalls, Hprep.
Qed.

(** X20: one run, one job at most.  Whatever the disk holds and whatever
    the service does, the requests of one call of [process_all_pdfs] are
    status requests and downloads (those of the status check of an existing
    job), followed by nothing, by one upload, or by one upload and the
    creation of one job.  A run never creates two jobs, and never creates a
    job without having uploaded a request file just before. *)
Theorem driver_creates_at_most_one_job rt file key od model w :
  exists reads sent,
    calls (process_all_pdfs rt file key od model w).2 = calls w ++ reads ++ sent /\
    Forall (fun q => is_read q = true) reads /\
    one_submission sent.
Proof.
  unfold process_all_pdfs. unfold mbind at 1, io_bind at 1. unfold IO.exists_ at 1.
  destruct (bool_decide _).
  - unfold mbind at 1, io_bind at 1.
    destruct (check_total (OpenAI rt key) (PyPath.join od "state") od w)
      as (s & w1 & reads & -> & Hcalls & Hreads).
    exists reads.
    assert (exists sent, calls w1 = calls w ++ reads ++ sent /\
                         Forall (fun q => is_read q = true) reads /\
                         one_submission sent) as Hnone.
    { exists []. rewrite app_nil_r. split_and!; [done|done|by left]. }
    destruct (str_in s ["completed"; "completed_and_processed"]); [exact Hnone|].
    destruct (str_in s ["submitted"; "in_progress"]); [exact Hnone|].
    unfold mbind at 1, io_bind at 1. unfold IO.remove at 1.
    destruct (disk w1 !! _); [|exact Hnone].
    destruct (fresh_job_calls rt (OpenAI rt key) file od (PyPath.join od "state") model
                (World (delete (batch_info_path (PyPath.join od "state")) (disk w1))
                       (calls w1)))
      as (sent & Hsent & Hone).
    exists sent. rewrite Hsent. cbn [calls]. rewrite Hcalls.
    split_and!; [by rewrite <- app_assoc|done|done].
  - destruct (fresh_job_calls rt (OpenAI rt key) file od (PyPath.join od "state") model w)
      as (sent & Hsent & Hone).
    exists [], sent. split_and!; [done|constructor|done].
Qed.

End Calls.

(** ** The pipeline runner *)

(** The path strings that CPython 3.11 gives for the same calls. *)
Example path_samples :
  (fun p => Runner.path_str p ["ocr_data"]) <$>
    ["results"; ""; "."; "a//b"; "a/"; "/"; "//"; "///"; "//a"; "/a/./b/"; "./x"; "a/.."]
  = ["results/ocr_data"; "ocr_data"; "ocr_data"; "a/b/ocr_data"; "a/ocr_data"; "/ocr_data";
     "//ocr_data"; "/ocr_data"; "//a/ocr_data"; "/a/b/ocr_data"; "x/ocr_data";
     "a/../ocr_data"] /\
  (fun p => Runner.path_str p []) <$> [""; "."; "/"; "//"; "///"; "a/"; "//a"]
  = ["."; "."; "/"; "//"; "/"; "a"; "//a"].
Proof. split; reflexivity. Qed.

Section RunnerFacts.
Import Runner.
Implicit Types (m : machine) (a : args) (s : host).

(** The five blocks of [main] run the commands from [start_step] on, one
    after the other, until one does not succeed. *)
Lemma main_run_steps m a s : main m a s = run_steps m (todo a) (setup a s).
Proof.
  unfold main, todo, commands.
  change (fold_left _ _ _) with (setup a s).
  generalize (setup a s). intros s0.
  assert (start_step a <= 1 \/ start_step a = 2 \/ start_step a = 3 \/ start_step a = 4
          \/ start_step a = 5 \/ 6 <= start_step a)%Z as Hcase by lia.
  destruct Hcase as [H|[H|[H|[H|[H|H]]]]].
  - replace (Z.to_nat (start_step a - 1)) with 0 by lia.
    unfold step. repeat (rewrite (proj2 (Z.leb_le _ _)) by lia). reflexivity.
  - rewrite H. reflexivity.
  - rewrite H. reflexivity.
  - rewrite H. reflexivity.
  - rewrite H. reflexivity.
  - rewrite drop_ge by (simpl; lia).
    unfold step. repeat (rewrite (proj2 (Z.leb_gt _ _)) by lia). reflexivity.
Qed.

Lemma setup_ran a s : ran (setup a s) = ran s.
Proof. reflexivity. Qed.

Lemma run_steps_ok m env dirs cs r0 :
  (forall i command, cs !! i = Some command ->
     m (Host env dirs (r0 ++ take i cs)) command = Ok 0%Z) ->
  run_steps m cs (Host env dirs r0) = (Ok 0%Z, Host env dirs (r0 ++ cs)).
Proof.
  revert r0. induction cs as [|command cs IH]; intros r0 Hall.
  - simpl. by rewrite app_nil_r.
  - simpl. unfold run_command. cbn [environ made ran].
    pose proof (Hall 0 command eq_refl) as H0. simpl in H0. rewrite app_nil_r in H0.
    rewrite H0. cbn [Z.eqb].
    rewrite IH; [by rewrite <- app_assoc|].
    intros i c Hi. rewrite <- app_assoc. apply (Hall (S i) c Hi).
Qed.

Lemma run_steps_fail m env dirs cs r0 n command :
  cs !! n = Some command ->
  (forall i c, i < n -> cs !! i = Some c ->
     m (Host env dirs (r0 ++ take i cs)) c = Ok 0%Z) ->
  m (Host env dirs (r0 ++ take n cs)) command <> Ok 0%Z ->
  run_steps m cs (Host env dirs r0)
  = (failure (m (Host env dirs (r0 ++ take n cs)) command),
     Host env dirs (r0 ++ take (S n) cs)).
Proof.
  revert cs r0. induction n as [|n IH]; intros cs r0 Hn Hbefore Hfail.
  - destruct cs as [|c cs]; [done|]. injection Hn as ->.
    simpl in *. rewrite app_nil_r in *. unfold run_command. cbn [environ made ran].
    destruct (m (Host env dirs r0) command) as [rc|e]; [|done].
    destruct (Z.eqb_spec rc 0) as [->|]; [done|]. by rewrite take_0.
  - destruct cs as [|c cs]; [done|]. simpl in Hn.
    simpl. unfold run_command. cbn [environ made ran].
    pose proof (Hbefore 0 c ltac:(lia) eq_refl) as H0. simpl in H0. rewrite app_nil_r in H0.
    rewrite H0. cbn [Z.eqb].
    rewrite (IH cs (r0 ++ [c]) Hn).
    + by rewrite <- !app_assoc.
    + intros i c' Hi Hc'. rewrite <- app_assoc. apply (Hbefore (S i) c'); [lia|done].
    + by rewrite <- app_assoc.
Qed.

(** X21: the runner on success.  When every command from [start_step] on
    exits with 0 on the host as the commands before it have left it, [main]
    returns 0 after having run exactly those commands, in the order of the
    steps.  A [start_step] of 1 or less runs all five steps; a [start_step]
    beyond 5 runs nothing and still returns 0. *)
Theorem pipeline_runs_every_step_on_success m a s :
  (forall i command, todo a !! i = Some command -> m (after a s i) command = Ok 0%Z) ->
  main m a s = (Ok 0%Z, after a s (length (todo a))).
Proof.
  intros Hall. rewrite main_run_steps. unfold after in *.
  rewrite firstn_all.
  destruct (setup a s) as [env dirs r0] eqn:Hsetup.
  assert (r0 = ran s) as -> by (by rewrite <- (setup_ran a s), Hsetup).
  by apply run_steps_ok.
Qed.

(** X22: the runner stops at the first step that fails.  When the commands
    before the [n]-th one to be run exit with 0 and that one does not (it
    exits with another code, or cannot be started), [main] runs no further
    command: it returns 1 for a non-zero exit code and raises what
    [subprocess.run] raised otherwise. *)
Theorem pipeline_stops_at_the_first_failure m a s n command :
  todo a !! n = Some command ->
  (forall i c, i < n -> todo a !! i = Some c -> m (after a s i) c = Ok 0%Z) ->
  m (after a s n) command <> Ok 0%Z ->
  main m a s = (failure (m (after a s n) command), after a s (S n)).
Proof.
  intros Hn Hbefore Hfail. rewrite main_run_steps. unfold after in *.
  destruct (setup a s) as [env dirs r0] eqn:Hsetup.
  assert (r0 = ran s) as -> by (by rewrite <- (setup_ran a s), Hsetup).
  by apply run_steps_fail.
Qed.

End RunnerFacts.

Lemma pipeline_runs_every_step_on_success_witness :
  let m : Runner.machine := fun _ _ => Ok 0%Z in
  let s := Runner.Host [] [] [] in
  (exists s',
     Runner.main m (Runner.sample_args 4) s = (Ok 0%Z, s') /\
     Runner.ran s'
     = [["python"; "llm_extct_meta.py"; "--analyzed_data";
         "results/analyzed_data/all_documents_analyzed.json";
         "--output_dir"; "results/llm_extr_meta"; "--batch_size"; "10"];
        ["python"; "aggregated.py"; "--target"; "results/selected_metadata.json";
         "--metadata_dir"; "results/llm_extr_meta";
         "--output_dir"; "results/aggregated"]]) /\
  (exists s', Runner.main m (Runner.sample_args 6) s = (Ok 0%Z, s') /\ Runner.ran s' = []).
Proof.
  intros m s. split.
  - eexists. split;
      [exact (pipeline_runs_every_step_on_success m (Runner.sample_args 4) s
                (fun _ _ _ => eq_refl))
      |reflexivity].
  - eexists. split;
      [exact (pipeline_runs_every_step_on_success m (Runner.sample_args 6) s
                (fun _ _ _ => eq_refl))
      |reflexivity].
Defined.

Lemma pipeline_stops_at_the_first_failure_witness :
  let s := Runner.Host [] [] [] in
  exists s',
    Runner.main Runner.fourth_stage_fails (Runner.sample_args 1) s = (Ok 1%Z, s') /\
    length (Runner.ran s') = 4 /\
    last (Runner.ran s')
    = Some ["python"; "llm_extct_meta.py"; "--analyzed_data";
            "results/analyzed_data/all_documents_analyzed.json";
            "--output_dir"; "results/llm_extr_meta"; "--batch_size"; "10"].
Proof.
  intros s.
  assert (forall i c, i < 3 -> Runner.todo (Runner.sample_args 1) !! i = Some c ->
            Runner.fourth_stage_fails (Runner.after (Runner.sample_args 1) s i) c = Ok 0%Z)
    as Hbefore.
  { intros i c Hi Hc. destruct i as [|[|[|i]]]; [..|lia]; by injection Hc as <-. }
  eexists. split;
    [exact (pipeline_stops_at_the_first_failure Runner.fourth_stage_fails
              (Runner.sample_args 1) s 3 _ eq_refl Hbefore ltac:(discriminate))
    |split; reflexivity].
Defined.

(** ** The files a run of the driver touches *)

Section Frame.
Variables (od sd : string).
Abbreviation keeps := (keeps_foreign_files od sd).

Lemma keeps_refl d : keeps d d.
Proof. by split. Qed.

Lemma keeps_trans d1 d2 d3 : keeps d1 d2 -> keeps d2 d3 -> keeps d1 d3.
Proof.
  intros [H1 H1'] [H2 H2']. split.
  - intros path ???. rewrite H2, H1; done.
  - intros pdf H. by apply H2', H1'.
Qed.

Lemma output_file_not_staging pdf : output_file od pdf <> staging_file.
Proof.
  intros Heq.
  assert (PyStr.endswith "_metadata.json" (output_file od pdf) = true) as H.
  { apply endswith_join, endswith_app, endswith_refl. }
  rewrite Heq in H. discriminate H.
Qed.

Lemma keeps_insert_staging d f : keeps d (<[staging_file := f]> d).
Proof.
  split.
  - intros path ???. by rewrite lookup_insert_ne.
  - intros pdf H. by rewrite lookup_insert_ne by apply not_eq_sym, output_file_not_staging.
Qed.

Lemma keeps_delete_staging d : keeps d (delete staging_file d).
Proof.
  split.
  - intros path ???. by rewrite lookup_delete_ne.
  - intros pdf H. by rewrite lookup_delete_ne by apply not_eq_sym, output_file_not_staging.
Qed.

Lemma keeps_insert_record d f : keeps d (<[batch_info_path sd := f]> d).
Proof.
  split.
  - intros path ???. by rewrite lookup_insert_ne.
  - intros pdf H.
    by rewrite lookup_insert_ne by apply not_eq_sym, output_file_not_batch_info.
Qed.

Lemma keeps_delete_record d : keeps d (delete (batch_info_path sd) d).
Proof.
  split.
  - intros path ???. by rewrite lookup_delete_ne.
  - intros pdf H.
    by rewrite lookup_delete_ne by apply not_eq_sym, output_file_not_batch_info.
Qed.

Lemma keeps_store_results groups d : keeps d (store_results od groups d).
Proof.
  split.
  - intros path _ _ H. apply store_results_other. intros pdf data _. apply not_eq_sym, H.
  - intros pdf H. by apply store_results_mono.
Qed.

Lemma check_keeps c w :
  keeps (disk w) (disk (check_batch_status c sd od w).2).
Proof.
  unfold check_batch_status. io_unfold.
  destruct (disk w !! batch_info_path sd) as [f|] eqn:Hf; simpl; [|apply keeps_refl].
  rewrite Hf.
  destruct (json_load f) as [batch_info|]; simpl; [|apply keeps_refl].
  destruct (Py.get batch_info "batch_id" JNull) as [bid|]; simpl; [|apply keeps_refl].
  destruct (Py.truthy bid); simpl; [|apply keeps_refl].
  destruct (batches_retrieve c bid) as [b|]; simpl; [|apply keeps_refl].
  destruct (Py.items batch_info) as [fields|]; simpl; [|apply keeps_refl].
  destruct (_ && _); simpl; [|apply keeps_insert_record].
  destruct (files_content c _) as [batch_results|]; simpl; [|apply keeps_insert_record].
  destruct (foldM result_step batch_results []) as [pdf_results|]; simpl;
    [|apply keeps_insert_record].
  rewrite write_results_spec. simpl.
  rewrite store_results_batch_info, lookup_insert_eq. simpl.
  eapply keeps_trans; [apply keeps_insert_record|].
  eapply keeps_trans; [apply keeps_store_results|]. apply keeps_delete_record.
Qed.

Lemma submit_keeps rt c metadata w :
  keeps (disk w) (disk (submit_batch_job rt c staging_file sd metadata w).2).
Proof.
  unfold submit_batch_job. io_unfold.
  destruct (disk w !! staging_file) as [f|]; simpl; [|apply keeps_refl].
  destruct (files_create c f) as [fid|]; simpl; [|apply keeps_refl].
  destruct (batches_create c fid) as [bid|]; simpl; [|apply keeps_refl].
  unfold IO.json_dump.
  destruct (job_record _ _ _ _) as [j|]; io_unfold; simpl; apply keeps_insert_record.
Qed.

Lemma prepare_keeps rt data sp model w :
  keeps (disk w) (disk (prepare_batch_file rt data sp model w).2) /\
  forall staged w1, prepare_batch_file rt data sp model w = (Ok staged, w1) ->
    staged.1 = staging_file.
Proof.
  unfold prepare_batch_file. io_unfold.
  destruct (batch_requests rt data sp model) as [[lines meta]|]; simpl.
  - split; [apply keeps_insert_staging|]. by intros staged w1 [= <- _].
  - split; [apply keeps_refl|]. done.
Qed.

Lemma fresh_job_keeps rt c file model w :
  keeps (disk w) (disk (submit_new_job rt c file od sd model w).2).
Proof.
  unfold submit_new_job.
  unfold mbind at 1, io_bind at 1. unfold IO.read at 1.
  destruct (disk w !! file) as [f|]; [|apply keeps_refl].
  unfold mbind at 1, io_bind at 1. unfold IO.lift at 1.
  destruct (json_load f) as [analyzed_data|]; [|apply keeps_refl].
  unfold mbind at 1, io_bind at 1. unfold IO.lift at 1.
  destruct (Py.items analyzed_data) as [documents|]; [|apply keeps_refl].
  unfold mbind at 1, io_bind at 1. unfold skip_processed at 1.
  set (rest := fold_left _ _ _).
  destruct (negb (Py.truthy (JObj rest))); [apply keeps_refl|].
  unfold mbind at 1, io_bind at 1.
  destruct (prepare_keeps rt (JObj rest) (system_prompts rt) model w) as [Hprep Hname].
  destruct (prepare_batch_file rt (JObj rest) (system_prompts rt) model w)
    as [[staged|e] w1]; simpl in Hprep; [|done].
  rewrite (Hname staged w1 eq_refl).
  unfold mbind at 1, io_bind at 1.
  pose proof (submit_keeps rt c (Data staged.2) w1) as Hsub.
  destruct (submit_calls rt c staging_file sd (Data staged.2) w1)
    as (r & w2 & sent & Hrun & _ & _).
  rewrite Hrun in Hsub |- *. simpl in Hsub.
  eapply keeps_trans; [exact Hprep|]. eapply keeps_trans; [exact Hsub|].
  unfold mbind, io_bind, IO.exists_, IO.remove, mret, io_ret. simpl.
  destruct (bool_decide _); simpl; [|apply keeps_refl].
  destruct (disk w2 !! staging_file); simpl; [apply keeps_delete_staging|apply keeps_refl].
Qed.

End Frame.

Lemma driver_keeps rt file key od model w :
  keeps_foreign_files od (PyPath.join od "state")
    (disk w) (disk (process_all_pdfs rt file key od model w).2).
Proof.
  unfold process_all_pdfs. unfold mbind at 1, io_bind at 1. unfold IO.exists_ at 1.
  destruct (bool_decide _); [|apply fresh_job_keeps].
  unfold mbind at 1, io_bind at 1.
  pose proof (check_keeps od (PyPath.join od "state") (OpenAI rt key) w) as Hcheck.
  destruct (check_total (OpenAI rt key) (PyPath.join od "state") od w)
    as (s & w1 & reads & Hrun & _ & _).
  rewrite Hrun in Hcheck |- *. simpl in Hcheck.
  destruct (str_in s ["completed"; "completed_and_processed"]); [exact Hcheck|].
  destruct (str_in s ["submitted"; "in_progress"]); [exact Hcheck|].
  unfold mbind at 1, io_bind at 1. unfold IO.remove at 1.
  destruct (disk w1 !! _); [|exact Hcheck].
  eapply keeps_trans; [exact Hcheck|].
  eapply keeps_trans; [apply keeps_delete_record|].
  exact (fresh_job_keeps od (PyPath.join od "state") rt (OpenAI rt key) file model
           (World (delete (batch_info_path (PyPath.join od "state")) (disk w1)) (calls w1))).
Qed.

(** X23: the driver touches only its own files.  Whatever the disk holds
    and whatever the service does, and whether it returns or raises, a call
    of [process_all_pdfs] leaves every file as it was that is not the
    staging file, the job record or the artifact of some document; and it
    never removes an artifact: one that existed before the call exists
    after it. *)
Theorem driver_touches_only_its_own_files rt file key od model w :
  let w' := (process_all_pdfs rt file key od model w).2 in
  let sd := PyPath.join od "state" in
  (forall path,
     path <> staging_file -> path <> batch_info_path sd ->
     (forall pdf, path <> output_file od pdf) ->
     disk w' !! path = disk w !! path) /\
  (forall pdf, is_Some (disk w !! output_file od pdf) ->
               is_Some (disk w' !! output_file od pdf)).
Proof. apply driver_keeps. Qed.

(** ** Artifact paths *)

Section Stems.
Import PyStr.

Lemma contains_slash_cons c s :
  contains "/" (String c s) = Ascii.eqb "/" c || contains "/" s.
Proof.
  change (contains "/" (String c s)) with (startswith "/" (String c s) || contains "/" s).
  f_equal. rewrite startswith_cons. cbn [startswith]. apply andb_true_r.
Qed.

(** No piece of a split at ["/"] contains a slash. *)
Lemma split_slash_pieces s p ps :
  split_go "/" s 0 = (p, ps) -> Forall (fun x => contains "/" x = false) (p :: ps).
Proof.
  revert p ps. induction s as [|c s IH]; intros p ps.
  - intros [= <- <-]. by repeat constructor.
  - change (split_go "/" (String c s) 0)
      with (if startswith "/" (String c s)
            then (EmptyString, let '(p, ps) := split_go "/" s 0 in p :: ps)
            else let '(p, ps) := split_go "/" s 0 in (String c p, ps)).
    destruct (split_go "/" s 0) as [p' ps'].
    specialize (IH p' ps' eq_refl).
    destruct (startswith "/" (String c s)) eqn:Hp.
    + intros [= <- <-]. by constructor.
    + intros [= <- <-]. apply Forall_cons in IH as [Hp' Hps']. constructor; [|done].
      rewrite contains_slash_cons, Hp', orb_false_r.
      rewrite startswith_cons in Hp. cbn [startswith] in Hp. by rewrite andb_true_r in Hp.
Qed.

Lemma last_In_or_default {A} (l : list A) d : List.last l d = d \/ In (List.last l d) l.
Proof.
  induction l as [|x l IH]; [by left|].
  destruct l as [|y l]; [right; by left|].
  destruct IH as [IH|IH]; [|right; by right].
  change (List.last (x :: y :: l) d) with (List.last (y :: l) d).
  destruct l; simpl in *; auto.
Qed.

Lemma name_no_slash p : contains "/" (PyPath.name p) = false.
Proof.
  unfold PyPath.name. set (l := List.filter _ _).
  destruct (last_In_or_default l "") as [->|Hin]; [done|].
  apply filter_In in Hin as [Hin _]. unfold split in Hin.
  destruct (split_go "/" p 0) as [x xs] eqn:Hsplit.
  apply split_slash_pieces in Hsplit. rewrite Forall_forall in Hsplit.
  apply Hsplit. by apply list_elem_of_In.
Qed.

Lemma substring_no_slash n s :
  contains "/" s = false -> contains "/" (String.substring 0 n s) = false.
Proof.
  revert s. induction n as [|n IH]; intros s H.
  - by destruct s.
  - destruct s as [|c s]; [done|]. cbn [String.substring].
    rewrite contains_slash_cons in H |- *.
    apply orb_false_iff in H as [-> H]. by apply IH.
Qed.

(** A stem is one component of a path: it contains no slash. *)
Lemma stem_no_slash p : contains "/" (PyPath.stem p) = false.
Proof.
  unfold PyPath.stem. pose proof (name_no_slash p) as H.
  destruct (PyPath.rfind "." (PyPath.name p)) as [i|]; [|done].
  destruct (_ && _); [|done]. by apply substring_no_slash.
Qed.

Lemma append_inj_l a b1 b2 : a +:+ b1 = a +:+ b2 -> b1 = b2.
Proof.
  induction a as [|c a IH]; [done|].
  change (String c a +:+ b1) with (String c (a +:+ b1)).
  change (String c a +:+ b2) with (String c (a +:+ b2)).
  intros [= H]. by apply IH.
Qed.

Lemma length_append a b : String.length (a +:+ b) = String.length a + String.length b.
Proof.
  induction a as [|c a IH]; [done|].
  change (String c a +:+ b) with (String c (a +:+ b)). simpl. by rewrite IH.
Qed.

Lemma append_inj_r a1 a2 b : a1 +:+ b = a2 +:+ b -> a1 = a2.
Proof.
  revert a2. induction a1 as [|c a1 IH]; intros [|c' a2] H.
  - done.
  - apply (f_equal String.length) in H. rewrite !length_append in H. simpl in H. lia.
  - apply (f_equal String.length) in H. rewrite !length_append in H. simpl in H. lia.
  - change (String c a1 +:+ b) with (String c (a1 +:+ b)) in H.
    change (String c' a2 +:+ b) with (String c' (a2 +:+ b)) in H.
    injection H as -> H. by rewrite (IH a2 H).
Qed.

(** The file name of an artifact is never an absolute path, so that
    [os.path.join] keeps the output directory in front of it. *)
Lemma artifact_name_relative pdf :
  startswith "/" (PyPath.stem pdf +:+ "_metadata.json") = false.
Proof.
  pose proof (stem_no_slash pdf) as H.
  destruct (PyPath.stem pdf) as [|c s]; [done|].
  change (String c s +:+ "_metadata.json") with (String c (s +:+ "_metadata.json")).
  rewrite contains_slash_cons in H. apply orb_false_iff in H as [H _].
  rewrite startswith_cons. cbn [startswith]. by rewrite andb_true_r.
Qed.

(** X24: two documents share an artifact path exactly when they have the
    same stem.  Documents with different stems are never written to the
    same file, whatever the output directory; documents with the same stem
    (the same file name up to its last suffix, in whatever directory) always
    are. *)
Theorem artifacts_collide_exactly_on_equal_stems od pdf1 pdf2 :
  output_file od pdf1 = output_file od pdf2 <-> PyPath.stem pdf1 = PyPath.stem pdf2.
Proof.
  split; [|unfold output_file; by intros ->].
  unfold output_file, PyPath.join.
  rewrite !artifact_name_relative.
  destruct (_ || _).
  - by intros H%append_inj_l%append_inj_r.
  - by intros H%append_inj_l%append_inj_l%append_inj_r.
Qed.

End Stems.
